(** * securedgram-psk-aes: a shallow embedding of the DTLS 1.0 PSK client

    The development follows the layout of the JavaScript sources:
    a small model of the JavaScript run time ([JS]), of Node's [Buffer]
    ([Buf]), then [enums], [CryptoUtils], the message codecs, [DtlsRecord]
    and [DtlsSession].  Integers are [Z], octets are [Z] in [0, 256),
    buffers are lists of octets.  Code that can throw lives in the
    [JS.result] monad; a function that can return [null] returns an
    [option]. *)

From Stdlib Require Import String Ascii QArith.
From Stdlib Require Import ZArith List Lia Bool.
Import ListNotations.
Open Scope Z_scope.

Set Implicit Arguments.

(* ------------------------------------------------------------------ *)
(** ** The JavaScript run time *)

Module JS.

(** The exceptions the sources raise, plus the [Error] Node's crypto
    binding raises. *)
Inductive exn : Type :=
| TypeError
| RangeError
| ReferenceError
| CryptoError.

Inductive result (A : Type) : Type :=
| Ok (a : A)
| Throw (e : exn).

Arguments Ok {A} a.
Arguments Throw {A} e.

Definition bind {A B : Type} (m : result A) (k : A -> result B) : result B :=
  match m with
  | Ok a => k a
  | Throw e => Throw e
  end.

Definition throws {A : Type} (m : result A) : bool :=
  match m with
  | Ok _ => false
  | Throw _ => true
  end.

(** Values a variable may hold where the sources rely on [undefined]. *)
Inductive value : Type :=
| Undefined
| Num (n : Z).

(** [a !== b] on such values. *)
Definition strict_neq (a b : value) : bool :=
  match a, b with
  | Undefined, Undefined => false
  | Num x, Num y => negb (x =? y)
  | _, _ => true
  end.

(** What an identifier in scope is bound to, as far as the model needs
    it: a number, or some other object (a function, a buffer, a module). *)
Inductive binding : Type :=
| BNum (n : Z)
| BObject.

(** Identifier resolution: reading a name that no enclosing scope
    declares raises [ReferenceError] (in strict and in sloppy mode). *)
Fixpoint resolve (scope : list (string * binding)) (name : string) : result binding :=
  match scope with
  | [] => Throw ReferenceError
  | (x, b) :: rest => if String.eqb name x then Ok b else resolve rest name
  end.

(** The names every Node module sees: the module wrapper's parameters
    and the globals the sources mention. *)
Definition moduleScope : list (string * binding) :=
  map (fun x => (x, BObject))
      ["exports"; "require"; "module"; "__filename"; "__dirname";
       "Buffer"; "Object"; "Array"; "Math"; "Number"; "console"; "process"; "global"]%string.

(** [ToIntegerOrInfinity] on a finite number: truncation toward zero. *)
Definition ToInteger (q : Q) : Z := Z.quot (Qnum q) (Zpos (Qden q)).

(** [Math.ceil(n / d)] for integers [n] and [d > 0]. *)
Definition ceil_div (n d : Z) : Z := - ((- n) / d).

End JS.

Notation "'let*' x ':=' e 'in' k" :=
  (JS.bind e (fun x => k))
    (at level 10, x pattern, e at level 100, k at level 200).

(* ------------------------------------------------------------------ *)
(** ** Node's Buffer *)

Definition Buffer : Type := list Z.

Module Buf.

Definition len (b : Buffer) : Z := Z.of_nat (length b).

(** [Buffer.alloc(n)] *)
Definition alloc (n : Z) : Buffer := repeat 0 (Z.to_nat n).

(** [b[i]]: [None] is [undefined]. *)
Definition get (b : Buffer) (i : Z) : option Z :=
  if i <? 0 then None else nth_error b (Z.to_nat i).

(** [b[i]] as a JavaScript value. *)
Definition index (b : Buffer) (i : Z) : JS.value :=
  match get b i with
  | Some v => JS.Num v
  | None => JS.Undefined
  end.

(** The conversion applied when a value is stored in a buffer:
    [undefined] becomes 0, a number is reduced modulo 256. *)
Definition ToUint8 (v : JS.value) : Z :=
  match v with
  | JS.Num n => n mod 256
  | JS.Undefined => 0
  end.

(** Overwrite [b] from position [off] with [bytes], never growing [b]. *)
Definition write_at (b : Buffer) (off : nat) (bytes : list Z) : Buffer :=
  let chunk := firstn (length b - off) bytes in
  firstn off b ++ chunk ++ skipn (off + length chunk) b.

(** [b[off] = v]: the value is reduced modulo 256; an index outside the
    buffer is ignored. *)
Definition store (b : Buffer) (off : Z) (v : Z) : Buffer :=
  if (off <? 0) || (len b <=? off) then b
  else write_at b (Z.to_nat off) [v mod 256].

(** Big-endian octets of [v], [n] of them. *)
Fixpoint beBytes (n : nat) (v : Z) : list Z :=
  match n with
  | O => []
  | S k => beBytes k (v / 256) ++ [v mod 256]
  end.

Definition beValue (l : list Z) : Z :=
  fold_left (fun acc b => acc * 256 + b) l 0.

(** [b.writeUIntBE(v, off, n)]; [writeUInt16BE] is the case [n = 2]. *)
Definition writeUIntBE (b : Buffer) (v : Z) (off : Z) (n : nat) : JS.result Buffer :=
  if (v <? 0) || (256 ^ Z.of_nat n <=? v) then JS.Throw JS.RangeError
  else if (off <? 0) || (len b <? off + Z.of_nat n) then JS.Throw JS.RangeError
  else JS.Ok (write_at b (Z.to_nat off) (beBytes n v)).

Definition writeUInt16BE (b : Buffer) (v : Z) (off : Z) : JS.result Buffer :=
  writeUIntBE b v off 2.

(** [b.readUIntBE(off, n)] *)
Definition readUIntBE (b : Buffer) (off : Z) (n : nat) : JS.result Z :=
  if (off <? 0) || (len b <? off + Z.of_nat n) then JS.Throw JS.RangeError
  else JS.Ok (beValue (firstn n (skipn (Z.to_nat off) b))).

Definition readUInt16BE (b : Buffer) (off : Z) : JS.result Z :=
  readUIntBE b off 2.

(** [src.copy(target, targetStart, sourceStart, sourceEnd)]; returns the
    target after the copy.  The range is clamped to both buffers. *)
Definition copy (src target : Buffer) (targetStart sourceStart sourceEnd : Z) : Buffer :=
  let chunk := firstn (Z.to_nat (sourceEnd - sourceStart))
                      (skipn (Z.to_nat sourceStart) src) in
  write_at target (Z.to_nat targetStart) chunk.

(** [b.fill(v, start, end)] *)
Definition fill (b : Buffer) (v : Z) (start end_ : Z) : Buffer :=
  write_at b (Z.to_nat start) (repeat (v mod 256) (Z.to_nat (end_ - start))).

(** Index normalisation of [slice]: a negative index counts from the
    end, everything is clamped to [0, len]. *)
Definition adjust (i l : Z) : Z :=
  if i <? 0 then Z.max (l + i) 0 else Z.min i l.

(** [b.slice(start, end)] on integer arguments. *)
Definition slice (b : Buffer) (start end_ : Z) : Buffer :=
  let s := adjust start (len b) in
  let e := adjust end_ (len b) in
  firstn (Z.to_nat (e - s)) (skipn (Z.to_nat s) b).

(** [new Buffer(string)] for the ASCII labels the sources use. *)
Definition ofString (s : string) : Buffer :=
  map (fun c => Z.of_nat (nat_of_ascii c)) (list_ascii_of_string s).

(** [Buffer.compare(a, b)]: the three-way lexicographic comparison of
    Node; the result is -1, 0 or 1 as [a] sorts before [b], is equal to
    it, or sorts after it. *)
Fixpoint compare (a b : Buffer) : Z :=
  match a, b with
  | [], [] => 0
  | [], _ :: _ => -1
  | _ :: _, [] => 1
  | x :: a', y :: b' =>
      if x <? y then -1
      else if y <? x then 1
      else compare a' b'
  end.

End Buf.

(* ------------------------------------------------------------------ *)
(** ** enums.js

    The sources hold two revisions of [enums.js].  The session and the
    record layer need the revision that declares [ProtocolType],
    [SessionState], [BulkEncryptionAlgorithm] and [MacAlgorithm]; these
    are taken from it.  What both revisions declare agrees, with one
    exception: [getMaximumCookieLength] validates with
    [isDtlsVersionValid] in one revision and calls [isVersionValid],
    which nothing declares, in the other.  The revision with the working
    validation is [getMaximumCookieLength]; the other one is given next
    to it. *)

Module enums.

Definition DtlsVersion_DTLS_1_0 : Z := 0xfeff.

Definition isDtlsVersionValid (v : Z) : bool := v =? 0xfeff.

Definition CipherSuite_TLS_NULL_WITH_NULL_NULL : Z := 0x0000.
Definition CipherSuite_TLS_PSK_WITH_AES_128_CBC_SHA : Z := 0x008C.
Definition CipherSuite_TLS_PSK_WITH_AES_256_CBC_SHA : Z := 0x008D.

Inductive BulkEncryptionAlgorithm : Type :=
| Bulk_NULL
| AES_128_CBC
| AES_256_CBC.

Definition isBulkNULL (a : BulkEncryptionAlgorithm) : bool :=
  match a with Bulk_NULL => true | _ => false end.

Definition getBulkAlgorithmKeySize (a : BulkEncryptionAlgorithm) : Z :=
  match a with
  | AES_128_CBC => 16
  | AES_256_CBC => 32
  | Bulk_NULL => 0
  end.

Definition getBulkAlgorithmBlockSize (a : BulkEncryptionAlgorithm) : Z :=
  match a with
  | AES_128_CBC | AES_256_CBC => 16
  | Bulk_NULL => 1
  end.

Definition getBulkAlgorithmAsString (a : BulkEncryptionAlgorithm) : string :=
  match a with
  | AES_128_CBC => "aes-128-cbc"
  | AES_256_CBC => "aes-256-cbc"
  | Bulk_NULL => "null"
  end.

Inductive MacAlgorithm : Type :=
| Mac_NULL
| Mac_SHA1.

Definition getMacAlgorithmHashSize (m : MacAlgorithm) : Z :=
  match m with
  | Mac_SHA1 => 20
  | Mac_NULL => 0
  end.

Definition CompressionMethod_NULL : Z := 0x00.

(** [SessionState] is a frozen object with the members [NotConnected],
    [ClientHelloSent] and [FinishedSent]; reading any other member, and
    so [SessionState.Connected], gives [undefined]. *)
Definition SessionState (member : string) : JS.value :=
  if String.eqb member "NotConnected" then JS.Num 0
  else if String.eqb member "ClientHelloSent" then JS.Num 1
  else if String.eqb member "FinishedSent" then JS.Num 2
  else JS.Undefined.

Definition SessionState_NotConnected : JS.value := SessionState "NotConnected".
Definition SessionState_ClientHelloSent : JS.value := SessionState "ClientHelloSent".
Definition SessionState_FinishedSent : JS.value := SessionState "FinishedSent".
Definition SessionState_Connected : JS.value := SessionState "Connected".

Definition ProtocolType_DtlsChangeCipherSpecProtocol : Z := 0x14.
Definition ProtocolType_DtlsAlertProtocol : Z := 0x15.
Definition ProtocolType_DtlsHandshakeProtocol : Z := 0x16.
Definition ProtocolType_DtlsApplicationDataProtocol : Z := 0x17.

Definition isProtocolTypeValid (t : Z) : bool :=
  (t =? 0x14) || (t =? 0x15) || (t =? 0x16) || (t =? 0x17).

Definition MAX_DTLS_10_COOKIE_LENGTH : Z := 32.

Definition getMaximumCookieLength (version : Z) : JS.result Z :=
  if negb (isDtlsVersionValid version) then JS.Throw JS.RangeError
  else if version =? DtlsVersion_DTLS_1_0 then JS.Ok MAX_DTLS_10_COOKIE_LENGTH
  else JS.Throw JS.RangeError.

(** The other revision: [this.isVersionValid] is [undefined], and calling
    it raises [TypeError]. *)
Definition getMaximumCookieLength_isVersionValid (version : Z) : JS.result Z :=
  JS.Throw JS.TypeError.

Definition ChangeCipherSpecType_One : Z := 0x01.

Definition isChangeCipherSpecTypeValid (t : Z) : bool := t =? 0x01.

Definition MessageType_ClientHello : Z := 0x01.
Definition MessageType_ServerHello : Z := 0x02.
Definition MessageType_HelloVerifyRequest : Z := 0x03.
Definition MessageType_ClientKeyExchange : Z := 0x10.
Definition MessageType_Finished : Z := 0x14.

Definition isMessageTypeValid (t : Z) : bool :=
  (t =? 0x01) || (t =? 0x02) || (t =? 0x03) || (t =? 0x0e) || (t =? 0x10) || (t =? 0x14).

Definition AlertLevel_Warning : Z := 1.
Definition AlertLevel_Fatal : Z := 2.

Definition isAlertLevelValid (l : Z) : bool := (l =? 1) || (l =? 2).

Definition AlertDescription_CloseNotify : Z := 0.
Definition AlertDescription_BadRecordMac : Z := 20.

Definition isAlertDescriptionValid (d : Z) : bool := (d =? 0) || (d =? 20).

End enums.

(* ------------------------------------------------------------------ *)
(** ** The crypto primitives of Node (external to the repository) *)

Inductive HashAlgorithm : Type := md5 | sha1.

Definition digestSize (a : HashAlgorithm) : Z :=
  match a with md5 => 16 | sha1 => 20 end.

(** The part of Node's [crypto] module the sources call.
    - [cryptoLoads]: whether [require('crypto')] succeeds;
    - [createHmac a key data] is [createHmac(a, key).update(data).digest()];
    - [createHash a data] is [createHash(a).update(data).digest()];
    - [cipher name key iv data] and [decipher name key iv data] are
      [update(data)] followed by [final()] on a cipher with automatic
      padding switched off, for [data] a whole number of blocks;
    - [randomBytes k n] is the result of the [k]-th call of
      [randomBytes(n)]. *)
Class Crypto : Type := {
  cryptoLoads : bool;
  createHmac : HashAlgorithm -> Buffer -> Buffer -> Buffer;
  createHash : HashAlgorithm -> Buffer -> Buffer;
  cipher : string -> Buffer -> Buffer -> Buffer -> Buffer;
  decipher : string -> Buffer -> Buffer -> Buffer -> Buffer;
  randomBytes : nat -> Z -> Buffer
}.

(** What the proofs assume of the primitives. *)
Class CryptoLaws (C : Crypto) : Prop := {
  createHmac_length :
    forall a key data, Buf.len (createHmac a key data) = digestSize a;
  createHash_length :
    forall a data, Buf.len (createHash a data) = digestSize a;
  cipher_length :
    forall name key iv data, length (cipher name key iv data) = length data;
  decipher_length :
    forall name key iv data, length (decipher name key iv data) = length data;
  decipher_cipher :
    forall name key iv data, decipher name key iv (cipher name key iv data) = data;
  randomBytes_length :
    forall k n, 0 <= n -> Buf.len (randomBytes k n) = n
}.

(** A small instance on which the definitions can be run: the MAC is a
    checksum, the block cipher reverses its input. *)
Module ToyCrypto.

Definition checksum (l : Buffer) : Z := fold_left Z.add l 0.

Definition hmac (a : HashAlgorithm) (key data : Buffer) : Buffer :=
  map (fun i => (checksum key + 3 * checksum data + Z.of_nat i) mod 256)
      (seq 0 (Z.to_nat (digestSize a))).

Definition hash (a : HashAlgorithm) (data : Buffer) : Buffer :=
  map (fun i => (checksum data + 7 * Z.of_nat i) mod 256)
      (seq 0 (Z.to_nat (digestSize a))).

Definition random (k : nat) (n : Z) : Buffer :=
  map (fun i => (Z.of_nat k + Z.of_nat i) mod 256) (seq 0 (Z.to_nat n)).

#[export] Instance crypto : Crypto := {|
  cryptoLoads := true;
  createHmac := hmac;
  createHash := hash;
  cipher := fun _ _ _ data => rev data;
  decipher := fun _ _ _ data => rev data;
  randomBytes := random
|}.


End ToyCrypto.

(* ------------------------------------------------------------------ *)
(** ** CryptoUtils.js *)

Module CryptoUtils.

Section WithCrypto.

Context {C : Crypto}.

Definition verifyCrypto : bool := cryptoLoads.

  (** The loop of [P_hash]; [fuel] bounds the number of iterations. *)
Fixpoint P_hash_loop (fuel : nat) (secret seed : Buffer) (outputLength : Z)
           (algorithm : HashAlgorithm) (result data : Buffer) : Buffer :=
    match fuel with
    | O => result
    | S fuel' =>
        if Buf.len result <? outputLength then
          let hmac := createHmac algorithm secret data in
          let dataForNextIteration := hmac in
          let data := hmac ++ seed in
          let hmac := createHmac algorithm secret data in
          let result := result ++ hmac in
          P_hash_loop fuel' secret seed outputLength algorithm result dataForNextIteration
        else result
    end.

  (** [P_hash]; for a negative [outputLength] the loop does not run and
      [Buffer.alloc(outputLength)] raises [RangeError]. *)
Definition P_hash (secret seed : Buffer) (outputLength : Z) (algorithm : HashAlgorithm)
    : JS.result Buffer :=
    let result := P_hash_loop (S (Z.to_nat outputLength)) secret seed outputLength
                              algorithm (Buf.alloc 0) seed in
    if outputLength <? Buf.len result
    then
      if outputLength <? 0 then JS.Throw JS.RangeError
      else JS.Ok (Buf.copy result (Buf.alloc outputLength) 0 0 outputLength)
    else JS.Ok result.

  (** [result[i] = buffer1[i] ^ buffer2[i]]; a missing operand is
      [undefined] and counts as 0. *)
Definition xorBuffers (buffer1 buffer2 : Buffer) : Buffer :=
    map (fun i =>
           let a := match Buf.get buffer1 (Z.of_nat i) with Some x => x | None => 0 end in
           let b := match Buf.get buffer2 (Z.of_nat i) with Some x => x | None => 0 end in
           Z.lxor a b mod 256)
        (seq 0 (length buffer1)).

  (** [(secret.length / 2) + (secret.length % 2)], a JavaScript number. *)
Definition secretEachHalfLength (secret : Buffer) : Q :=
    (inject_Z (Buf.len secret) / 2 + inject_Z (Buf.len secret mod 2))%Q.

  (** [(secret.length / 2) - (secret.length % 2)] *)
Definition secretSecondHalfStart (secret : Buffer) : Q :=
    (inject_Z (Buf.len secret) / 2 - inject_Z (Buf.len secret mod 2))%Q.

Definition secretFirstHalf (secret : Buffer) : Buffer :=
    Buf.slice secret 0 (JS.ToInteger (secretEachHalfLength secret)).

Definition secretSecondHalf (secret : Buffer) : Buffer :=
    Buf.slice secret (JS.ToInteger (secretSecondHalfStart secret)) (Buf.len secret).

  (** [PRF(secret, label, seed, outputLength)]; [None] is [null]. *)
Definition PRF (secret : Buffer) (label : string) (seed : Buffer) (outputLength : Z)
    : JS.result (option Buffer) :=
    if negb verifyCrypto then JS.Ok None
    else
      let label := Buf.ofString label in
      let combinedSeed := label ++ seed in
      let* md5Result := P_hash (secretFirstHalf secret) combinedSeed outputLength md5 in
      let* sha1Result := P_hash (secretSecondHalf secret) combinedSeed outputLength sha1 in
      JS.Ok (Some (xorBuffers md5Result sha1Result)).

  (** [createPremasterSecret_FromPresharedKey(psk)] *)
Definition createPremasterSecret_FromPresharedKey (psk : Buffer) : JS.result Buffer :=
    let pskBufferLength := Buf.len psk in
    let premasterSecret := Buf.alloc (4 + pskBufferLength * 2) in
    let* premasterSecret := Buf.writeUInt16BE premasterSecret pskBufferLength 0 in
    let* premasterSecret :=
      Buf.writeUInt16BE premasterSecret pskBufferLength (2 + pskBufferLength) in
    JS.Ok (Buf.copy psk premasterSecret (pskBufferLength + 4) 0 pskBufferLength).

End WithCrypto.

(** The split of the secret as RFC 2246 and the comment in [PRF]
    describe it: both halves have [ceil(n / 2)] octets. *)
Definition halfLength (secret : Buffer) : nat := Nat.div2 (S (length secret)).
Definition rfcFirstHalf (secret : Buffer) : Buffer := firstn (halfLength secret) secret.
Definition rfcSecondHalf (secret : Buffer) : Buffer :=
  skipn (length secret - halfLength secret) secret.

End CryptoUtils.


(* ------------------------------------------------------------------ *)
(** ** helpers/SerializationHelper.js *)

Module SerializationHelper.

(** [ValidateDeserializationArguments(buffer, offset, minimumLength)];
    [offset] is [None] when the argument is [undefined]. *)
Definition ValidateDeserializationArguments
           (buffer : Buffer) (offset : option nat) (minimumLength : Z) : JS.result bool :=
  if minimumLength <? 0 then JS.Throw JS.RangeError
  else
    let* offset :=
      match offset with
      | None => JS.Ok 0
      | Some o => if Buf.len buffer <? Z.of_nat o then JS.Throw JS.RangeError
                  else JS.Ok (Z.of_nat o)
      end in
    if Buf.len buffer - offset <? minimumLength then JS.Ok false else JS.Ok true.

End SerializationHelper.

(** The argument checks that open every [fromBuffer] written before
    [SerializationHelper] existed: the initial offset, or [RangeError]. *)
Definition initialOffsetOf (buffer : Buffer) (offset : option nat) : JS.result Z :=
  match offset with
  | None => JS.Ok 0
  | Some o => if Buf.len buffer <=? Z.of_nat o then JS.Throw JS.RangeError
              else JS.Ok (Z.of_nat o)
  end.

(* ------------------------------------------------------------------ *)
(** ** messages/DtlsAlertMessage.js *)

Module DtlsAlertMessage.

Definition MIN_LENGTH : Z := 2.
Definition MAX_LENGTH : Z := 2.

Record t : Type := { level : JS.value; description : JS.value }.

Definition create (level description : Z) : JS.result t :=
  if negb (enums.isAlertLevelValid level) then JS.Throw JS.RangeError
  else if negb (enums.isAlertDescriptionValid description) then JS.Throw JS.RangeError
  else JS.Ok {| level := JS.Num level; description := JS.Num description |}.

Definition fromBuffer (buffer : Buffer) (offset : option nat) : JS.result (option (t * Z)) :=
  let* initialOffset := initialOffsetOf buffer offset in
  let currentOffset := initialOffset in
  if Buf.len buffer - currentOffset <? MIN_LENGTH then JS.Ok None
  else
    let level := Buf.index buffer currentOffset in
    let currentOffset := currentOffset + 1 in
    let description := Buf.index buffer currentOffset in
    let currentOffset := currentOffset + 1 in
    JS.Ok (Some ({| level := level; description := description |},
                 currentOffset - initialOffset)).

(** The names in scope in the body of [toBuffer]: its two locals, the
    module's own declarations and the module scope. *)
Definition toBuffer_scope : list (string * JS.binding) :=
  [("result", JS.BObject); ("offset", JS.BNum 0);
   ("enums", JS.BObject); ("MIN_LENGTH", JS.BNum MIN_LENGTH);
   ("MAX_LENGTH", JS.BNum MAX_LENGTH); ("DtlsAlertMessage", JS.BObject)]%string
  ++ JS.moduleScope.

(** [toBuffer]: the two assignments are [buffer[offset] = level] and
    [buffer[offset] = description], on the names [buffer], [level] and
    [description]; [result] is returned as allocated. *)
Definition toBuffer (this : t) : JS.result Buffer :=
  let result := Buf.alloc MAX_LENGTH in
  let* _ := JS.resolve toBuffer_scope "buffer" in
  let* _ := JS.resolve toBuffer_scope "level" in
  let* _ := JS.resolve toBuffer_scope "buffer" in
  let* _ := JS.resolve toBuffer_scope "description" in
  JS.Ok result.

End DtlsAlertMessage.

(* ------------------------------------------------------------------ *)
(** ** messages/DtlsChangeCipherSpecMessage.js *)

Module DtlsChangeCipherSpecMessage.

Definition MIN_LENGTH : Z := 1.
Definition MAX_LENGTH : Z := 1.

Record t : Type := { type : JS.value }.

Definition create (type : Z) : JS.result t :=
  if negb (enums.isChangeCipherSpecTypeValid type) then JS.Throw JS.RangeError
  else JS.Ok {| type := JS.Num type |}.

Definition fromBuffer (buffer : Buffer) (offset : option nat) : JS.result (option (t * Z)) :=
  let* initialOffset := initialOffsetOf buffer offset in
  let currentOffset := initialOffset in
  if Buf.len buffer - currentOffset <? MIN_LENGTH then JS.Ok None
  else
    let type := Buf.index buffer currentOffset in
    let currentOffset := currentOffset + 1 in
    JS.Ok (Some ({| type := type |}, currentOffset - initialOffset)).

Definition toBuffer (this : t) : Buffer :=
  let result := Buf.alloc MAX_LENGTH in
  let offset := 0 in
  Buf.store result offset (Buf.ToUint8 (type this)).

End DtlsChangeCipherSpecMessage.

(* ------------------------------------------------------------------ *)
(** ** messages/DtlsApplicationDataMessage.js *)

Module DtlsApplicationDataMessage.

Record t : Type := { data : Buffer }.

(** [data] is a buffer here, so the [undefined] and [null] checks pass. *)
Definition create (data : Buffer) : JS.result t := JS.Ok {| data := data |}.

(** The copy starts at position 0 of [buffer], whatever [offset] is. *)
Definition fromBuffer (buffer : Buffer) (offset : option nat) : JS.result (option (t * Z)) :=
  let* initialOffset := initialOffsetOf buffer offset in
  let currentOffset := initialOffset in
  let dataLength := Buf.len buffer - currentOffset in
  let data := Buf.copy buffer (Buf.alloc dataLength) 0 0 dataLength in
  let currentOffset := currentOffset + dataLength in
  JS.Ok (Some ({| data := data |}, currentOffset - initialOffset)).

Definition toBuffer (this : t) : Buffer :=
  let result := Buf.alloc (Buf.len (data this)) in
  let dataLength := Buf.len (data this) in
  Buf.copy (data this) result 0 0 dataLength.

End DtlsApplicationDataMessage.

(* ------------------------------------------------------------------ *)
(** ** messages/DtlsHandshakeMessage.js *)

Module DtlsHandshakeMessage.

Definition HEADER_LENGTH : Z := 12.
Definition MAX_LENGTH : Z := 2 ^ 24 - 1.
Definition MAX_FRAGMENT_OFFSET : Z := 2 ^ 24 - 1.
Definition MAX_FRAGMENT_LENGTH : Z := 2 ^ 24 - 1.

Record t : Type := {
  messageType : JS.value;
  length : Z;
  messageSequence : Z;
  fragmentOffset : Z;
  fragmentLength : Z;
  message : Buffer
}.

Definition createFromMessageBuffer
           (type length messageSequence fragmentOffset fragmentLength : Z)
           (messageBuffer : Buffer) : JS.result t :=
  if negb (enums.isMessageTypeValid type) then JS.Throw JS.RangeError
  else if (length <? 0) || (MAX_LENGTH <? length) then JS.Throw JS.RangeError
  else if (messageSequence <? 0) || (2 ^ 16 - 1 <? messageSequence)
       then JS.Throw JS.RangeError
  else if (fragmentOffset <? 0) || (MAX_FRAGMENT_OFFSET <? fragmentOffset)
       then JS.Throw JS.RangeError
  else if (fragmentLength <? 0) || (MAX_FRAGMENT_LENGTH <? fragmentLength)
       then JS.Throw JS.RangeError
  else if MAX_FRAGMENT_LENGTH <? Buf.len messageBuffer then JS.Throw JS.RangeError
  else if Buf.len messageBuffer <? fragmentLength then JS.Throw JS.RangeError
  else if length <? fragmentOffset + fragmentLength then JS.Throw JS.RangeError
  else JS.Ok {| messageType := JS.Num type;
                length := length;
                messageSequence := messageSequence;
                fragmentOffset := fragmentOffset;
                fragmentLength := fragmentLength;
                message := messageBuffer |}.

Definition fromBuffer (buffer : Buffer) (offset : option nat) : JS.result (option (t * Z)) :=
  let* initialOffset := initialOffsetOf buffer offset in
  let currentOffset := initialOffset in
  if Buf.len buffer - currentOffset <? HEADER_LENGTH then JS.Ok None
  else
    let messageType := Buf.index buffer currentOffset in
    let currentOffset := currentOffset + 1 in
    let* length := Buf.readUIntBE buffer currentOffset 3 in
    let currentOffset := currentOffset + 3 in
    let* messageSequence := Buf.readUInt16BE buffer currentOffset in
    let currentOffset := currentOffset + 2 in
    let* fragmentOffset := Buf.readUIntBE buffer currentOffset 3 in
    let currentOffset := currentOffset + 3 in
    let* fragmentLength := Buf.readUIntBE buffer currentOffset 3 in
    let currentOffset := currentOffset + 3 in
    if Buf.len buffer - currentOffset <? fragmentLength then JS.Ok None
    else
      let message := Buf.copy buffer (Buf.alloc fragmentLength) 0
                              currentOffset (currentOffset + fragmentLength) in
      let currentOffset := currentOffset + fragmentLength in
      JS.Ok (Some ({| messageType := messageType;
                      length := length;
                      messageSequence := messageSequence;
                      fragmentOffset := fragmentOffset;
                      fragmentLength := fragmentLength;
                      message := message |},
                   currentOffset - initialOffset)).

Definition toBuffer (this : t) : JS.result Buffer :=
  let result := Buf.alloc (HEADER_LENGTH + Buf.len (message this)) in
  let offset := 0 in
  let result := Buf.store result offset (Buf.ToUint8 (messageType this)) in
  let offset := offset + 1 in
  let* result := Buf.writeUIntBE result (length this) offset 3 in
  let offset := offset + 3 in
  let* result := Buf.writeUInt16BE result (messageSequence this) offset in
  let offset := offset + 2 in
  let* result := Buf.writeUIntBE result (fragmentOffset this) offset 3 in
  let offset := offset + 3 in
  let* result := Buf.writeUIntBE result (fragmentLength this) offset 3 in
  let offset := offset + 3 in
  JS.Ok (Buf.copy (message this) result offset 0 (Buf.len (message this))).

End DtlsHandshakeMessage.

(* ------------------------------------------------------------------ *)
(** ** messages/handshake/HelloVerifyRequestMessage.js *)

Module HelloVerifyRequestMessage.

Definition MIN_LENGTH : Z := 3.

(** [cookie] is [None] for [null]. *)
Record t : Type := { serverVersion : Z; cookie : option Buffer }.

Definition create (serverVersion : Z) (cookie : option Buffer) : JS.result t :=
  if negb (enums.isDtlsVersionValid serverVersion) then JS.Throw JS.RangeError
  else
    match cookie with
    | None => JS.Ok {| serverVersion := serverVersion; cookie := None |}
    | Some c =>
        if Buf.len c =? 0 then JS.Throw JS.RangeError
        else
          let* max := enums.getMaximumCookieLength serverVersion in
          if max <? Buf.len c then JS.Throw JS.RangeError
          else JS.Ok {| serverVersion := serverVersion;
                        cookie := Some (Buf.copy c (Buf.alloc (Buf.len c)) 0 0 (Buf.len c)) |}
    end.

Definition fromBuffer (buffer : Buffer) (offset : option nat) : JS.result (option (t * Z)) :=
  let* valid := SerializationHelper.ValidateDeserializationArguments buffer offset MIN_LENGTH in
  if negb valid then JS.Ok None
  else
    let initialOffset := match offset with None => 0 | Some o => Z.of_nat o end in
    let currentOffset := initialOffset in
    let* serverVersion := Buf.readUInt16BE buffer currentOffset in
    let currentOffset := currentOffset + 2 in
    if Buf.len buffer - currentOffset <? 1 then JS.Ok None
    else
      match Buf.get buffer currentOffset with
      | None => JS.Throw JS.TypeError (* [Buffer.alloc(undefined)] *)
      | Some cookieLength =>
          let currentOffset := currentOffset + 1 in
          if Buf.len buffer - currentOffset <? cookieLength then JS.Ok None
          else if cookieLength =? 0
          then JS.Ok (Some ({| serverVersion := serverVersion; cookie := None |},
                            currentOffset - initialOffset))
          else
            let cookie := Buf.copy buffer (Buf.alloc cookieLength) 0
                                   currentOffset (currentOffset + cookieLength) in
            let currentOffset := currentOffset + cookieLength in
            JS.Ok (Some ({| serverVersion := serverVersion; cookie := Some cookie |},
                         currentOffset - initialOffset))
      end.

Definition toBuffer (this : t) : JS.result Buffer :=
  if negb (enums.isDtlsVersionValid (serverVersion this)) then JS.Throw JS.RangeError
  else
    let* _ :=
      match cookie this with
      | None => JS.Ok tt
      | Some c =>
          if Buf.len c =? 0 then JS.Throw JS.RangeError
          else
            let* max := enums.getMaximumCookieLength (serverVersion this) in
            if max <? Buf.len c then JS.Throw JS.RangeError else JS.Ok tt
      end in
    let bufferLength := 2 + 1 + match cookie this with None => 0 | Some c => Buf.len c end in
    let result := Buf.alloc bufferLength in
    let currentOffset := 0 in
    let* result := Buf.writeUInt16BE result (serverVersion this) currentOffset in
    let currentOffset := currentOffset + 2 in
    match cookie this with
    | None => JS.Ok (Buf.store result currentOffset 0)
    | Some c =>
        let cookieLength := Buf.len c in
        let result := Buf.store result currentOffset cookieLength in
        let currentOffset := currentOffset + 1 in
        JS.Ok (Buf.copy c result currentOffset 0 (Buf.len c))
    end.

End HelloVerifyRequestMessage.

(* ------------------------------------------------------------------ *)
(** ** messages/handshake/ServerHelloMessage.js *)

Module ServerHelloMessage.

Definition RANDOM_LENGTH : Z := 32.
Definition MIN_LENGTH : Z := 40.

Record t : Type := {
  dtlsVersion : Z;
  random : Buffer;
  sessionId : Buffer;
  cipherSuite : Z;
  compressionMethod : JS.value
}.

(** The session-id length test reads the parameter [offset]; when it is
    [undefined] the comparison is on [NaN] and is false. *)
Definition fromBuffer (buffer : Buffer) (offset : option nat) : JS.result (option (t * Z)) :=
  let* initialOffset := initialOffsetOf buffer offset in
  let currentOffset := initialOffset in
  if Buf.len buffer - currentOffset <? MIN_LENGTH then JS.Ok None
  else
    let* dtlsVersion := Buf.readUInt16BE buffer currentOffset in
    let currentOffset := currentOffset + 2 in
    let random := Buf.copy buffer (Buf.alloc RANDOM_LENGTH) 0
                           currentOffset (currentOffset + RANDOM_LENGTH) in
    let currentOffset := currentOffset + RANDOM_LENGTH in
    match Buf.get buffer currentOffset with
    | None => JS.Throw JS.TypeError (* [Buffer.alloc(undefined)] *)
    | Some sessionIdLength =>
        let currentOffset := currentOffset + 1 in
        let tooShort :=
          match offset with
          | None => false
          | Some o => Buf.len buffer - Z.of_nat o - MIN_LENGTH <? sessionIdLength
          end in
        if tooShort then JS.Ok None
        else
          let sessionId := Buf.copy buffer (Buf.alloc sessionIdLength) 0
                                    currentOffset (currentOffset + sessionIdLength) in
          let currentOffset := currentOffset + sessionIdLength in
          let* cipherSuite := Buf.readUInt16BE buffer currentOffset in
          let currentOffset := currentOffset + 2 in
          let compressionMethod := Buf.index buffer currentOffset in
          let currentOffset := currentOffset + 1 in
          JS.Ok (Some ({| dtlsVersion := dtlsVersion;
                          random := random;
                          sessionId := sessionId;
                          cipherSuite := cipherSuite;
                          compressionMethod := compressionMethod |},
                       currentOffset - initialOffset))
    end.

End ServerHelloMessage.

(* ------------------------------------------------------------------ *)
(** ** messages/handshake/ServerHelloDoneMessage.js *)

Module ServerHelloDoneMessage.

Definition MIN_LENGTH : Z := 0.

Record t : Type := { }.

Definition create : t := Build_t.

Definition fromBuffer (buffer : Buffer) (offset : option nat) : JS.result (option (t * Z)) :=
  let* valid := SerializationHelper.ValidateDeserializationArguments buffer offset MIN_LENGTH in
  if negb valid then JS.Ok None
  else
    let initialOffset := match offset with None => 0 | Some o => Z.of_nat o end in
    let currentOffset := initialOffset in
    JS.Ok (Some (Build_t, currentOffset - initialOffset)).

Definition toBuffer (this : t) : Buffer := Buf.alloc 0.

End ServerHelloDoneMessage.

(* ------------------------------------------------------------------ *)
(** ** messages/handshake/PskClientKeyExchangeMessage.js *)

Module PskClientKeyExchangeMessage.

Definition MAX_IDENTITY_LENGTH : Z := 2 ^ 16 - 1.
Definition MIN_LENGTH : Z := 2.

Record t : Type := { identity : Buffer }.

Definition create (identity : Buffer) : JS.result t :=
  if MAX_IDENTITY_LENGTH <? Buf.len identity then JS.Throw JS.RangeError
  else JS.Ok {| identity := Buf.copy identity (Buf.alloc (Buf.len identity)) 0 0
                                     (Buf.len identity) |}.

Definition fromBuffer (buffer : Buffer) (offset : option nat) : JS.result (option (t * Z)) :=
  let* valid := SerializationHelper.ValidateDeserializationArguments buffer offset MIN_LENGTH in
  if negb valid then JS.Ok None
  else
    let initialOffset := match offset with None => 0 | Some o => Z.of_nat o end in
    let currentOffset := initialOffset in
    let* identityLength := Buf.readUInt16BE buffer currentOffset in
    let currentOffset := currentOffset + 2 in
    if Buf.len buffer - currentOffset <? identityLength then JS.Ok None
    else
      let identity := Buf.copy buffer (Buf.alloc identityLength) 0
                               currentOffset (currentOffset + identityLength) in
      let currentOffset := currentOffset + identityLength in
      JS.Ok (Some ({| identity := identity |}, currentOffset - initialOffset)).

Definition toBuffer (this : t) : JS.result Buffer :=
  if MAX_IDENTITY_LENGTH <? Buf.len (identity this) then JS.Throw JS.RangeError
  else
    let bufferLength := 2 + Buf.len (identity this) in
    let result := Buf.alloc bufferLength in
    let currentOffset := 0 in
    let identityLength := Buf.len (identity this) in
    let* result := Buf.writeUInt16BE result identityLength currentOffset in
    let currentOffset := currentOffset + 2 in
    JS.Ok (Buf.copy (identity this) result currentOffset 0 (Buf.len (identity this))).

End PskClientKeyExchangeMessage.

(* ------------------------------------------------------------------ *)
(** ** messages/handshake/FinishedMessage.js *)

Module FinishedMessage.

Definition VERIFY_DATA_LENGTH : Z := 12.
Definition MIN_LENGTH : Z := VERIFY_DATA_LENGTH.

Record t : Type := { verifyData : Buffer }.

Definition create (verifyData : Buffer) : JS.result t :=
  if negb (Buf.len verifyData =? VERIFY_DATA_LENGTH) then JS.Throw JS.RangeError
  else JS.Ok {| verifyData := Buf.copy verifyData (Buf.alloc (Buf.len verifyData)) 0 0
                                       (Buf.len verifyData) |}.

Definition fromBuffer (buffer : Buffer) (offset : option nat) : JS.result (option (t * Z)) :=
  let* valid := SerializationHelper.ValidateDeserializationArguments buffer offset MIN_LENGTH in
  if negb valid then JS.Ok None
  else
    let initialOffset := match offset with None => 0 | Some o => Z.of_nat o end in
    let currentOffset := initialOffset in
    let verifyData := Buf.copy buffer (Buf.alloc VERIFY_DATA_LENGTH) 0
                               currentOffset (currentOffset + VERIFY_DATA_LENGTH) in
    let currentOffset := currentOffset + VERIFY_DATA_LENGTH in
    JS.Ok (Some ({| verifyData := verifyData |}, currentOffset - initialOffset)).

Definition toBuffer (this : t) : JS.result Buffer :=
  if negb (Buf.len (verifyData this) =? VERIFY_DATA_LENGTH) then JS.Throw JS.RangeError
  else
    let bufferLength := 0 + VERIFY_DATA_LENGTH in
    let result := Buf.alloc bufferLength in
    let currentOffset := 0 in
    JS.Ok (Buf.copy (verifyData this) result currentOffset 0 VERIFY_DATA_LENGTH).

End FinishedMessage.

(* ------------------------------------------------------------------ *)
(** ** messages/handshake/ClientHelloMessage.js *)

Module ClientHelloMessage.

Definition RANDOM_LENGTH : Z := 32.
Definition MAX_SESSION_ID_LENGTH : Z := 2 ^ 8 - 1.

(** [sessionId] and [cookie] are [None] for [null]. *)
Record t : Type := {
  dtlsVersion : Z;
  random : Buffer;
  sessionId : option (list Z);
  cookie : option Buffer;
  cipherSuites : list Z;
  compressionMethods : list Z
}.

(** The names in scope in the body of [create]: its parameters, the
    module's own declarations and the module scope. *)
Definition create_scope (dtlsVersion : Z) : list (string * JS.binding) :=
  [("dtlsVersion", JS.BNum dtlsVersion); ("random", JS.BObject);
   ("sessionId", JS.BObject); ("cookie", JS.BObject);
   ("cipherSuites", JS.BObject); ("compressionMethods", JS.BObject);
   ("enums", JS.BObject); ("RANDOM_LENGTH", JS.BNum RANDOM_LENGTH);
   ("MAX_SESSION_ID_LENGTH", JS.BNum MAX_SESSION_ID_LENGTH);
   ("ClientHelloMessage", JS.BObject)]%string
  ++ JS.moduleScope.

(** [create]: the bound on the cookie length is
    [enums.getMaximumCookieLength(version)], on the name [version]. *)
Definition create (dtlsVersion : Z) (random : Buffer) (sessionId : option (list Z))
           (cookie : option Buffer) (cipherSuites compressionMethods : list Z)
  : JS.result t :=
  if negb (enums.isDtlsVersionValid dtlsVersion) then JS.Throw JS.RangeError
  else if negb (Buf.len random =? RANDOM_LENGTH) then JS.Throw JS.RangeError
  else
    let* _ :=
      match sessionId with
      | None => JS.Ok tt
      | Some sid => if MAX_SESSION_ID_LENGTH <? Buf.len sid then JS.Throw JS.RangeError
                    else JS.Ok tt
      end in
    let* _ :=
      match cookie with
      | None => JS.Ok tt
      | Some c =>
          let* version := JS.resolve (create_scope dtlsVersion) "version" in
          let* max :=
            match version with
            | JS.BNum v => enums.getMaximumCookieLength v
            | JS.BObject => JS.Throw JS.RangeError
            end in
          if max <? Buf.len c then JS.Throw JS.RangeError else JS.Ok tt
      end in
    if Buf.len compressionMethods =? 0 then JS.Throw JS.RangeError
    else JS.Ok {| dtlsVersion := dtlsVersion;
                  random := random;
                  sessionId := sessionId;
                  cookie := cookie;
                  cipherSuites := cipherSuites;
                  compressionMethods := compressionMethods |}.

(** Writes the items of [l] one after the other with [write]. *)
Fixpoint writeEach (write : Buffer -> Z -> Z -> JS.result Buffer) (step : Z)
         (l : list Z) (result : Buffer) (offset : Z) : JS.result (Buffer * Z) :=
  match l with
  | [] => JS.Ok (result, offset)
  | x :: rest =>
      let* result := write result x offset in
      writeEach write step rest result (offset + step)
  end.

(** [toBuffer]; with a session id present the buffer length is computed
    from [this.sessionId.Length], which is [undefined], and
    [Buffer.alloc(NaN)] raises [RangeError]. *)
Definition toBuffer (this : t) : JS.result Buffer :=
  match sessionId this with
  | Some _ => JS.Throw JS.RangeError
  | None =>
      let bufferLength :=
        2 + RANDOM_LENGTH + 1 + 1
        + match cookie this with None => 0 | Some c => Buf.len c end
        + 2 + 2 * Buf.len (cipherSuites this)
        + 1 + 1 * Buf.len (compressionMethods this) in
      let result := Buf.alloc bufferLength in
      let offset := 0 in
      let* result := Buf.writeUInt16BE result (dtlsVersion this) offset in
      let offset := offset + 2 in
      let result := Buf.copy (random this) result offset 0 (Buf.len (random this)) in
      let offset := offset + Buf.len (random this) in
      let result := Buf.store result offset 0 in
      let offset := offset + 1 in
      let '(result, offset) :=
        match cookie this with
        | None => (Buf.store result offset 0, offset + 1)
        | Some c =>
            let result := Buf.store result offset (Buf.len c) in
            let offset := offset + 1 in
            (Buf.copy c result offset 0 (Buf.len c), offset + Buf.len c)
        end in
      let* result := Buf.writeUInt16BE result (Buf.len (cipherSuites this) * 2) offset in
      let offset := offset + 2 in
      let* (result, offset) :=
        writeEach Buf.writeUInt16BE 2 (cipherSuites this) result offset in
      let result := Buf.store result offset (Buf.len (compressionMethods this)) in
      let offset := offset + 1 in
      let* (result, offset) :=
        writeEach (fun b v o => JS.Ok (Buf.store b o v)) 1
                  (compressionMethods this) result offset in
      JS.Ok result
  end.

End ClientHelloMessage.

(* ------------------------------------------------------------------ *)
(** ** Node's cipher objects *)

Module NodeCipher.

(** Key length [createCipheriv] and [createDecipheriv] accept for a
    cipher name; an unknown name is rejected. *)
Definition keyLength (name : string) : option Z :=
  if String.eqb name "aes-128-cbc" then Some 16
  else if String.eqb name "aes-256-cbc" then Some 32
  else None.

Definition blockLength : Z := 16.

Definition accepts (name : string) (key iv : Buffer) : bool :=
  match keyLength name with
  | Some k => (Buf.len key =? k) && (Buf.len iv =? blockLength)
  | None => false
  end.

(** What [createCipheriv] and [createDecipheriv] raise for arguments they
    do not accept: an [Error] for a cipher name they do not know
    (ERR_CRYPTO_UNKNOWN_CIPHER), [TypeError] for an IV that is not one
    block (ERR_CRYPTO_INVALID_IV), [RangeError] for a key of the wrong
    length (ERR_CRYPTO_INVALID_KEYLEN); the IV is looked at before the
    key. *)
Definition rejection (name : string) (key iv : Buffer) : JS.exn :=
  match keyLength name with
  | None => JS.CryptoError
  | Some _ => if Buf.len iv =? blockLength then JS.RangeError else JS.TypeError
  end.

Section WithCrypto.

Context {C : Crypto}.

(** [createCipheriv(name, key, iv)], [setAutoPadding(false)],
    [update(data)] and [final()]: [final] raises an [Error] unless
    [data] is a whole number of blocks. *)
Definition encrypt (name : string) (key iv data : Buffer) : JS.result Buffer :=
  if negb (accepts name key iv) then JS.Throw (rejection name key iv)
  else if negb (Buf.len data mod blockLength =? 0) then JS.Throw JS.CryptoError
  else JS.Ok (cipher name key iv data).

(** The same for [createDecipheriv]. *)
Definition decrypt (name : string) (key iv data : Buffer) : JS.result Buffer :=
  if negb (accepts name key iv) then JS.Throw (rejection name key iv)
  else if negb (Buf.len data mod blockLength =? 0) then JS.Throw JS.CryptoError
  else JS.Ok (decipher name key iv data).

End WithCrypto.

End NodeCipher.

(* ------------------------------------------------------------------ *)
(** ** DtlsRecord.js *)

Module DtlsRecord.

Definition HEADER_LENGTH : Z := 13.
Definition MAX_PLAINTEXT_FRAGMENT_LENGTH : Z := 16384.

Record t : Type := {
  protocolType : JS.value;
  dtlsVersion : Z;
  epoch : Z;
  sequenceNumber : Z;
  fragment : Buffer
}.

Definition createFromPlaintext (type dtlsVersion epoch sequenceNumber : Z)
           (fragment : Buffer) : JS.result t :=
  if negb (enums.isProtocolTypeValid type) then JS.Throw JS.RangeError
  else if negb (enums.isDtlsVersionValid dtlsVersion) then JS.Throw JS.RangeError
  else if (epoch <? 0) || (2 ^ 16 - 1 <? epoch) then JS.Throw JS.RangeError
  else if (sequenceNumber <? 0) || (2 ^ 48 - 1 <? sequenceNumber)
       then JS.Throw JS.RangeError
  else if MAX_PLAINTEXT_FRAGMENT_LENGTH <? Buf.len fragment then JS.Throw JS.RangeError
  else JS.Ok {| protocolType := JS.Num type;
                dtlsVersion := dtlsVersion;
                epoch := epoch;
                sequenceNumber := sequenceNumber;
                fragment := fragment |}.

Definition buildBufferForMacCalculation (epoch sequenceNumber : Z) (protocolType : JS.value)
           (dtlsVersion : Z) (fragment : Buffer) : JS.result Buffer :=
  let fragmentLength := Buf.len fragment in
  let result := Buf.alloc (8 + 5 + fragmentLength) in
  let offset := 0 in
  let* result := Buf.writeUInt16BE result epoch offset in
  let offset := offset + 2 in
  let* result := Buf.writeUIntBE result sequenceNumber offset 6 in
  let offset := offset + 6 in
  let result := Buf.store result offset (Buf.ToUint8 protocolType) in
  let offset := offset + 1 in
  let* result := Buf.writeUInt16BE result dtlsVersion offset in
  let offset := offset + 2 in
  let* result := Buf.writeUInt16BE result fragmentLength offset in
  let offset := offset + 2 in
  JS.Ok (Buf.copy fragment result offset 0 fragmentLength).

Definition buildBufferForEncryption (fragment macHash : Buffer) (paddingBlockSize : Z)
  : Buffer :=
  let nonPaddedLength := Buf.len fragment + Buf.len macHash + 1 in
  let numBlocks := JS.ceil_div nonPaddedLength paddingBlockSize in
  let paddedLength := numBlocks * paddingBlockSize in
  let paddingLength := paddedLength - nonPaddedLength in
  let offset := 0 in
  let result := Buf.alloc paddedLength in
  let result := Buf.copy fragment result offset 0 (Buf.len fragment) in
  let offset := offset + Buf.len fragment in
  let result := Buf.copy macHash result offset 0 (Buf.len macHash) in
  let offset := offset + Buf.len macHash in
  let result := Buf.fill result paddingLength offset (offset + paddingLength) in
  let offset := offset + paddingLength in
  Buf.store result offset paddingLength.

(** [hi, hi - 1, ...], [count] indices: the order in which a descending
    [for] loop visits them. *)
Fixpoint downFrom (hi : Z) (count : nat) : list Z :=
  match count with
  | O => []
  | S k => hi :: downFrom (hi - 1) k
  end.

(** The padding check of [fromEncryptedBuffer]: the final value of
    [paddingError].  When the padding length fits, the loop runs over the
    padding and the padding length octet and never leaves early; the
    loops over the remaining octets change nothing. *)
Definition verifyPadding (compressedtext : Buffer) (paddingLength : Z) : bool :=
  let paddingValueLength := 1 in
  if Buf.len compressedtext <? paddingLength + paddingValueLength then true
  else
    fold_left
      (fun paddingError iPaddingByte =>
         match Buf.get compressedtext iPaddingByte with
         | Some v => if negb (v =? paddingLength) then true else paddingError
         | None => true
         end)
      (downFrom (Buf.len compressedtext - 1)
                (Z.to_nat (paddingLength + paddingValueLength)))
      false.

(** The MAC comparison loop of [fromEncryptedBuffer]: the final value of
    [macHashError] and the indices the loop has compared, in order. *)
Definition compareMacHash (macHashVerify macHash : Buffer) (macHashLength : Z)
  : bool * list nat :=
  fold_left
    (fun '(macHashError, visited) iMacHash =>
       let differ :=
         match Buf.get macHashVerify (Z.of_nat iMacHash),
               Buf.get macHash (Z.of_nat iMacHash) with
         | Some x, Some y => negb (x =? y)
         | None, None => false
         | _, _ => true
         end in
       (if differ then true else macHashError, visited ++ [iMacHash]))
    (seq 0 (Z.to_nat macHashLength))
    (false, []).

Section WithCrypto.

Context {C : Crypto}.

(** [toEncryptedBuffer]; [draw] numbers the call of [randomBytes] that
    yields the IV; [None] is [null]. *)
Definition toEncryptedBuffer (this : t) (draw : nat)
           (bulkEncryptionAlgorithm : enums.BulkEncryptionAlgorithm)
           (blockEncryptionKey : Buffer)
           (macAlgorithm : enums.MacAlgorithm) (macSecret : Buffer)
  : JS.result (option Buffer) :=
  let compressedtext := fragment this in
  let* encrypted :=
    if enums.isBulkNULL bulkEncryptionAlgorithm
    then JS.Ok (Some (compressedtext, None))
    else if negb CryptoUtils.verifyCrypto then JS.Ok None
    else
      let encryptionblockSize := enums.getBulkAlgorithmBlockSize bulkEncryptionAlgorithm in
      let randomIV := randomBytes draw encryptionblockSize in
      let* bufferForMacCalculation :=
        buildBufferForMacCalculation (epoch this) (sequenceNumber this) (protocolType this)
                                     (dtlsVersion this) compressedtext in
      let macHash := createHmac sha1 macSecret bufferForMacCalculation in
      let bufferForEncryption :=
        buildBufferForEncryption compressedtext macHash
          (enums.getBulkAlgorithmBlockSize bulkEncryptionAlgorithm) in
      let* ciphertext :=
        NodeCipher.encrypt (enums.getBulkAlgorithmAsString bulkEncryptionAlgorithm)
                           blockEncryptionKey randomIV bufferForEncryption in
      JS.Ok (Some (ciphertext, Some randomIV)) in
  match encrypted with
  | None => JS.Ok None
  | Some (ciphertext, randomIV) =>
      let randomIVLength := match randomIV with Some iv => Buf.len iv | None => 0 end in
      let ciphertextLength := Buf.len ciphertext in
      let result := Buf.alloc (HEADER_LENGTH + randomIVLength + ciphertextLength) in
      let offset := 0 in
      let result := Buf.store result offset (Buf.ToUint8 (protocolType this)) in
      let offset := offset + 1 in
      let* result := Buf.writeUInt16BE result (dtlsVersion this) offset in
      let offset := offset + 2 in
      let* result := Buf.writeUInt16BE result (epoch this) offset in
      let offset := offset + 2 in
      let* result := Buf.writeUIntBE result (sequenceNumber this) offset 6 in
      let offset := offset + 6 in
      let* result := Buf.writeUInt16BE result (ciphertextLength + randomIVLength) offset in
      let offset := offset + 2 in
      let '(result, offset) :=
        match randomIV with
        | Some iv => (Buf.copy iv result offset 0 randomIVLength, offset + randomIVLength)
        | None => (result, offset)
        end in
      JS.Ok (Some (Buf.copy ciphertext result offset 0 ciphertextLength))
  end.

(** The decrypt-and-verify branch of [fromEncryptedBuffer]: from the
    decrypted [compressedtext] to the fragment, or [None] for [null]. *)
Definition verifyCompressedtext (epoch sequenceNumber : Z) (protocolType : JS.value)
           (dtlsVersion : Z) (macAlgorithm : enums.MacAlgorithm) (macSecret : Buffer)
           (compressedtext : Buffer) : JS.result (option Buffer) :=
  if Buf.len compressedtext =? 0 then JS.Ok None
  else
    match Buf.get compressedtext (Buf.len compressedtext - 1) with
    | None => JS.Ok None
    | Some paddingLength =>
        let paddingValueLength := 1 in
        let paddingError := verifyPadding compressedtext paddingLength in
        let macHashLength := enums.getMacAlgorithmHashSize macAlgorithm in
        let compressedtextWithoutMacOrPadding :=
          Buf.slice compressedtext 0
            (Buf.len compressedtext - paddingLength - paddingValueLength - macHashLength) in
        let macHash :=
          Buf.slice compressedtext
            (Buf.len compressedtext - paddingLength - paddingValueLength - macHashLength)
            (Buf.len compressedtext - paddingLength - paddingValueLength) in
        let* bufferForMacCalculation :=
          buildBufferForMacCalculation epoch sequenceNumber protocolType dtlsVersion
                                       compressedtextWithoutMacOrPadding in
        let macHashVerify := createHmac sha1 macSecret bufferForMacCalculation in
        let macHashError := fst (compareMacHash macHashVerify macHash macHashLength) in
        let compressedtext := compressedtextWithoutMacOrPadding in
        if macHashError then JS.Ok None
        else if paddingError then JS.Ok None
        else JS.Ok (Some compressedtext)
    end.

(** [fromEncryptedBuffer]; [offset] is [None] for [undefined], [None] in
    the result is [null]. *)
Definition fromEncryptedBuffer (buffer : Buffer) (offset : option nat)
           (bulkEncryptionAlgorithm : enums.BulkEncryptionAlgorithm)
           (blockEncryptionKey : Buffer)
           (macAlgorithm : enums.MacAlgorithm) (macSecret : Buffer)
  : JS.result (option (t * Z)) :=
  let* initialOffset := initialOffsetOf buffer offset in
  let currentOffset := initialOffset in
  if Buf.len buffer - currentOffset <? HEADER_LENGTH then JS.Ok None
  else
    let randomIVLength :=
      if negb (enums.isBulkNULL bulkEncryptionAlgorithm)
      then enums.getBulkAlgorithmBlockSize bulkEncryptionAlgorithm
      else 0 in
    let protocolType := Buf.index buffer currentOffset in
    let currentOffset := currentOffset + 1 in
    let* dtlsVersion := Buf.readUInt16BE buffer currentOffset in
    let currentOffset := currentOffset + 2 in
    let* epoch := Buf.readUInt16BE buffer currentOffset in
    let currentOffset := currentOffset + 2 in
    let* sequenceNumber := Buf.readUIntBE buffer currentOffset 6 in
    let currentOffset := currentOffset + 6 in
    let* ciphertextLength := Buf.readUInt16BE buffer currentOffset in
    let currentOffset := currentOffset + 2 in
    if Buf.len buffer - currentOffset <? ciphertextLength then JS.Ok None
    else if negb (randomIVLength <? ciphertextLength) then JS.Ok None
    else
      let randomIV := Buf.copy buffer (Buf.alloc randomIVLength) 0
                               currentOffset (currentOffset + randomIVLength) in
      let currentOffset := currentOffset + randomIVLength in
      let ciphertextLength := ciphertextLength - randomIVLength in
      let ciphertext := Buf.copy buffer (Buf.alloc ciphertextLength) 0
                                 currentOffset (currentOffset + ciphertextLength) in
      let currentOffset := currentOffset + ciphertextLength in
      let* compressedtext :=
        if enums.isBulkNULL bulkEncryptionAlgorithm || (Buf.len randomIV =? 0)
        then JS.Ok (Some ciphertext)
        else if negb CryptoUtils.verifyCrypto then JS.Ok None
        else
          let* compressedtext :=
            NodeCipher.decrypt (enums.getBulkAlgorithmAsString bulkEncryptionAlgorithm)
                               blockEncryptionKey randomIV ciphertext in
          verifyCompressedtext epoch sequenceNumber protocolType dtlsVersion
                               macAlgorithm macSecret compressedtext in
      match compressedtext with
      | None => JS.Ok None
      | Some compressedtext =>
          let fragment := Buf.copy compressedtext (Buf.alloc (Buf.len compressedtext)) 0 0
                                   (Buf.len compressedtext) in
          JS.Ok (Some ({| protocolType := protocolType;
                          dtlsVersion := dtlsVersion;
                          epoch := epoch;
                          sequenceNumber := sequenceNumber;
                          fragment := fragment |},
                       currentOffset - initialOffset))
      end.

End WithCrypto.

End DtlsRecord.

(* ------------------------------------------------------------------ *)
(** ** DtlsSession.js *)

Module DtlsSession.

Definition DTLS_VERSION : Z := enums.DtlsVersion_DTLS_1_0.

Definition supportedCipherSuites : list Z :=
  [enums.CipherSuite_TLS_PSK_WITH_AES_256_CBC_SHA;
   enums.CipherSuite_TLS_PSK_WITH_AES_128_CBC_SHA].

Definition supportedCompressionMethods : list Z := [enums.CompressionMethod_NULL].

Record DtlsConnectionState : Type := {
  bulkEncryptionAlgorithm : enums.BulkEncryptionAlgorithm;
  compressionMethod : Z;
  macAlgorithm : enums.MacAlgorithm
}.

(** The object [SecurityParameters.create()] returns.  SecurityParameters.js
    is not among the sources; the record has the fields the session reads
    and writes, and the theorems quantify over their contents. *)
Record SecurityParameters : Type := {
  clientRandom : Buffer;
  serverRandom : Buffer;
  masterSecret : Buffer;
  clientWriteMacSecret : Buffer;
  serverWriteMacSecret : Buffer;
  clientWriteKey : Buffer;
  serverWriteKey : Buffer;
  sp_bulkEncryptionAlgorithm : enums.BulkEncryptionAlgorithm;
  sp_macAlgorithm : enums.MacAlgorithm;
  sp_compressionMethod : Z
}.

(** The connect listener of a session: none, the closure [DtlsSocket.send]
    installs (it calls [sendApplicationData(msg)] on the session), or an
    application callback that leaves the session alone. *)
Inductive ConnectListener : Type :=
| NoConnectListener
| SendOnConnect (msg : Buffer)
| NotifyOnConnect.

(** What a session does to the outside: datagrams handed to
    [socket.send] and listener calls, oldest first. *)
Inductive Event : Type :=
| Sent (datagram : Buffer) (port : Z) (address : string)
| ConnectCalled
| DisconnectCalled
| MessageDelivered (data : Buffer).

Record t : Type := {
  connectListener : ConnectListener;
  disconnectListener : bool;
  messageListener : bool;
  dstIpAddress : string;
  dstPort : Z;
  pskIdentity : Buffer;
  pskPassword : Buffer;
  sessionId : option (list Z);
  nextOutgoingEpoch : Z;
  nextOutgoingSequenceNumber : Z;
  nextIncomingEpoch : Z;
  nextIncomingSequenceNumber : Z;
  currentReadState : DtlsConnectionState;
  currentWriteState : DtlsConnectionState;
  securityParameters : SecurityParameters;
  handshakeMessageSequence : Z;
  allHandshakeMessagesAsBuffer : Buffer;
  sessionState : JS.value;
  messageQueue : list Buffer;
  (** the number of [randomBytes] calls made so far *)
  draws : nat;
  (** the events produced so far *)
  events : list Event
}.

(** Field updates. *)
Definition set_transcript (b : Buffer) (s : t) : t :=
  {| connectListener := connectListener s; disconnectListener := disconnectListener s;
     messageListener := messageListener s; dstIpAddress := dstIpAddress s;
     dstPort := dstPort s; pskIdentity := pskIdentity s; pskPassword := pskPassword s;
     sessionId := sessionId s; nextOutgoingEpoch := nextOutgoingEpoch s;
     nextOutgoingSequenceNumber := nextOutgoingSequenceNumber s;
     nextIncomingEpoch := nextIncomingEpoch s;
     nextIncomingSequenceNumber := nextIncomingSequenceNumber s;
     currentReadState := currentReadState s; currentWriteState := currentWriteState s;
     securityParameters := securityParameters s;
     handshakeMessageSequence := handshakeMessageSequence s;
     allHandshakeMessagesAsBuffer := b;
     sessionState := sessionState s; messageQueue := messageQueue s;
     draws := draws s; events := events s |}.

Definition set_handshakeMessageSequence (n : Z) (s : t) : t :=
  {| connectListener := connectListener s; disconnectListener := disconnectListener s;
     messageListener := messageListener s; dstIpAddress := dstIpAddress s;
     dstPort := dstPort s; pskIdentity := pskIdentity s; pskPassword := pskPassword s;
     sessionId := sessionId s; nextOutgoingEpoch := nextOutgoingEpoch s;
     nextOutgoingSequenceNumber := nextOutgoingSequenceNumber s;
     nextIncomingEpoch := nextIncomingEpoch s;
     nextIncomingSequenceNumber := nextIncomingSequenceNumber s;
     currentReadState := currentReadState s; currentWriteState := currentWriteState s;
     securityParameters := securityParameters s;
     handshakeMessageSequence := n;
     allHandshakeMessagesAsBuffer := allHandshakeMessagesAsBuffer s;
     sessionState := sessionState s; messageQueue := messageQueue s;
     draws := draws s; events := events s |}.

Definition set_outgoing (epoch sequenceNumber : Z) (s : t) : t :=
  {| connectListener := connectListener s; disconnectListener := disconnectListener s;
     messageListener := messageListener s; dstIpAddress := dstIpAddress s;
     dstPort := dstPort s; pskIdentity := pskIdentity s; pskPassword := pskPassword s;
     sessionId := sessionId s; nextOutgoingEpoch := epoch;
     nextOutgoingSequenceNumber := sequenceNumber;
     nextIncomingEpoch := nextIncomingEpoch s;
     nextIncomingSequenceNumber := nextIncomingSequenceNumber s;
     currentReadState := currentReadState s; currentWriteState := currentWriteState s;
     securityParameters := securityParameters s;
     handshakeMessageSequence := handshakeMessageSequence s;
     allHandshakeMessagesAsBuffer := allHandshakeMessagesAsBuffer s;
     sessionState := sessionState s; messageQueue := messageQueue s;
     draws := draws s; events := events s |}.

Definition set_currentReadState (c : DtlsConnectionState) (s : t) : t :=
  {| connectListener := connectListener s; disconnectListener := disconnectListener s;
     messageListener := messageListener s; dstIpAddress := dstIpAddress s;
     dstPort := dstPort s; pskIdentity := pskIdentity s; pskPassword := pskPassword s;
     sessionId := sessionId s; nextOutgoingEpoch := nextOutgoingEpoch s;
     nextOutgoingSequenceNumber := nextOutgoingSequenceNumber s;
     nextIncomingEpoch := nextIncomingEpoch s;
     nextIncomingSequenceNumber := nextIncomingSequenceNumber s;
     currentReadState := c; currentWriteState := currentWriteState s;
     securityParameters := securityParameters s;
     handshakeMessageSequence := handshakeMessageSequence s;
     allHandshakeMessagesAsBuffer := allHandshakeMessagesAsBuffer s;
     sessionState := sessionState s; messageQueue := messageQueue s;
     draws := draws s; events := events s |}.

Definition set_currentWriteState (c : DtlsConnectionState) (s : t) : t :=
  {| connectListener := connectListener s; disconnectListener := disconnectListener s;
     messageListener := messageListener s; dstIpAddress := dstIpAddress s;
     dstPort := dstPort s; pskIdentity := pskIdentity s; pskPassword := pskPassword s;
     sessionId := sessionId s; nextOutgoingEpoch := nextOutgoingEpoch s;
     nextOutgoingSequenceNumber := nextOutgoingSequenceNumber s;
     nextIncomingEpoch := nextIncomingEpoch s;
     nextIncomingSequenceNumber := nextIncomingSequenceNumber s;
     currentReadState := currentReadState s; currentWriteState := c;
     securityParameters := securityParameters s;
     handshakeMessageSequence := handshakeMessageSequence s;
     allHandshakeMessagesAsBuffer := allHandshakeMessagesAsBuffer s;
     sessionState := sessionState s; messageQueue := messageQueue s;
     draws := draws s; events := events s |}.

Definition set_securityParameters (p : SecurityParameters) (s : t) : t :=
  {| connectListener := connectListener s; disconnectListener := disconnectListener s;
     messageListener := messageListener s; dstIpAddress := dstIpAddress s;
     dstPort := dstPort s; pskIdentity := pskIdentity s; pskPassword := pskPassword s;
     sessionId := sessionId s; nextOutgoingEpoch := nextOutgoingEpoch s;
     nextOutgoingSequenceNumber := nextOutgoingSequenceNumber s;
     nextIncomingEpoch := nextIncomingEpoch s;
     nextIncomingSequenceNumber := nextIncomingSequenceNumber s;
     currentReadState := currentReadState s; currentWriteState := currentWriteState s;
     securityParameters := p;
     handshakeMessageSequence := handshakeMessageSequence s;
     allHandshakeMessagesAsBuffer := allHandshakeMessagesAsBuffer s;
     sessionState := sessionState s; messageQueue := messageQueue s;
     draws := draws s; events := events s |}.

Definition set_sessionState (v : JS.value) (s : t) : t :=
  {| connectListener := connectListener s; disconnectListener := disconnectListener s;
     messageListener := messageListener s; dstIpAddress := dstIpAddress s;
     dstPort := dstPort s; pskIdentity := pskIdentity s; pskPassword := pskPassword s;
     sessionId := sessionId s; nextOutgoingEpoch := nextOutgoingEpoch s;
     nextOutgoingSequenceNumber := nextOutgoingSequenceNumber s;
     nextIncomingEpoch := nextIncomingEpoch s;
     nextIncomingSequenceNumber := nextIncomingSequenceNumber s;
     currentReadState := currentReadState s; currentWriteState := currentWriteState s;
     securityParameters := securityParameters s;
     handshakeMessageSequence := handshakeMessageSequence s;
     allHandshakeMessagesAsBuffer := allHandshakeMessagesAsBuffer s;
     sessionState := v; messageQueue := messageQueue s;
     draws := draws s; events := events s |}.

Definition set_messageQueue (q : list Buffer) (s : t) : t :=
  {| connectListener := connectListener s; disconnectListener := disconnectListener s;
     messageListener := messageListener s; dstIpAddress := dstIpAddress s;
     dstPort := dstPort s; pskIdentity := pskIdentity s; pskPassword := pskPassword s;
     sessionId := sessionId s; nextOutgoingEpoch := nextOutgoingEpoch s;
     nextOutgoingSequenceNumber := nextOutgoingSequenceNumber s;
     nextIncomingEpoch := nextIncomingEpoch s;
     nextIncomingSequenceNumber := nextIncomingSequenceNumber s;
     currentReadState := currentReadState s; currentWriteState := currentWriteState s;
     securityParameters := securityParameters s;
     handshakeMessageSequence := handshakeMessageSequence s;
     allHandshakeMessagesAsBuffer := allHandshakeMessagesAsBuffer s;
     sessionState := sessionState s; messageQueue := q;
     draws := draws s; events := events s |}.

Definition set_draws (n : nat) (s : t) : t :=
  {| connectListener := connectListener s; disconnectListener := disconnectListener s;
     messageListener := messageListener s; dstIpAddress := dstIpAddress s;
     dstPort := dstPort s; pskIdentity := pskIdentity s; pskPassword := pskPassword s;
     sessionId := sessionId s; nextOutgoingEpoch := nextOutgoingEpoch s;
     nextOutgoingSequenceNumber := nextOutgoingSequenceNumber s;
     nextIncomingEpoch := nextIncomingEpoch s;
     nextIncomingSequenceNumber := nextIncomingSequenceNumber s;
     currentReadState := currentReadState s; currentWriteState := currentWriteState s;
     securityParameters := securityParameters s;
     handshakeMessageSequence := handshakeMessageSequence s;
     allHandshakeMessagesAsBuffer := allHandshakeMessagesAsBuffer s;
     sessionState := sessionState s; messageQueue := messageQueue s;
     draws := n; events := events s |}.

Definition emit (e : Event) (s : t) : t :=
  {| connectListener := connectListener s; disconnectListener := disconnectListener s;
     messageListener := messageListener s; dstIpAddress := dstIpAddress s;
     dstPort := dstPort s; pskIdentity := pskIdentity s; pskPassword := pskPassword s;
     sessionId := sessionId s; nextOutgoingEpoch := nextOutgoingEpoch s;
     nextOutgoingSequenceNumber := nextOutgoingSequenceNumber s;
     nextIncomingEpoch := nextIncomingEpoch s;
     nextIncomingSequenceNumber := nextIncomingSequenceNumber s;
     currentReadState := currentReadState s; currentWriteState := currentWriteState s;
     securityParameters := securityParameters s;
     handshakeMessageSequence := handshakeMessageSequence s;
     allHandshakeMessagesAsBuffer := allHandshakeMessagesAsBuffer s;
     sessionState := sessionState s; messageQueue := messageQueue s;
     draws := draws s; events := events s ++ [e] |}.

(** [new DtlsConnectionState(securityParameters...)] *)
Definition negotiatedState (p : SecurityParameters) : DtlsConnectionState :=
  {| bulkEncryptionAlgorithm := sp_bulkEncryptionAlgorithm p;
     compressionMethod := sp_compressionMethod p;
     macAlgorithm := sp_macAlgorithm p |}.

Definition incrementNextOutgoingSequenceNumber (s : t) : t :=
  set_outgoing (nextOutgoingEpoch s) (nextOutgoingSequenceNumber s + 1) s.

Definition incrementNextOutgoingEpoch (s : t) : t :=
  set_outgoing (nextOutgoingEpoch s + 1) 0 s.

(** [this.socket.send(buffer, 0, buffer.length, port, address, null)];
    reading [length] of [null] raises [TypeError]. *)
Definition socketSend (dtlsRecordAsBuffer : option Buffer) (s : t) : JS.result t :=
  match dtlsRecordAsBuffer with
  | None => JS.Throw JS.TypeError
  | Some b => JS.Ok (emit (Sent b (dstPort s) (dstIpAddress s)) s)
  end.

(** [messageQueue.pop()]: the last element and the rest. *)
Definition pop (q : list Buffer) : option (Buffer * list Buffer) :=
  match rev q with
  | [] => None
  | x :: r => Some (x, rev r)
  end.

(** How a handler inside the loop of [onSocketMessage] ends: it falls out
    of its [switch] and the loop goes on, or it executes [return]. *)
Inductive Flow : Type := Continue | Return.

Section WithCrypto.

Context {C : Crypto}.

(** [DtlsRecord.createFromPlaintext(type, DTLS_1_0, nextOutgoingEpoch,
    nextOutgoingSequenceNumber, fragment)] followed by
    [toEncryptedBuffer] under the current write state, as every sending
    site of the session has them. *)
Definition encryptOutgoing (type : Z) (fragment : Buffer) (s : t)
  : JS.result (option Buffer * t) :=
  let* dtlsRecord :=
    DtlsRecord.createFromPlaintext type enums.DtlsVersion_DTLS_1_0
                                   (nextOutgoingEpoch s) (nextOutgoingSequenceNumber s)
                                   fragment in
  let bulk := bulkEncryptionAlgorithm (currentWriteState s) in
  let* dtlsRecordAsBuffer :=
    DtlsRecord.toEncryptedBuffer dtlsRecord (draws s) bulk
                                 (clientWriteKey (securityParameters s))
                                 (macAlgorithm (currentWriteState s))
                                 (clientWriteMacSecret (securityParameters s)) in
  let s := if enums.isBulkNULL bulk || negb CryptoUtils.verifyCrypto
           then s else set_draws (S (draws s)) s in
  JS.Ok (dtlsRecordAsBuffer, s).

Definition sendApplicationData (data : Buffer) (s : t) : JS.result t :=
  if JS.strict_neq (sessionState s) enums.SessionState_Connected
  then JS.Ok (set_messageQueue (messageQueue s ++ [data]) s)
  else
    let* dtlsApplicationDataMessage := DtlsApplicationDataMessage.create data in
    let dtlsApplicationDataMessageAsBuffer :=
      DtlsApplicationDataMessage.toBuffer dtlsApplicationDataMessage in
    let* (dtlsRecordAsBuffer, s) :=
      encryptOutgoing enums.ProtocolType_DtlsApplicationDataProtocol
                      dtlsApplicationDataMessageAsBuffer s in
    let s := incrementNextOutgoingSequenceNumber s in
    socketSend dtlsRecordAsBuffer s.

(** [sendApplicationData] on each payload of [l], first to last. *)
Fixpoint sendEach (l : list Buffer) (s : t) : JS.result t :=
  match l with
  | [] => JS.Ok s
  | data :: rest =>
      let* s := sendApplicationData data s in
      sendEach rest s
  end.

(** The handshake message a session sends: the body wrapped by
    [DtlsHandshakeMessage.createFromMessageBuffer] and serialised, the
    handshake sequence number advanced, the transcript extended. *)
Definition wrapHandshake (type : Z) (body : Buffer) (s : t) : JS.result (Buffer * t) :=
  let* handshakeMessage :=
    DtlsHandshakeMessage.createFromMessageBuffer
      type (Buf.len body) (handshakeMessageSequence s) 0 (Buf.len body) body in
  let* handshakeMessageAsBuffer := DtlsHandshakeMessage.toBuffer handshakeMessage in
  let s := set_handshakeMessageSequence (handshakeMessageSequence s + 1) s in
  let s := set_transcript (allHandshakeMessagesAsBuffer s ++ handshakeMessageAsBuffer) s in
  JS.Ok (handshakeMessageAsBuffer, s).

(** [case enums.MessageType.HelloVerifyRequest] *)
Definition onHelloVerifyRequest (dtlsHandshakeMessage : DtlsHandshakeMessage.t) (s : t)
  : JS.result (Flow * t) :=
  let* r := HelloVerifyRequestMessage.fromBuffer
              (DtlsHandshakeMessage.message dtlsHandshakeMessage) None in
  match r with
  | None => JS.Throw JS.TypeError
  | Some (helloVerifyRequestMessage, _) =>
      let s := set_transcript (Buf.alloc 0) s in
      let cookie := HelloVerifyRequestMessage.cookie helloVerifyRequestMessage in
      let s := set_handshakeMessageSequence 0 s in
      let* clientHelloMessage :=
        ClientHelloMessage.create DTLS_VERSION (clientRandom (securityParameters s))
                                  (sessionId s) cookie
                                  supportedCipherSuites supportedCompressionMethods in
      let* clientHelloMessageAsBuffer := ClientHelloMessage.toBuffer clientHelloMessage in
      let* (handshakeMessageAsBuffer, s) :=
        wrapHandshake enums.MessageType_ClientHello clientHelloMessageAsBuffer s in
      let* (dtlsRecordAsBuffer, s) :=
        encryptOutgoing enums.ProtocolType_DtlsHandshakeProtocol handshakeMessageAsBuffer s in
      let s := incrementNextOutgoingSequenceNumber s in
      let s := set_sessionState enums.SessionState_ClientHelloSent s in
      let* s := socketSend dtlsRecordAsBuffer s in
      JS.Ok (Continue, s)
  end.

(** [case enums.MessageType.ServerHello] *)
Definition onServerHello (dtlsHandshakeMessage : DtlsHandshakeMessage.t) (s : t)
  : JS.result (Flow * t) :=
  let* r := ServerHelloMessage.fromBuffer
              (DtlsHandshakeMessage.message dtlsHandshakeMessage) None in
  match r with
  | None => JS.Throw JS.TypeError
  | Some (serverHelloMessage, _) =>
      let* asBuffer := DtlsHandshakeMessage.toBuffer dtlsHandshakeMessage in
      let s := set_transcript (allHandshakeMessagesAsBuffer s ++ asBuffer) s in
      let p := securityParameters s in
      let withRandom bulk mac :=
        {| clientRandom := clientRandom p;
           serverRandom := ServerHelloMessage.random serverHelloMessage;
           masterSecret := masterSecret p;
           clientWriteMacSecret := clientWriteMacSecret p;
           serverWriteMacSecret := serverWriteMacSecret p;
           clientWriteKey := clientWriteKey p;
           serverWriteKey := serverWriteKey p;
           sp_bulkEncryptionAlgorithm := bulk;
           sp_macAlgorithm := mac;
           sp_compressionMethod := sp_compressionMethod p |} in
      let suite := ServerHelloMessage.cipherSuite serverHelloMessage in
      let chosen :=
        if suite =? enums.CipherSuite_TLS_PSK_WITH_AES_128_CBC_SHA
        then Some (withRandom enums.AES_128_CBC enums.Mac_SHA1)
        else if suite =? enums.CipherSuite_TLS_PSK_WITH_AES_256_CBC_SHA
        then Some (withRandom enums.AES_256_CBC enums.Mac_SHA1)
        else None in
      match chosen with
      | None =>
          JS.Ok (Return,
                 set_securityParameters
                   (withRandom (sp_bulkEncryptionAlgorithm p) (sp_macAlgorithm p)) s)
      | Some p =>
          let s := set_securityParameters p s in
          match ServerHelloMessage.compressionMethod serverHelloMessage with
          | JS.Num 0 =>
              let p := {| clientRandom := clientRandom p;
                          serverRandom := serverRandom p;
                          masterSecret := masterSecret p;
                          clientWriteMacSecret := clientWriteMacSecret p;
                          serverWriteMacSecret := serverWriteMacSecret p;
                          clientWriteKey := clientWriteKey p;
                          serverWriteKey := serverWriteKey p;
                          sp_bulkEncryptionAlgorithm := sp_bulkEncryptionAlgorithm p;
                          sp_macAlgorithm := sp_macAlgorithm p;
                          sp_compressionMethod := enums.CompressionMethod_NULL |} in
              JS.Ok (Continue, set_securityParameters p s)
          | _ => JS.Ok (Return, s)
          end
      end
  end.

(** The first step of [case enums.MessageType.ServerHelloDone]: the
    ClientKeyExchange message is built, recorded and sent. *)
Definition sendClientKeyExchange (s : t) : JS.result t :=
  let* pskClientKeyExchangeMessage := PskClientKeyExchangeMessage.create (pskIdentity s) in
  let* pskClientKeyExchangeMessageAsBuffer :=
    PskClientKeyExchangeMessage.toBuffer pskClientKeyExchangeMessage in
  let* (handshakeMessageAsBuffer, s) :=
    wrapHandshake enums.MessageType_ClientKeyExchange pskClientKeyExchangeMessageAsBuffer s in
  let* (dtlsRecordAsBuffer, s) :=
    encryptOutgoing enums.ProtocolType_DtlsHandshakeProtocol handshakeMessageAsBuffer s in
  let s := incrementNextOutgoingSequenceNumber s in
  socketSend dtlsRecordAsBuffer s.

(** The second step: the master secret and the key block. *)
Definition deriveKeys (s : t) : JS.result t :=
  let p := securityParameters s in
  let* premasterSecret := CryptoUtils.createPremasterSecret_FromPresharedKey (pskPassword s) in
  let* masterSecret := CryptoUtils.PRF premasterSecret "master secret"
                                       (clientRandom p ++ serverRandom p) 48 in
  match masterSecret with
  | None => JS.Throw JS.TypeError
  | Some masterSecret =>
      (* the premaster secret is overwritten with [randomBytes(premasterSecret.length)] *)
      let s := set_draws (S (draws s)) s in
      let clientWriteMacSecretLength := enums.getMacAlgorithmHashSize (sp_macAlgorithm p) in
      let serverWriteMacSecretLength := enums.getMacAlgorithmHashSize (sp_macAlgorithm p) in
      let clientWriteKeyLength :=
        enums.getBulkAlgorithmKeySize (sp_bulkEncryptionAlgorithm p) in
      let serverWriteKeyLength :=
        enums.getBulkAlgorithmKeySize (sp_bulkEncryptionAlgorithm p) in
      let keyBlockRequiredLength :=
        clientWriteMacSecretLength + serverWriteMacSecretLength
        + clientWriteKeyLength + serverWriteKeyLength in
      let* keyBlockAsBuffer :=
        CryptoUtils.PRF masterSecret "key expansion"
                        (serverRandom p ++ clientRandom p) keyBlockRequiredLength in
      match keyBlockAsBuffer with
      | None => JS.Throw JS.TypeError
      | Some keyBlockAsBuffer =>
          let keyBlockOffset := 0 in
          let cwm := Buf.copy keyBlockAsBuffer (Buf.alloc clientWriteMacSecretLength) 0
                              keyBlockOffset (keyBlockOffset + clientWriteMacSecretLength) in
          let keyBlockOffset := keyBlockOffset + clientWriteMacSecretLength in
          let swm := Buf.copy keyBlockAsBuffer (Buf.alloc serverWriteMacSecretLength) 0
                              keyBlockOffset (keyBlockOffset + serverWriteMacSecretLength) in
          let keyBlockOffset := keyBlockOffset + serverWriteMacSecretLength in
          let cwk := Buf.copy keyBlockAsBuffer (Buf.alloc clientWriteKeyLength) 0
                              keyBlockOffset (keyBlockOffset + clientWriteKeyLength) in
          let keyBlockOffset := keyBlockOffset + clientWriteKeyLength in
          let swk := Buf.copy keyBlockAsBuffer (Buf.alloc serverWriteKeyLength) 0
                              keyBlockOffset (keyBlockOffset + serverWriteKeyLength) in
          JS.Ok (set_securityParameters
                   {| clientRandom := clientRandom p;
                      serverRandom := serverRandom p;
                      masterSecret := masterSecret;
                      clientWriteMacSecret := cwm;
                      serverWriteMacSecret := swm;
                      clientWriteKey := cwk;
                      serverWriteKey := swk;
                      sp_bulkEncryptionAlgorithm := sp_bulkEncryptionAlgorithm p;
                      sp_macAlgorithm := sp_macAlgorithm p;
                      sp_compressionMethod := sp_compressionMethod p |} s)
      end
  end.

(** The third step: the ChangeCipherSpec record is built and encrypted
    under the current write state, the epoch is incremented, the record
    is sent, the write state is replaced. *)
Definition sendChangeCipherSpec (s : t) : JS.result t :=
  let* changeCipherSpecMessage :=
    DtlsChangeCipherSpecMessage.create enums.ChangeCipherSpecType_One in
  let changeCipherSpecMessageAsBuffer :=
    DtlsChangeCipherSpecMessage.toBuffer changeCipherSpecMessage in
  let* (dtlsRecordAsBuffer, s) :=
    encryptOutgoing enums.ProtocolType_DtlsChangeCipherSpecProtocol
                    changeCipherSpecMessageAsBuffer s in
  let s := incrementNextOutgoingEpoch s in
  let* s := socketSend dtlsRecordAsBuffer s in
  JS.Ok (set_currentWriteState (negotiatedState (securityParameters s)) s).

(** [PRF(masterSecret, label, MD5(transcript) || SHA1(transcript), 12)] *)
Definition verifyData (label : string) (s : t) : JS.result (option Buffer) :=
  let firstHalf := createHash md5 (allHandshakeMessagesAsBuffer s) in
  let secondHalf := createHash sha1 (allHandshakeMessagesAsBuffer s) in
  CryptoUtils.PRF (masterSecret (securityParameters s)) label (firstHalf ++ secondHalf) 12.

(** The fourth step: the Finished message. *)
Definition sendFinished (s : t) : JS.result t :=
  let* clientVerifyData := verifyData "client finished" s in
  match clientVerifyData with
  | None => JS.Throw JS.TypeError
  | Some clientVerifyData =>
      let* finishedMessage := FinishedMessage.create clientVerifyData in
      let* finishedMessageAsBuffer := FinishedMessage.toBuffer finishedMessage in
      let* (handshakeMessageAsBuffer, s) :=
        wrapHandshake enums.MessageType_Finished finishedMessageAsBuffer s in
      let* (dtlsRecordAsBuffer, s) :=
        encryptOutgoing enums.ProtocolType_DtlsHandshakeProtocol handshakeMessageAsBuffer s in
      let s := incrementNextOutgoingSequenceNumber s in
      let s := set_sessionState enums.SessionState_FinishedSent s in
      socketSend dtlsRecordAsBuffer s
  end.

(** [case enums.MessageType.ServerHelloDone] *)
Definition onServerHelloDone (dtlsHandshakeMessage : DtlsHandshakeMessage.t) (s : t)
  : JS.result (Flow * t) :=
  if negb CryptoUtils.verifyCrypto then JS.Ok (Return, s)
  else
    let* r := ServerHelloDoneMessage.fromBuffer
                (DtlsHandshakeMessage.message dtlsHandshakeMessage) None in
    match r with
    | None => JS.Throw JS.TypeError
    | Some _ =>
        let* asBuffer := DtlsHandshakeMessage.toBuffer dtlsHandshakeMessage in
        let s := set_transcript (allHandshakeMessagesAsBuffer s ++ asBuffer) s in
        let* s := sendClientKeyExchange s in
        let* s := deriveKeys s in
        let* s := sendChangeCipherSpec s in
        let* s := sendFinished s in
        JS.Ok (Continue, s)
    end.

(** The listener call [this.connectListener(this)]. *)
Definition callConnectListener (s : t) : JS.result t :=
  match connectListener s with
  | NoConnectListener => JS.Ok s
  | SendOnConnect msg => sendApplicationData msg (emit ConnectCalled s)
  | NotifyOnConnect => JS.Ok (emit ConnectCalled s)
  end.

(** [while (this.messageQueue.length > 0) { let data = this.messageQueue.pop();
    this.sendApplicationData(data); }]; [fuel] bounds the iterations. *)
Fixpoint drainMessageQueue (fuel : nat) (s : t) : JS.result t :=
  match fuel with
  | O => JS.Ok s
  | S fuel' =>
      match pop (messageQueue s) with
      | None => JS.Ok s
      | Some (data, rest) =>
          let s := set_messageQueue rest s in
          let* s := sendApplicationData data s in
          drainMessageQueue fuel' s
      end
  end.

(** [case enums.MessageType.Finished]; the verify data are compared with
    [Buffer.compare]. *)
Definition onFinished (dtlsHandshakeMessage : DtlsHandshakeMessage.t) (s : t)
  : JS.result (Flow * t) :=
  let* r := FinishedMessage.fromBuffer
              (DtlsHandshakeMessage.message dtlsHandshakeMessage) None in
  match r with
  | None => JS.Throw JS.TypeError
  | Some (finishedMessage, _) =>
      let* serverVerifyData := verifyData "server finished" s in
      match serverVerifyData with
      | None => JS.Throw JS.TypeError
      | Some serverVerifyData =>
          if negb (Buf.compare serverVerifyData
                               (FinishedMessage.verifyData finishedMessage) =? 0)
          then JS.Ok (Return, s)
          else
            let s := set_sessionState enums.SessionState_Connected s in
            let* s := callConnectListener s in
            let* s := drainMessageQueue (length (messageQueue s)) s in
            JS.Ok (Continue, s)
      end
  end.

(** [case enums.ProtocolType.DtlsHandshakeProtocol] *)
Definition onHandshakeRecord (dtlsRecord : DtlsRecord.t) (s : t) : JS.result (Flow * t) :=
  let* r := DtlsHandshakeMessage.fromBuffer (DtlsRecord.fragment dtlsRecord) None in
  match r with
  | None => JS.Throw JS.TypeError
  | Some (dtlsHandshakeMessage, _) =>
      match DtlsHandshakeMessage.messageType dtlsHandshakeMessage with
      | JS.Num 0x03 => onHelloVerifyRequest dtlsHandshakeMessage s
      | JS.Num 0x02 => onServerHello dtlsHandshakeMessage s
      | JS.Num 0x0e => onServerHelloDone dtlsHandshakeMessage s
      | JS.Num 0x14 => onFinished dtlsHandshakeMessage s
      | _ => JS.Ok (Continue, s)
      end
  end.

(** [case enums.ProtocolType.DtlsChangeCipherSpecProtocol] *)
Definition onChangeCipherSpecRecord (dtlsRecord : DtlsRecord.t) (s : t)
  : JS.result (Flow * t) :=
  let* r := DtlsChangeCipherSpecMessage.fromBuffer (DtlsRecord.fragment dtlsRecord) None in
  match r with
  | None => JS.Throw JS.TypeError
  | Some (dtlsChangeCipherSpecMessage, _) =>
      if JS.strict_neq (DtlsChangeCipherSpecMessage.type dtlsChangeCipherSpecMessage)
                       (JS.Num enums.ChangeCipherSpecType_One)
      then JS.Ok (Return, s)
      else JS.Ok (Continue,
                  set_currentReadState (negotiatedState (securityParameters s)) s)
  end.

(** [case enums.ProtocolType.DtlsAlertProtocol] *)
Definition onAlertRecord (dtlsRecord : DtlsRecord.t) (s : t) : JS.result (Flow * t) :=
  let* r := DtlsAlertMessage.fromBuffer (DtlsRecord.fragment dtlsRecord) None in
  match r with
  | None => JS.Throw JS.TypeError
  | Some (dtlsAlertMessage, _) =>
      match DtlsAlertMessage.description dtlsAlertMessage with
      | JS.Num 0 =>
          JS.Ok (Continue, if disconnectListener s then emit DisconnectCalled s else s)
      | _ => JS.Ok (Continue, s)
      end
  end.

(** [case enums.ProtocolType.DtlsApplicationDataProtocol] *)
Definition onApplicationDataRecord (dtlsRecord : DtlsRecord.t) (s : t)
  : JS.result (Flow * t) :=
  let* r := DtlsApplicationDataMessage.fromBuffer (DtlsRecord.fragment dtlsRecord) None in
  match r with
  | None => JS.Throw JS.TypeError
  | Some (dtlsApplicationDataMessage, _) =>
      let data := DtlsApplicationDataMessage.data dtlsApplicationDataMessage in
      JS.Ok (Continue, if messageListener s then emit (MessageDelivered data) s else s)
  end.

(** The loop of [onSocketMessage].  [fromEncryptedBuffer] returns [null]
    or an object; the loop reads the property [record] of what it
    returned before it tests the record against [null].  [fuel] bounds
    the iterations. *)
Fixpoint onSocketMessage_loop (fuel : nat) (msg : Buffer) (messageOffset : Z) (s : t)
  : JS.result t :=
  match fuel with
  | O => JS.Ok s
  | S fuel' =>
      if negb (messageOffset <? Buf.len msg) then JS.Ok s
      else
        let* dtlsRecord_FromBufferResult :=
          DtlsRecord.fromEncryptedBuffer
            msg (Some (Z.to_nat messageOffset))
            (bulkEncryptionAlgorithm (currentReadState s))
            (serverWriteKey (securityParameters s))
            (macAlgorithm (currentReadState s))
            (serverWriteMacSecret (securityParameters s)) in
        let* dtlsRecord :=
          match dtlsRecord_FromBufferResult with
          | None => JS.Throw JS.TypeError
          | Some (record, _) => JS.Ok (Some record)
          end in
        match dtlsRecord, dtlsRecord_FromBufferResult with
        | Some dtlsRecord, Some (_, bytesConsumed) =>
            let messageOffset := messageOffset + bytesConsumed in
            let* (flow, s) :=
              match DtlsRecord.protocolType dtlsRecord with
              | JS.Num 0x16 => onHandshakeRecord dtlsRecord s
              | JS.Num 0x14 => onChangeCipherSpecRecord dtlsRecord s
              | JS.Num 0x15 => onAlertRecord dtlsRecord s
              | JS.Num 0x17 => onApplicationDataRecord dtlsRecord s
              | _ => JS.Ok (Continue, s)
              end in
            match flow with
            | Return => JS.Ok s
            | Continue => onSocketMessage_loop fuel' msg messageOffset s
            end
        | _, _ => JS.Ok s (* [break]: discard the entire datagram *)
        end
  end.

Definition onSocketMessage (msg : Buffer) (s : t) : JS.result t :=
  onSocketMessage_loop (length msg) msg 0 s.

(** The assignments that open [connect]: peer, listeners and
    credentials. *)
Definition set_connection (port : Z) (ipAddress : string) (pskIdentity pskPassword : Buffer)
           (connectListener : ConnectListener) (disconnectListener : bool) (s : t) : t :=
  {| connectListener := connectListener; disconnectListener := disconnectListener;
     messageListener := DtlsSession.messageListener s; dstIpAddress := ipAddress;
     dstPort := port; pskIdentity := pskIdentity; pskPassword := pskPassword;
     sessionId := DtlsSession.sessionId s;
     nextOutgoingEpoch := DtlsSession.nextOutgoingEpoch s;
     nextOutgoingSequenceNumber := DtlsSession.nextOutgoingSequenceNumber s;
     nextIncomingEpoch := DtlsSession.nextIncomingEpoch s;
     nextIncomingSequenceNumber := DtlsSession.nextIncomingSequenceNumber s;
     currentReadState := DtlsSession.currentReadState s;
     currentWriteState := DtlsSession.currentWriteState s;
     securityParameters := DtlsSession.securityParameters s;
     handshakeMessageSequence := DtlsSession.handshakeMessageSequence s;
     allHandshakeMessagesAsBuffer := DtlsSession.allHandshakeMessagesAsBuffer s;
     sessionState := DtlsSession.sessionState s;
     messageQueue := DtlsSession.messageQueue s;
     draws := DtlsSession.draws s; events := DtlsSession.events s |}.

(** [securityParameters.clientRandom = ...] *)
Definition set_clientRandom (clientRandom : Buffer) (p : SecurityParameters)
  : SecurityParameters :=
  {| clientRandom := clientRandom;
     serverRandom := DtlsSession.serverRandom p;
     masterSecret := DtlsSession.masterSecret p;
     clientWriteMacSecret := DtlsSession.clientWriteMacSecret p;
     serverWriteMacSecret := DtlsSession.serverWriteMacSecret p;
     clientWriteKey := DtlsSession.clientWriteKey p;
     serverWriteKey := DtlsSession.serverWriteKey p;
     sp_bulkEncryptionAlgorithm := DtlsSession.sp_bulkEncryptionAlgorithm p;
     sp_macAlgorithm := DtlsSession.sp_macAlgorithm p;
     sp_compressionMethod := DtlsSession.sp_compressionMethod p |}.

Definition CLIENT_RANDOM_SUFFIX_LENGTH : Z := 28.
Definition CLIENT_RANDOM_LENGTH : Z := 32.

(** [calculateUtcWithRandomOffset()]: the seconds of [now] (the value of
    [Date.now()], in milliseconds) moved by a 24-bit random offset centred
    on zero.  [draw] numbers the call of [randomBytes(3)]; [None] is
    [null].  The three octets are below 256, so the 32-bit shifts and
    ors do not wrap. *)
Definition calculateUtcWithRandomOffset (now : Z) (draw : nat) : option Z :=
  if negb CryptoUtils.verifyCrypto then None
  else
    let result := now / 1000 in
    let randomOffset := randomBytes draw 3 in
    let octet i := match Buf.get randomOffset i with Some v => v | None => 0 end in
    let randomOffsetAsNumber :=
      Z.lor (Z.lor (Z.shiftl (octet 0) 16) (Z.shiftl (octet 1) 8)) (octet 2) in
    let randomOffsetAsNumber := randomOffsetAsNumber - Z.shiftl 1 23 in
    let result := result + randomOffsetAsNumber in
    Some result.

(** [generateClientRandom()]: [randomBytes(28)] is drawn first, then the
    three octets of the offset; a [null] time is written as 0.
    [new Buffer(32)] is overwritten in full. *)
Definition generateClientRandom (now : Z) (draw : nat) : JS.result (option Buffer) :=
  if negb CryptoUtils.verifyCrypto then JS.Ok None
  else
    let result := Buf.alloc CLIENT_RANDOM_LENGTH in
    let randomBytes := randomBytes draw CLIENT_RANDOM_SUFFIX_LENGTH in
    let utcWithRandomOffset :=
      match calculateUtcWithRandomOffset now (S draw) with
      | Some utc => utc
      | None => 0
      end in
    let* result := Buf.writeUIntBE result utcWithRandomOffset 0 4 in
    JS.Ok (Some (Buf.copy randomBytes result 4 0 (Buf.len randomBytes))).

(** [connect(port, ipAddress, pskIdentity, pskPassword, connectListener,
    disconnectListener)] at the time [now]; without crypto the call logs
    an error and returns. *)
Definition connect (now : Z) (port : Z) (ipAddress : string)
           (pskIdentity pskPassword : Buffer)
           (connectListener : ConnectListener) (disconnectListener : bool) (s : t)
  : JS.result t :=
  if negb CryptoUtils.verifyCrypto then JS.Ok s
  else
    let s := set_connection port ipAddress pskIdentity pskPassword
                            connectListener disconnectListener s in
    let s := set_transcript (Buf.alloc 0) s in
    let s := set_handshakeMessageSequence 0 s in
    let* clientRandom := generateClientRandom now (draws s) in
    let s := set_draws (S (S (draws s))) s in
    match clientRandom with
    | None => JS.Throw JS.TypeError
    | Some clientRandom =>
        let s := set_securityParameters
                   (set_clientRandom clientRandom (securityParameters s)) s in
        let cookie := None in
        let* clientHelloMessage :=
          ClientHelloMessage.create DTLS_VERSION clientRandom (sessionId s) cookie
                                    supportedCipherSuites supportedCompressionMethods in
        let* clientHelloMessageAsBuffer := ClientHelloMessage.toBuffer clientHelloMessage in
        let* (handshakeMessageAsBuffer, s) :=
          wrapHandshake enums.MessageType_ClientHello clientHelloMessageAsBuffer s in
        let* (dtlsRecordAsBuffer, s) :=
          encryptOutgoing enums.ProtocolType_DtlsHandshakeProtocol handshakeMessageAsBuffer s in
        let s := incrementNextOutgoingSequenceNumber s in
        let s := set_sessionState enums.SessionState_ClientHelloSent s in
        socketSend dtlsRecordAsBuffer s
    end.

End WithCrypto.

End DtlsSession.

(* ------------------------------------------------------------------ *)
(** ** Concrete sessions and datagrams, over the toy primitives *)

Module Scenario.

Import DtlsSession.

Definition noState : DtlsConnectionState :=
  {| bulkEncryptionAlgorithm := enums.Bulk_NULL;
     compressionMethod := enums.CompressionMethod_NULL;
     macAlgorithm := enums.Mac_NULL |}.

Definition noParameters : SecurityParameters :=
  {| clientRandom := repeat 0 32;
     serverRandom := [];
     masterSecret := [];
     clientWriteMacSecret := [];
     serverWriteMacSecret := [];
     clientWriteKey := [];
     serverWriteKey := [];
     sp_bulkEncryptionAlgorithm := enums.Bulk_NULL;
     sp_macAlgorithm := enums.Mac_NULL;
     sp_compressionMethod := enums.CompressionMethod_NULL |}.

(** A session after [connect]: the first ClientHello (63 octets with its
    handshake header) is in the transcript. *)
Definition clientHelloSent : DtlsSession.t :=
  {| connectListener := SendOnConnect [65];
     disconnectListener := true;
     messageListener := true;
     dstIpAddress := "10.0.0.1";
     dstPort := 5684;
     pskIdentity := Buf.ofString "Client_identity";
     pskPassword := [1; 2; 3; 4; 5; 6; 7; 8];
     sessionId := None;
     nextOutgoingEpoch := 0;
     nextOutgoingSequenceNumber := 1;
     nextIncomingEpoch := 0;
     nextIncomingSequenceNumber := 0;
     currentReadState := noState;
     currentWriteState := noState;
     securityParameters := noParameters;
     handshakeMessageSequence := 1;
     allHandshakeMessagesAsBuffer := repeat 0 63;
     sessionState := enums.SessionState_ClientHelloSent;
     messageQueue := [[66]; [67]];
     draws := 2;
     events := [] |}.

(** A datagram with one handshake record under the NULL cipher: a
    HelloVerifyRequest with the cookie DE AD BE EF. *)
Definition helloVerifyRequestDatagram : Buffer :=
  [0x16; 0xfe; 0xff; 0; 0; 0; 0; 0; 0; 0; 0; 0; 19]
  ++ [0x03; 0; 0; 7; 0; 0; 0; 0; 0; 0; 0; 7]
  ++ [0xfe; 0xff; 4; 0xde; 0xad; 0xbe; 0xef].

(** A datagram with an application-data record under the NULL cipher
    followed by three stray octets. *)
Definition truncatedDatagram : Buffer :=
  [0x17; 0xfe; 0xff; 0; 0; 0; 0; 0; 0; 0; 0; 0; 2; 104; 105] ++ [1; 2; 3].



(** A session after the client Finished: AES-128-CBC with HMAC-SHA1 in
    the write state, "B" and "C" queued in this order, and the closure
    of [DtlsSocket.send] holding "A" as connect listener. *)
Definition aes128 : DtlsConnectionState :=
  {| bulkEncryptionAlgorithm := enums.AES_128_CBC;
     compressionMethod := enums.CompressionMethod_NULL;
     macAlgorithm := enums.Mac_SHA1 |}.

Definition negotiated : SecurityParameters :=
  {| clientRandom := repeat 0 32;
     serverRandom := repeat 1 32;
     masterSecret := repeat 2 48;
     clientWriteMacSecret := repeat 3 20;
     serverWriteMacSecret := repeat 4 20;
     clientWriteKey := repeat 5 16;
     serverWriteKey := repeat 6 16;
     sp_bulkEncryptionAlgorithm := enums.AES_128_CBC;
     sp_macAlgorithm := enums.Mac_SHA1;
     sp_compressionMethod := enums.CompressionMethod_NULL |}.

Definition finishedSent : DtlsSession.t :=
  {| connectListener := SendOnConnect [65];
     disconnectListener := true;
     messageListener := true;
     dstIpAddress := "10.0.0.1";
     dstPort := 5684;
     pskIdentity := Buf.ofString "Client_identity";
     pskPassword := [1; 2; 3; 4; 5; 6; 7; 8];
     sessionId := None;
     nextOutgoingEpoch := 1;
     nextOutgoingSequenceNumber := 1;
     nextIncomingEpoch := 0;
     nextIncomingSequenceNumber := 0;
     currentReadState := aes128;
     currentWriteState := aes128;
     securityParameters := negotiated;
     handshakeMessageSequence := 3;
     allHandshakeMessagesAsBuffer := repeat 7 200;
     sessionState := enums.SessionState_FinishedSent;
     messageQueue := [[66]; [67]];
     draws := 5;
     events := [] |}.

(** The server Finished that matches the transcript of [finishedSent]. *)
Definition serverFinished : DtlsHandshakeMessage.t :=
  let verify :=
    match DtlsSession.verifyData (C := ToyCrypto.crypto) "server finished" finishedSent with
    | JS.Ok (Some v) => v
    | _ => []
    end in
  {| DtlsHandshakeMessage.messageType := JS.Num enums.MessageType_Finished;
     DtlsHandshakeMessage.length := 12;
     DtlsHandshakeMessage.messageSequence := 3;
     DtlsHandshakeMessage.fragmentOffset := 0;
     DtlsHandshakeMessage.fragmentLength := 12;
     DtlsHandshakeMessage.message := verify |}.

(** The payloads of the application-data records among the events, in
    the order sent, read back with the client write keys of [negotiated]. *)
Definition sentPayloads (evs : list Event) : list (option Buffer) :=
  flat_map
    (fun e =>
       match e with
       | Sent datagram _ _ =>
           match DtlsRecord.fromEncryptedBuffer (C := ToyCrypto.crypto)
                   datagram None enums.AES_128_CBC (clientWriteKey negotiated)
                   enums.Mac_SHA1 (clientWriteMacSecret negotiated) with
           | JS.Ok (Some (r, _)) => [Some (DtlsRecord.fragment r)]
           | _ => [None]
           end
       | _ => []
       end)
    evs.

End Scenario.

(* ------------------------------------------------------------------ *)
(** ** Vocabulary of the statements *)

Section Vocabulary.

Context {C : Crypto}.

(** A buffer under construction: the octets written so far, then zeros. *)
Definition filled (p : Buffer) (k : nat) : Buffer := p ++ repeat 0 k.

(** The thirteen header octets of a record whose length field is [n]. *)
Definition recordHeader (protocolType : JS.value) (dtlsVersion epoch sequenceNumber n : Z)
  : Buffer :=
  [Buf.ToUint8 protocolType mod 256] ++ Buf.beBytes 2 dtlsVersion ++ Buf.beBytes 2 epoch
  ++ Buf.beBytes 6 sequenceNumber ++ Buf.beBytes 2 n.

(** The octets the MAC is computed over. *)
Definition macInput (epoch sequenceNumber : Z) (protocolType : JS.value) (dtlsVersion : Z)
           (fragment : Buffer) : Buffer :=
  Buf.beBytes 2 epoch ++ Buf.beBytes 6 sequenceNumber ++ [Buf.ToUint8 protocolType mod 256]
  ++ Buf.beBytes 2 dtlsVersion ++ Buf.beBytes 2 (Buf.len fragment) ++ fragment.

(** The padding length [buildBufferForEncryption] chooses. *)
Definition paddingLengthOf (fragment macHash : Buffer) (block : Z) : Z :=
  JS.ceil_div (Buf.len fragment + Buf.len macHash + 1) block * block
  - (Buf.len fragment + Buf.len macHash + 1).

(** The plaintext handed to the block cipher. *)
Definition paddedPlaintext (fragment macHash : Buffer) (block : Z) : Buffer :=
  let pad := paddingLengthOf fragment macHash block in
  fragment ++ macHash ++ repeat (pad mod 256) (Z.to_nat pad) ++ [pad mod 256].

(** The fields of a record that [createFromPlaintext] accepts. *)
Definition wellFormed (r : DtlsRecord.t) : Prop :=
  0 <= DtlsRecord.dtlsVersion r < 2 ^ 16
  /\ 0 <= DtlsRecord.epoch r < 2 ^ 16
  /\ 0 <= DtlsRecord.sequenceNumber r < 2 ^ 48
  /\ Buf.len (DtlsRecord.fragment r) <= 2 ^ 14.

(** Whether the octets at position [i] of the two buffers differ under
    [!==]; a missing octet is [undefined]. *)
Definition differAt (a b : Buffer) (i : nat) : bool :=
  match Buf.get a (Z.of_nat i), Buf.get b (Z.of_nat i) with
  | Some x, Some y => negb (x =? y)
  | None, None => false
  | _, _ => true
  end.

(** What the decoder finds in a decrypted plaintext [P]: the padding
    length in the last octet, before it the padding, before that the MAC,
    and the content in front. *)
Definition paddingLengthIn (P : Buffer) : Z := last P 0.

Definition contentIn (P : Buffer) : Buffer :=
  Buf.slice P 0 (Buf.len P - paddingLengthIn P - 1 - 20).

Definition macIn (P : Buffer) : Buffer :=
  Buf.slice P (Buf.len P - paddingLengthIn P - 1 - 20) (Buf.len P - paddingLengthIn P - 1).

(** The padding is bad when it does not fit in [P] or when one of the
    last [paddingLength + 1] octets is not the padding length. *)
Definition badPadding (P : Buffer) : Prop :=
  Buf.len P < paddingLengthIn P + 1
  \/ exists i, Buf.len P - paddingLengthIn P - 1 <= i < Buf.len P
               /\ Buf.get P i <> Some (paddingLengthIn P).

(** The MAC is bad when it is not the HMAC of the header fields and the
    content. *)
Definition badMac (ep sq : Z) (pt : JS.value) (ver : Z) (macSecret : Buffer) (P : Buffer)
  : Prop :=
  createHmac sha1 macSecret (macInput ep sq pt ver (contentIn P)) <> macIn P.

(** The outgoing counters are within the ranges of the record header. *)
Definition countersInRange (s : DtlsSession.t) : Prop :=
  0 <= DtlsSession.nextOutgoingEpoch s <= 2 ^ 16 - 1
  /\ 0 <= DtlsSession.nextOutgoingSequenceNumber s <= 2 ^ 48 - 1.

(** The write state can be used: it is the NULL state, or crypto is
    loaded and the client write key has the length of the cipher. *)
Definition writeReady (s : DtlsSession.t) : Prop :=
  let bulk := DtlsSession.bulkEncryptionAlgorithm (DtlsSession.currentWriteState s) in
  enums.isBulkNULL bulk = true
  \/ (cryptoLoads = true
      /\ Buf.len (DtlsSession.clientWriteKey (DtlsSession.securityParameters s))
         = enums.getBulkAlgorithmKeySize bulk).

(** The record built for an outgoing fragment. *)
Definition outgoingRecord (type : Z) (fragment : Buffer) (s : DtlsSession.t) : DtlsRecord.t :=
  {| DtlsRecord.protocolType := JS.Num type;
     DtlsRecord.dtlsVersion := enums.DtlsVersion_DTLS_1_0;
     DtlsRecord.epoch := DtlsSession.nextOutgoingEpoch s;
     DtlsRecord.sequenceNumber := DtlsSession.nextOutgoingSequenceNumber s;
     DtlsRecord.fragment := fragment |}.

(** [toEncryptedBuffer] on that record under the current write state. *)
Definition outgoingEncoding (type : Z) (fragment : Buffer) (s : DtlsSession.t)
  : JS.result (option Buffer) :=
  DtlsRecord.toEncryptedBuffer
    (outgoingRecord type fragment s) (DtlsSession.draws s)
    (DtlsSession.bulkEncryptionAlgorithm (DtlsSession.currentWriteState s))
    (DtlsSession.clientWriteKey (DtlsSession.securityParameters s))
    (DtlsSession.macAlgorithm (DtlsSession.currentWriteState s))
    (DtlsSession.clientWriteMacSecret (DtlsSession.securityParameters s)).

(** The session after the encryption: one more [randomBytes] call unless
    the write state is the NULL state. *)
Definition afterEncryption (s : DtlsSession.t) : DtlsSession.t :=
  if enums.isBulkNULL (DtlsSession.bulkEncryptionAlgorithm (DtlsSession.currentWriteState s))
  then s else DtlsSession.set_draws (S (DtlsSession.draws s)) s.

(** The wire form of a handshake message sent in one fragment. *)
Definition handshakeWire (type : Z) (body : Buffer) (messageSequence : Z) : Buffer :=
  [type mod 256 mod 256] ++ Buf.beBytes 3 (Buf.len body) ++ Buf.beBytes 2 messageSequence
  ++ Buf.beBytes 3 0 ++ Buf.beBytes 3 (Buf.len body) ++ body.

(** The body of the ClientKeyExchange message. *)
Definition clientKeyExchangeBody (identity : Buffer) : Buffer :=
  Buf.beBytes 2 (Buf.len identity) ++ identity.




End Vocabulary.

(* ------------------------------------------------------------------ *)
(** ** Wire layouts

    The octet layouts the sources document at the head of each message
    file, as list expressions. *)

Section Layouts.

(** DtlsHandshakeMessage.js: type, length (3), message sequence (2),
    fragment offset (3), fragment length (3), message. *)
Definition handshakeLayout (m : DtlsHandshakeMessage.t) : Buffer :=
  [Buf.ToUint8 (DtlsHandshakeMessage.messageType m)]
  ++ Buf.beBytes 3 (DtlsHandshakeMessage.length m)
  ++ Buf.beBytes 2 (DtlsHandshakeMessage.messageSequence m)
  ++ Buf.beBytes 3 (DtlsHandshakeMessage.fragmentOffset m)
  ++ Buf.beBytes 3 (DtlsHandshakeMessage.fragmentLength m)
  ++ DtlsHandshakeMessage.message m.

(** HelloVerifyRequestMessage.js: server version (2), cookie length (1),
    cookie. *)
Definition helloVerifyRequestLayout (serverVersion : Z) (cookie : option Buffer) : Buffer :=
  Buf.beBytes 2 serverVersion
  ++ match cookie with
     | None => [0]
     | Some c => [Buf.len c] ++ c
     end.

(** ServerHelloMessage.js: version (2), random (32), session id length
    (1), session id, cipher suite (2), compression method (1). *)
Definition serverHelloLayout (dtlsVersion : Z) (random sessionId : Buffer)
           (cipherSuite compressionMethod : Z) : Buffer :=
  Buf.beBytes 2 dtlsVersion ++ random ++ [Buf.len sessionId] ++ sessionId
  ++ Buf.beBytes 2 cipherSuite ++ [compressionMethod].

(** ClientHelloMessage.js, without session id and cookie: version (2),
    random (32), session id length 0, cookie length 0, cipher suites
    length (2), cipher suites (2 each), compression methods length (1),
    compression methods (1 each). *)
Definition clientHelloLayout (dtlsVersion : Z) (random : Buffer)
           (cipherSuites compressionMethods : list Z) : Buffer :=
  Buf.beBytes 2 dtlsVersion ++ random ++ [0] ++ [0]
  ++ Buf.beBytes 2 (Buf.len cipherSuites * 2)
  ++ flat_map (Buf.beBytes 2) cipherSuites
  ++ [Buf.len compressionMethods mod 256]
  ++ map (fun v => v mod 256) compressionMethods.

(** A buffer holds octets. *)
Definition octets (b : Buffer) : Prop := Forall (fun x => 0 <= x < 256) b.

End Layouts.

(* ------------------------------------------------------------------ *)
(** ** The output stream of P_hash *)

Section Expansion.

Context {C : Crypto}.

(** The first [k] blocks the loop of [P_hash] appends: with
    [A(0) = data] and [A(i) = HMAC(secret, A(i-1))], block [i] is
    [HMAC(secret, A(i) ++ seed)]. *)
Fixpoint P_blocks (k : nat) (secret seed : Buffer) (algorithm : HashAlgorithm)
         (data : Buffer) : Buffer :=
  match k with
  | O => []
  | S k' =>
      let a := createHmac algorithm secret data in
      createHmac algorithm secret (a ++ seed) ++ P_blocks k' secret seed algorithm a
  end.

(** The premaster secret of RFC 4279 for a pre-shared key: the length of
    the key, as many zero octets, the length again, the key. *)
Definition premasterLayout (psk : Buffer) : Buffer :=
  Buf.beBytes 2 (Buf.len psk) ++ repeat 0 (length psk)
  ++ Buf.beBytes 2 (Buf.len psk) ++ psk.

End Expansion.

(* ------------------------------------------------------------------ *)
(** ** Records on the wire *)

Section Wire.

Context {C : Crypto}.

(** An encrypted record as [toEncryptedBuffer] lays it out: the header
    with the length of what follows, the IV drawn for this record, and
    the encryption of fragment, HMAC, padding and padding length. *)
Definition aesEncoding (r : DtlsRecord.t) (draw : nat)
           (alg : enums.BulkEncryptionAlgorithm) (key macSecret : Buffer) : Buffer :=
  let iv := randomBytes draw 16 in
  let macHash :=
    createHmac sha1 macSecret
               (macInput (DtlsRecord.epoch r) (DtlsRecord.sequenceNumber r)
                         (DtlsRecord.protocolType r) (DtlsRecord.dtlsVersion r)
                         (DtlsRecord.fragment r)) in
  let ct := cipher (enums.getBulkAlgorithmAsString alg) key iv
                   (paddedPlaintext (DtlsRecord.fragment r) macHash 16) in
  recordHeader (DtlsRecord.protocolType r) (DtlsRecord.dtlsVersion r)
               (DtlsRecord.epoch r) (DtlsRecord.sequenceNumber r) (Buf.len ct + 16)
  ++ iv ++ ct.

(** A record in the clear: the header and the fragment. *)
Definition clearEncoding (r : DtlsRecord.t) : Buffer :=
  recordHeader (DtlsRecord.protocolType r) (DtlsRecord.dtlsVersion r)
               (DtlsRecord.epoch r) (DtlsRecord.sequenceNumber r)
               (Buf.len (DtlsRecord.fragment r))
  ++ DtlsRecord.fragment r.

(** A record whose content type is an octet, as every record read from
    a buffer and every record [createFromPlaintext] returns. *)
Definition typedRecord (r : DtlsRecord.t) : Prop :=
  exists type, DtlsRecord.protocolType r = JS.Num type /\ 0 <= type < 256.

End Wire.

(* ------------------------------------------------------------------ *)
(** ** Sample values *)

Module Sample.

(** An application-data record: epoch 1, sequence number 5, three
    octets. *)
Definition record : DtlsRecord.t :=
  {| DtlsRecord.protocolType := JS.Num enums.ProtocolType_DtlsApplicationDataProtocol;
     DtlsRecord.dtlsVersion := enums.DtlsVersion_DTLS_1_0;
     DtlsRecord.epoch := 1;
     DtlsRecord.sequenceNumber := 5;
     DtlsRecord.fragment := [104; 105; 33] |}.

(** The same with an empty fragment. *)
Definition emptyRecord : DtlsRecord.t :=
  {| DtlsRecord.protocolType := JS.Num enums.ProtocolType_DtlsApplicationDataProtocol;
     DtlsRecord.dtlsVersion := enums.DtlsVersion_DTLS_1_0;
     DtlsRecord.epoch := 1;
     DtlsRecord.sequenceNumber := 5;
     DtlsRecord.fragment := [] |}.

Definition key : Buffer := repeat 5 16.
Definition macSecret : Buffer := repeat 9 20.

End Sample.

(* ------------------------------------------------------------------ *)
(** ** The first flight *)

Section FirstFlight.

Context {C : Crypto}.

(** The time field of the client random: the seconds of [now] moved by
    the offset drawn with [randomBytes(3)]. *)
Definition utcWithRandomOffset (now : Z) (draw : nat) : Z :=
  let randomOffset := randomBytes draw 3 in
  let octet i := match Buf.get randomOffset i with Some v => v | None => 0 end in
  now / 1000
  + (Z.lor (Z.lor (Z.shiftl (octet 0) 16) (Z.shiftl (octet 1) 8)) (octet 2) - 2 ^ 23).

(** The client random: four octets of time, then the 28 octets drawn
    first. *)
Definition clientRandomAt (now : Z) (draw : nat) : Buffer :=
  Buf.beBytes 4 (utcWithRandomOffset now (S draw)) ++ randomBytes draw 28.

(** The first ClientHello of a session, as a handshake message. *)
Definition firstClientHello (now : Z) (s : DtlsSession.t) : Buffer :=
  handshakeWire enums.MessageType_ClientHello
                (clientHelloLayout DtlsSession.DTLS_VERSION
                                   (clientRandomAt now (DtlsSession.draws s))
                                   DtlsSession.supportedCipherSuites
                                   DtlsSession.supportedCompressionMethods)
                0.

End FirstFlight.

(* ------------------------------------------------------------------ *)
(** ** Incoming datagrams *)

Section Incoming.

Context {C : Crypto}.

(** The [switch] on the content type in the loop of [onSocketMessage]. *)
Definition dispatchRecord (dtlsRecord : DtlsRecord.t) (s : DtlsSession.t)
  : JS.result (DtlsSession.Flow * DtlsSession.t) :=
  match DtlsRecord.protocolType dtlsRecord with
  | JS.Num 0x16 => DtlsSession.onHandshakeRecord dtlsRecord s
  | JS.Num 0x14 => DtlsSession.onChangeCipherSpecRecord dtlsRecord s
  | JS.Num 0x15 => DtlsSession.onAlertRecord dtlsRecord s
  | JS.Num 0x17 => DtlsSession.onApplicationDataRecord dtlsRecord s
  | _ => JS.Ok (DtlsSession.Continue, s)
  end.

(** The read state is an AES state and the server write key has the
    length of its cipher. *)
Definition readReady (s : DtlsSession.t) : Prop :=
  let bulk := DtlsSession.bulkEncryptionAlgorithm (DtlsSession.currentReadState s) in
  cryptoLoads = true
  /\ enums.isBulkNULL bulk = false
  /\ DtlsSession.macAlgorithm (DtlsSession.currentReadState s) = enums.Mac_SHA1
  /\ Buf.len (DtlsSession.serverWriteKey (DtlsSession.securityParameters s))
     = enums.getBulkAlgorithmKeySize bulk.

(** A record as the peer encrypts it for the session: under the read
    state and the server write keys, with an IV of the peer's choice
    (its [draw]-th random block). *)
Definition incomingEncoding (r : DtlsRecord.t) (draw : nat) (s : DtlsSession.t) : Buffer :=
  aesEncoding r draw
              (DtlsSession.bulkEncryptionAlgorithm (DtlsSession.currentReadState s))
              (DtlsSession.serverWriteKey (DtlsSession.securityParameters s))
              (DtlsSession.serverWriteMacSecret (DtlsSession.securityParameters s)).

(** An application-data record with the given counters and payload. *)
Definition applicationDataRecord (epoch sequenceNumber : Z) (data : Buffer) : DtlsRecord.t :=
  {| DtlsRecord.protocolType := JS.Num enums.ProtocolType_DtlsApplicationDataProtocol;
     DtlsRecord.dtlsVersion := enums.DtlsVersion_DTLS_1_0;
     DtlsRecord.epoch := epoch;
     DtlsRecord.sequenceNumber := sequenceNumber;
     DtlsRecord.fragment := data |}.

(** Application-data records, each with its epoch, sequence number and
    IV draw, encrypted for the session and laid end to end. *)
Fixpoint applicationDatagram (rs : list (Z * Z * nat * Buffer)) (s : DtlsSession.t)
  : Buffer :=
  match rs with
  | [] => []
  | (epoch, sequenceNumber, draw, data) :: rest =>
      incomingEncoding (applicationDataRecord epoch sequenceNumber data) draw s
      ++ applicationDatagram rest s
  end.

(** The counters and the payload of such a record fit the record
    header and the fragment bound. *)
Definition incomingBounds (x : Z * Z * nat * Buffer) : Prop :=
  let '(epoch, sequenceNumber, _, data) := x in
  0 <= epoch < 2 ^ 16 /\ 0 <= sequenceNumber < 2 ^ 48 /\ Buf.len data <= 2 ^ 14.

(** The session after the payloads were handed to the message listener,
    first to last. *)
Definition delivered (payloads : list Buffer) (s : DtlsSession.t) : DtlsSession.t :=
  fold_left (fun s data => DtlsSession.emit (DtlsSession.MessageDelivered data) s) payloads s.

End Incoming.

(* ------------------------------------------------------------------ *)
(** ** Records of the other content types *)

Section ControlRecords.

Context {C : Crypto}.

(** An alert record: level and description. *)
Definition alertRecord (epoch sequenceNumber level description : Z) : DtlsRecord.t :=
  {| DtlsRecord.protocolType := JS.Num enums.ProtocolType_DtlsAlertProtocol;
     DtlsRecord.dtlsVersion := enums.DtlsVersion_DTLS_1_0;
     DtlsRecord.epoch := epoch;
     DtlsRecord.sequenceNumber := sequenceNumber;
     DtlsRecord.fragment := [level; description] |}.

(** A ChangeCipherSpec record with the given type octet. *)
Definition changeCipherSpecRecord (epoch sequenceNumber type : Z) : DtlsRecord.t :=
  {| DtlsRecord.protocolType := JS.Num enums.ProtocolType_DtlsChangeCipherSpecProtocol;
     DtlsRecord.dtlsVersion := enums.DtlsVersion_DTLS_1_0;
     DtlsRecord.epoch := epoch;
     DtlsRecord.sequenceNumber := sequenceNumber;
     DtlsRecord.fragment := [type] |}.

(** A handshake record holding one whole handshake message. *)
Definition handshakeRecord (epoch sequenceNumber : Z) (m : DtlsHandshakeMessage.t)
  : DtlsRecord.t :=
  {| DtlsRecord.protocolType := JS.Num enums.ProtocolType_DtlsHandshakeProtocol;
     DtlsRecord.dtlsVersion := enums.DtlsVersion_DTLS_1_0;
     DtlsRecord.epoch := epoch;
     DtlsRecord.sequenceNumber := sequenceNumber;
     DtlsRecord.fragment := handshakeLayout m |}.

(** A handshake message of the given type sent in one fragment. *)
Definition wholeMessage (type messageSequence : Z) (body : Buffer) : DtlsHandshakeMessage.t :=
  {| DtlsHandshakeMessage.messageType := JS.Num type;
     DtlsHandshakeMessage.length := Buf.len body;
     DtlsHandshakeMessage.messageSequence := messageSequence;
     DtlsHandshakeMessage.fragmentOffset := 0;
     DtlsHandshakeMessage.fragmentLength := Buf.len body;
     DtlsHandshakeMessage.message := body |}.

(** The session after the read state was replaced by the negotiated
    one. *)
Definition afterChangeCipherSpec (s : DtlsSession.t) : DtlsSession.t :=
  DtlsSession.set_currentReadState
    (DtlsSession.negotiatedState (DtlsSession.securityParameters s)) s.

(** The security parameters after a ServerHello: the server random is
    stored; with a cipher suite of the client's list the bulk and MAC
    algorithms are; with NULL compression on top of that the
    compression method is. *)
Definition afterServerHelloParameters (random : Buffer) (cipherSuite compressionMethod : Z)
           (p : DtlsSession.SecurityParameters) : DtlsSession.SecurityParameters :=
  {| DtlsSession.clientRandom := DtlsSession.clientRandom p;
     DtlsSession.serverRandom := random;
     DtlsSession.masterSecret := DtlsSession.masterSecret p;
     DtlsSession.clientWriteMacSecret := DtlsSession.clientWriteMacSecret p;
     DtlsSession.serverWriteMacSecret := DtlsSession.serverWriteMacSecret p;
     DtlsSession.clientWriteKey := DtlsSession.clientWriteKey p;
     DtlsSession.serverWriteKey := DtlsSession.serverWriteKey p;
     DtlsSession.sp_bulkEncryptionAlgorithm :=
       if cipherSuite =? enums.CipherSuite_TLS_PSK_WITH_AES_128_CBC_SHA
       then enums.AES_128_CBC
       else if cipherSuite =? enums.CipherSuite_TLS_PSK_WITH_AES_256_CBC_SHA
            then enums.AES_256_CBC
            else DtlsSession.sp_bulkEncryptionAlgorithm p;
     DtlsSession.sp_macAlgorithm :=
       if (cipherSuite =? enums.CipherSuite_TLS_PSK_WITH_AES_128_CBC_SHA)
          || (cipherSuite =? enums.CipherSuite_TLS_PSK_WITH_AES_256_CBC_SHA)
       then enums.Mac_SHA1
       else DtlsSession.sp_macAlgorithm p;
     DtlsSession.sp_compressionMethod :=
       if ((cipherSuite =? enums.CipherSuite_TLS_PSK_WITH_AES_128_CBC_SHA)
           || (cipherSuite =? enums.CipherSuite_TLS_PSK_WITH_AES_256_CBC_SHA))
          && (compressionMethod =? enums.CompressionMethod_NULL)
       then enums.CompressionMethod_NULL
       else DtlsSession.sp_compressionMethod p |}.

End ControlRecords.

(* ================================================================== *)
(** * Properties *)

(** Lengths of the list expressions the buffer operations produce. *)
Create Rewrite HintDb len.
#[local] Hint Rewrite @length_app @length_firstn @length_skipn @repeat_length
  @length_map @length_seq @length_rev @length_cons @length_nil : len.

Ltac list_len := autorewrite with len in *.

(** ** The toy primitives satisfy the laws *)

Lemma ToyCrypto_laws : CryptoLaws ToyCrypto.crypto.
Proof.
  constructor; simpl; intros.
  - unfold Buf.len, ToyCrypto.hmac. rewrite length_map, length_seq. destruct a; reflexivity.
  - unfold Buf.len, ToyCrypto.hash. rewrite length_map, length_seq. destruct a; reflexivity.
  - apply length_rev.
  - apply length_rev.
  - apply rev_involutive.
  - unfold Buf.len, ToyCrypto.random. rewrite length_map, length_seq. lia.
Defined.

(** ** Buffers: writing fields one after the other, and reading them back *)

Section BufferFacts.

Lemma len_app (a b : Buffer) : Buf.len (a ++ b) = Buf.len a + Buf.len b.
Proof. unfold Buf.len. rewrite length_app. lia. Qed.

Lemma len_nonneg (a : Buffer) : 0 <= Buf.len a.
Proof. unfold Buf.len. lia. Qed.

Lemma len_repeat (x : Z) (n : nat) : Buf.len (repeat x n) = Z.of_nat n.
Proof. unfold Buf.len. rewrite repeat_length. reflexivity. Qed.


Lemma beBytes_length (n : nat) (v : Z) : length (Buf.beBytes n v) = n.
Proof.
  revert v. induction n as [|n IH]; intros v; simpl; [reflexivity|].
  rewrite length_app, IH. simpl. lia.
Qed.

Lemma len_beBytes (n : nat) (v : Z) : Buf.len (Buf.beBytes n v) = Z.of_nat n.
Proof. unfold Buf.len. rewrite beBytes_length. reflexivity. Qed.

Lemma beValue_app (l : list Z) (x : Z) :
  Buf.beValue (l ++ [x]) = Buf.beValue l * 256 + x.
Proof. unfold Buf.beValue. rewrite fold_left_app. reflexivity. Qed.

(** Reading back what [beBytes] wrote. *)
Lemma beValue_beBytes (n : nat) (v : Z) :
  0 <= v < 256 ^ Z.of_nat n -> Buf.beValue (Buf.beBytes n v) = v.
Proof.
  revert v. induction n as [|n IH]; intros v Hv.
  - simpl in *. unfold Buf.beValue. simpl. lia.
  - simpl Buf.beBytes. rewrite beValue_app.
    rewrite Nat2Z.inj_succ, Z.pow_succ_r in Hv by lia.
    rewrite IH.
    + pose proof (Z.div_mod v 256 ltac:(lia)). lia.
    + split.
      * apply Z.div_pos; lia.
      * apply Z.div_lt_upper_bound; lia.
Qed.

Lemma alloc_filled (n : Z) : Buf.alloc n = filled [] (Z.to_nat n).
Proof. reflexivity. Qed.

Lemma filled_done (p : Buffer) : filled p 0 = p.
Proof. unfold filled. simpl. apply app_nil_r. Qed.

Lemma skipn_repeat {A : Type} (x : A) (n k : nat) :
  skipn n (repeat x k) = repeat x (k - n).
Proof.
  revert n. induction k as [|k IH]; intros [|n]; simpl; auto.
Qed.

Lemma firstn_repeat {A : Type} (x : A) (n k : nat) :
  firstn n (repeat x k) = repeat x (Nat.min n k).
Proof.
  revert n. induction k as [|k IH]; intros [|n]; simpl; auto.
  f_equal. apply IH.
Qed.

Lemma write_at_filled (p : Buffer) (k : nat) (bytes : list Z) (off : nat) :
  off = length p -> (length bytes <= k)%nat ->
  Buf.write_at (filled p k) off bytes = filled (p ++ bytes) (k - length bytes).
Proof.
  intros -> Hk. unfold Buf.write_at, filled.
  rewrite length_app, repeat_length.
  replace (length p + k - length p)%nat with k by lia.
  rewrite (firstn_all2 (n := k) bytes) by lia.
  rewrite firstn_app, firstn_all, Nat.sub_diag. simpl firstn. rewrite app_nil_r.
  rewrite skipn_app. rewrite (skipn_all2 (n := (length p + length bytes)%nat) p) by lia.
  replace (length p + length bytes - length p)%nat with (length bytes) by lia.
  rewrite skipn_repeat. simpl. rewrite <- app_assoc. reflexivity.
Qed.

Lemma store_filled (p : Buffer) (k : nat) (v off : Z) :
  off = Buf.len p -> (1 <= k)%nat ->
  Buf.store (filled p k) off v = filled (p ++ [v mod 256]) (k - 1).
Proof.
  intros -> Hk. unfold Buf.store.
  assert (Hl : Buf.len (filled p k) = Buf.len p + Z.of_nat k).
  { unfold filled. rewrite len_app, len_repeat. reflexivity. }
  pose proof (len_nonneg p).
  destruct (Buf.len p <? 0) eqn:E1; [apply Z.ltb_lt in E1; lia|].
  destruct (Buf.len (filled p k) <=? Buf.len p) eqn:E2; [apply Z.leb_le in E2; lia|].
  simpl orb. cbv iota. unfold Buf.len at 1. rewrite Nat2Z.id.
  apply write_at_filled; auto.
Qed.

Lemma writeUIntBE_filled (p : Buffer) (k : nat) (v off : Z) (n : nat) :
  off = Buf.len p -> (n <= k)%nat -> 0 <= v < 256 ^ Z.of_nat n ->
  Buf.writeUIntBE (filled p k) v off n = JS.Ok (filled (p ++ Buf.beBytes n v) (k - n)).
Proof.
  intros -> Hk Hv. unfold Buf.writeUIntBE.
  assert (Hl : Buf.len (filled p k) = Buf.len p + Z.of_nat k).
  { unfold filled. rewrite len_app, len_repeat. reflexivity. }
  pose proof (len_nonneg p).
  destruct (v <? 0) eqn:E1; [apply Z.ltb_lt in E1; lia|].
  destruct (256 ^ Z.of_nat n <=? v) eqn:E2; [apply Z.leb_le in E2; lia|].
  destruct (Buf.len p <? 0) eqn:E3; [apply Z.ltb_lt in E3; lia|].
  destruct (Buf.len (filled p k) <? Buf.len p + Z.of_nat n) eqn:E4;
    [apply Z.ltb_lt in E4; lia|].
  simpl orb. cbv iota. f_equal. unfold Buf.len at 1. rewrite Nat2Z.id.
  rewrite write_at_filled; auto; rewrite beBytes_length; auto.
Qed.

Lemma copy_filled (src p : Buffer) (k : nat) (off n : Z) :
  off = Buf.len p -> n = Buf.len src -> (length src <= k)%nat ->
  Buf.copy src (filled p k) off 0 n = filled (p ++ src) (k - length src).
Proof.
  intros -> -> Hk. unfold Buf.copy. rewrite Z.sub_0_r. simpl skipn.
  unfold Buf.len. rewrite !Nat2Z.id. rewrite firstn_all.
  apply write_at_filled; auto.
Qed.

Lemma fill_filled (p : Buffer) (k : nat) (v start end_ : Z) :
  start = Buf.len p -> start <= end_ -> end_ - start <= Z.of_nat k ->
  Buf.fill (filled p k) v start end_
  = filled (p ++ repeat (v mod 256) (Z.to_nat (end_ - start))) (k - Z.to_nat (end_ - start)).
Proof.
  intros -> H1 H2. unfold Buf.fill. unfold Buf.len at 1. rewrite Nat2Z.id.
  rewrite write_at_filled; rewrite ?repeat_length; auto. lia.
Qed.

(** Reading a field that sits after the prefix [p]. *)
Lemma index_after (p : Buffer) (x : Z) (rest : Buffer) (off : Z) :
  off = Buf.len p -> Buf.index (p ++ x :: rest) off = JS.Num x.
Proof.
  intros ->. unfold Buf.index, Buf.get. pose proof (len_nonneg p).
  destruct (Buf.len p <? 0) eqn:E; [apply Z.ltb_lt in E; lia|].
  unfold Buf.len. rewrite Nat2Z.id. rewrite nth_error_app2 by lia.
  rewrite Nat.sub_diag. reflexivity.
Qed.

Lemma get_after (p : Buffer) (x : Z) (rest : Buffer) (off : Z) :
  off = Buf.len p -> Buf.get (p ++ x :: rest) off = Some x.
Proof.
  intros ->. unfold Buf.get. pose proof (len_nonneg p).
  destruct (Buf.len p <? 0) eqn:E; [apply Z.ltb_lt in E; lia|].
  unfold Buf.len. rewrite Nat2Z.id. rewrite nth_error_app2 by lia.
  rewrite Nat.sub_diag. reflexivity.
Qed.

Lemma readUIntBE_after (p : Buffer) (n : nat) (v : Z) (rest : Buffer) (off : Z) :
  off = Buf.len p -> 0 <= v < 256 ^ Z.of_nat n ->
  Buf.readUIntBE (p ++ Buf.beBytes n v ++ rest) off n = JS.Ok v.
Proof.
  intros -> Hv. unfold Buf.readUIntBE. pose proof (len_nonneg p). pose proof (len_nonneg rest).
  rewrite !len_app, len_beBytes.
  destruct (Buf.len p <? 0) eqn:E; [apply Z.ltb_lt in E; lia|].
  destruct (Buf.len p + (Z.of_nat n + Buf.len rest) <? Buf.len p + Z.of_nat n) eqn:E2;
    [apply Z.ltb_lt in E2; lia|].
  simpl orb. cbv iota. f_equal.
  unfold Buf.len. rewrite Nat2Z.id. rewrite skipn_app, skipn_all, Nat.sub_diag. simpl.
  rewrite firstn_app, beBytes_length, Nat.sub_diag. simpl. rewrite app_nil_r.
  rewrite firstn_all2 by (rewrite beBytes_length; lia).
  apply beValue_beBytes; auto.
Qed.

(** [Buffer.alloc(n)] followed by a copy of [n] octets from position
    [off] yields those octets. *)
Lemma copy_out (p x rest : Buffer) (off n : Z) :
  off = Buf.len p -> n = Buf.len x ->
  Buf.copy (p ++ x ++ rest) (Buf.alloc n) 0 off (off + n) = x.
Proof.
  intros -> ->. unfold Buf.copy. replace (Buf.len p + Buf.len x - Buf.len p) with (Buf.len x) by lia.
  unfold Buf.len. rewrite !Nat2Z.id. rewrite skipn_app, skipn_all, Nat.sub_diag. simpl.
  rewrite firstn_app, Nat.sub_diag, firstn_all. simpl. rewrite app_nil_r.
  rewrite alloc_filled, Nat2Z.id. change 0%nat with (length (@nil Z)).
  rewrite write_at_filled by (simpl; auto). simpl. rewrite Nat.sub_diag. apply filled_done.
Qed.

Lemma copy_whole (x : Buffer) :
  Buf.copy x (Buf.alloc (Buf.len x)) 0 0 (Buf.len x) = x.
Proof.
  pose proof (@copy_out [] x [] 0 (Buf.len x) eq_refl eq_refl) as H.
  simpl in H. rewrite app_nil_r in H. exact H.
Qed.

End BufferFacts.

(** Side conditions on offsets and sizes. *)
Ltac pow_const :=
  repeat match goal with
         | |- context [256 ^ Z.of_nat ?n] =>
             let v := eval vm_compute in (256 ^ Z.of_nat n) in
             change (256 ^ Z.of_nat n) with v
         end.

Ltac len_side :=
  rewrite ?len_app, ?len_beBytes, ?len_repeat; unfold Buf.len in *; cbn [length];
  pow_const; lia.

(** One write into a buffer under construction. *)
Ltac fill_step :=
  first [ rewrite writeUIntBE_filled; [cbn [JS.bind]|len_side..]
        | rewrite store_filled; [|len_side..]
        | rewrite copy_filled; [|len_side..]
        | rewrite fill_filled; [|len_side..] ].

(** ** CryptoUtils.PRF: how the secret is split *)

Section PRF_split.

Context {C : Crypto}.

Lemma ToInteger_firstHalf (secret : Buffer) :
  JS.ToInteger (CryptoUtils.secretEachHalfLength secret)
  = Z.quot (Buf.len secret + 2 * (Buf.len secret mod 2)) 2.
Proof.
  unfold JS.ToInteger, CryptoUtils.secretEachHalfLength.
  cbn -[Z.mul Z.add Z.sub Z.modulo Z.quot Z.opp]. f_equal. lia.
Qed.

Lemma ToInteger_secondHalf (secret : Buffer) :
  JS.ToInteger (CryptoUtils.secretSecondHalfStart secret)
  = Z.quot (Buf.len secret - 2 * (Buf.len secret mod 2)) 2.
Proof.
  unfold JS.ToInteger, CryptoUtils.secretSecondHalfStart.
  cbn -[Z.mul Z.add Z.sub Z.modulo Z.quot Z.opp]. f_equal. lia.
Qed.

Lemma slice_prefix (b : Buffer) (n : Z) :
  0 <= n -> Buf.slice b 0 n = firstn (Z.to_nat n) b.
Proof.
  intros Hn. unfold Buf.slice, Buf.adjust, Buf.len.
  replace (0 <? 0) with false by reflexivity.
  destruct (n <? 0) eqn:E; [apply Z.ltb_lt in E; lia|].
  rewrite (Z.min_l 0) by lia. rewrite Z.sub_0_r. simpl skipn.
  destruct (Z.min_spec n (Z.of_nat (length b))) as [[H1 H2]|[H1 H2]]; rewrite H2; auto.
  rewrite Nat2Z.id. rewrite firstn_all.
  symmetry. apply firstn_all2. lia.
Qed.

Lemma slice_suffix (b : Buffer) (n : Z) :
  0 <= n <= Buf.len b -> Buf.slice b n (Buf.len b) = skipn (Z.to_nat n) b.
Proof.
  intros Hn. unfold Buf.slice, Buf.adjust, Buf.len in *.
  destruct (n <? 0) eqn:E; [apply Z.ltb_lt in E; lia|].
  destruct (Z.of_nat (length b) <? 0) eqn:E2; [apply Z.ltb_lt in E2; lia|].
  rewrite Z.min_id, (Z.min_l n) by lia.
  apply firstn_all2. rewrite length_skipn. lia.
Qed.

(** The first half is the first [ceil(n / 2)] octets, as the comment in
    [PRF] says. *)
Lemma secretFirstHalf_rfc (secret : Buffer) :
  CryptoUtils.secretFirstHalf secret = CryptoUtils.rfcFirstHalf secret.
Proof.
  unfold CryptoUtils.secretFirstHalf, CryptoUtils.rfcFirstHalf, CryptoUtils.halfLength.
  rewrite ToInteger_firstHalf.
  assert (Hm := Z.mod_pos_bound (Buf.len secret) 2 ltac:(lia)).
  assert (Hl : 0 <= Buf.len secret) by (unfold Buf.len; lia).
  rewrite slice_prefix by (apply Z.quot_pos; lia).
  f_equal. rewrite Z.quot_div_nonneg by lia.
  rewrite Nat.div2_div. unfold Buf.len in *.
  apply Nat2Z.inj. rewrite Z2Nat.id by (apply Z.div_pos; lia).
  rewrite Nat2Z.inj_div. rewrite Nat2Z.inj_succ. change (Z.of_nat 2) with 2.
  set (n := Z.of_nat (length secret)) in *.
  assert (Hd : n = 2 * (n / 2) + n mod 2) by (apply Z.div_mod; lia).
  assert (A : (n + 2 * (n mod 2)) / 2 = n / 2 + n mod 2).
  { symmetry. apply Z.div_unique with (r := n mod 2); lia. }
  assert (B : Z.succ n / 2 = n / 2 + n mod 2).
  { symmetry. apply Z.div_unique with (r := 1 - n mod 2); lia. }
  lia.
Qed.

(** For a secret of even length the second half is the last [n / 2]
    octets. *)
Lemma secretSecondHalf_even (secret : Buffer) :
  Buf.len secret mod 2 = 0 ->
  CryptoUtils.secretSecondHalf secret = CryptoUtils.rfcSecondHalf secret.
Proof.
  intros E.
  unfold CryptoUtils.secretSecondHalf, CryptoUtils.rfcSecondHalf, CryptoUtils.halfLength.
  rewrite ToInteger_secondHalf. rewrite E.
  assert (Hl : 0 <= Buf.len secret) by (unfold Buf.len; lia).
  replace (Buf.len secret - 2 * 0) with (Buf.len secret) by lia.
  rewrite Z.quot_div_nonneg by lia.
  assert (Hd := Z.div_mod (Buf.len secret) 2 ltac:(lia)).
  rewrite slice_suffix by lia.
  f_equal. rewrite Nat.div2_div. unfold Buf.len in *.
  apply Nat2Z.inj.
  rewrite Z2Nat.id by (apply Z.div_pos; lia).
  set (n := Z.of_nat (length secret)) in *.
  assert (Hs : Z.of_nat (S (length secret) / 2) = n / 2).
  { rewrite Nat2Z.inj_div, Nat2Z.inj_succ. change (Z.of_nat 2) with 2. fold n.
    symmetry. apply Z.div_unique with (r := 1); lia. }
  rewrite Nat2Z.inj_sub.
  - rewrite Hs. fold n. lia.
  - apply Nat2Z.inj_le. rewrite Hs. fold n. lia.
Qed.

(** For a secret of odd length [n >= 3] the second half starts one octet
    before the middle one. *)
Lemma secretSecondHalf_odd (secret : Buffer) :
  Buf.len secret mod 2 = 1 -> 3 <= Buf.len secret ->
  CryptoUtils.secretSecondHalf secret = skipn (length secret / 2 - 1)%nat secret.
Proof.
  intros E H3.
  unfold CryptoUtils.secretSecondHalf.
  rewrite ToInteger_secondHalf. rewrite E.
  rewrite Z.quot_div_nonneg by lia.
  assert (Hd := Z.div_mod (Buf.len secret) 2 ltac:(lia)).
  assert (Hq : (Buf.len secret - 2 * 1) / 2 = Buf.len secret / 2 - 1).
  { symmetry. apply Z.div_unique with (r := 1); lia. }
  rewrite Hq. rewrite slice_suffix by lia.
  f_equal. unfold Buf.len. rewrite Z2Nat.inj_sub by lia.
  change 2 with (Z.of_nat 2). rewrite <- Nat2Z.inj_div, Nat2Z.id. reflexivity.
Qed.

(** [P_hash] leaves its loop with enough octets and returns exactly
    [outputLength] of them. *)
Lemma P_hash_loop_length {L : CryptoLaws C} (fuel : nat) secret seed n alg result data :
  0 <= n -> n <= Buf.len result + Z.of_nat fuel ->
  n <= Buf.len (CryptoUtils.P_hash_loop fuel secret seed n alg result data).
Proof.
  revert result data. induction fuel as [|fuel IH]; intros result data Hn Hf; simpl.
  - lia.
  - destruct (Buf.len result <? n) eqn:E.
    + apply IH; auto. unfold Buf.len in *. rewrite length_app.
      pose proof (createHmac_length alg secret (createHmac alg secret data ++ seed)) as Hh.
      unfold Buf.len in Hh. destruct alg; simpl in Hh; lia.
    + apply Z.ltb_ge in E. lia.
Qed.

Lemma P_hash_length {L : CryptoLaws C} secret seed n alg :
  0 <= n ->
  exists out, CryptoUtils.P_hash secret seed n alg = JS.Ok out /\ Buf.len out = n.
Proof.
  intros Hn. unfold CryptoUtils.P_hash.
  set (r := CryptoUtils.P_hash_loop _ _ _ _ _ _ _).
  assert (Hr : n <= Buf.len r).
  { apply P_hash_loop_length; auto. unfold Buf.len. simpl. lia. }
  destruct (n <? Buf.len r) eqn:E.
  - destruct (Z.ltb_spec n 0) as [Hneg|_]; [lia|].
    eexists. split; [reflexivity|].
    unfold Buf.copy, Buf.write_at, Buf.alloc, Buf.len in *.
    simpl. rewrite Z.sub_0_r. rewrite repeat_length.
    rewrite Nat.sub_0_r. rewrite firstn_firstn, Nat.min_id.
    list_len. lia.
  - eexists. split; [reflexivity|]. apply Z.ltb_ge in E. lia.
Qed.

(** For a negative [outputLength], [P_hash] raises [RangeError]. *)
Lemma P_hash_negative secret seed n alg :
  n < 0 -> CryptoUtils.P_hash secret seed n alg = JS.Throw JS.RangeError.
Proof.
  intros Hn. unfold CryptoUtils.P_hash.
  replace (Z.to_nat n) with 0%nat by lia. cbn [CryptoUtils.P_hash_loop].
  change (Buf.len (Buf.alloc 0)) with 0.
  destruct (Z.ltb_spec 0 n); [lia|].
  change (Buf.len (Buf.alloc 0)) with 0.
  destruct (Z.ltb_spec n 0); [|lia]. reflexivity.
Qed.

(** C6 (the code departs from the claim): for every secret of odd length
    [n >= 3], [PRF] keys P_SHA1 with the octets from position
    [(n - 1) / 2 - 1] on, which are [ceil(n / 2) + 1] octets and start one
    octet before the middle one, while P_MD5 is keyed with the first
    [ceil(n / 2)] octets. *)
Theorem PRF_odd_secret_second_half
        (secret : Buffer) (label : string) (seed : Buffer) (n : Z) :
  cryptoLoads = true ->
  Buf.len secret mod 2 = 1 ->
  3 <= Buf.len secret ->
  let S2 := skipn (length secret / 2 - 1)%nat secret in
  CryptoUtils.PRF secret label seed n
  = (let* md5Result := CryptoUtils.P_hash (CryptoUtils.rfcFirstHalf secret)
                                          (Buf.ofString label ++ seed) n md5 in
     let* sha1Result := CryptoUtils.P_hash S2 (Buf.ofString label ++ seed) n sha1 in
     JS.Ok (Some (CryptoUtils.xorBuffers md5Result sha1Result)))
  /\ length S2 = S (CryptoUtils.halfLength secret)
  /\ S2 <> CryptoUtils.rfcSecondHalf secret.
Proof.
  intros Hc E H3 S2.
  assert (Hlen : length S2 = S (CryptoUtils.halfLength secret)).
  { unfold S2, CryptoUtils.halfLength. rewrite length_skipn, Nat.div2_div.
    unfold Buf.len in *.
    assert (Hd := Z.div_mod (Z.of_nat (length secret)) 2 ltac:(lia)).
    assert (A : Z.of_nat (length secret / 2) = Z.of_nat (length secret) / 2).
    { rewrite Nat2Z.inj_div. reflexivity. }
    assert (B : Z.of_nat (S (length secret) / 2) = Z.of_nat (length secret) / 2 + 1).
    { rewrite Nat2Z.inj_div, Nat2Z.inj_succ. change (Z.of_nat 2) with 2.
      symmetry. apply Z.div_unique with (r := 0); lia. }
    lia. }
  split; [|split]; auto.
  - unfold CryptoUtils.PRF, CryptoUtils.verifyCrypto. rewrite Hc. simpl negb. cbv iota.
    rewrite secretFirstHalf_rfc, secretSecondHalf_odd by assumption. reflexivity.
  - intros Heq. rewrite Heq in Hlen.
    unfold CryptoUtils.rfcSecondHalf in Hlen. rewrite length_skipn in Hlen.
    unfold CryptoUtils.halfLength in *. rewrite Nat.div2_div in *.
    assert (S (length secret) / 2 <= length secret)%nat.
    { apply Nat.Div0.div_le_upper_bound. unfold Buf.len in H3. lia. }
    lia.
Qed.

End PRF_split.

Lemma PRF_odd_secret_second_half_witness :
  CryptoUtils.PRF (C := ToyCrypto.crypto) [1; 2; 3] "master secret" [7; 7] 48
  = (let* md5Result := CryptoUtils.P_hash (C := ToyCrypto.crypto)
                         [1; 2] (Buf.ofString "master secret" ++ [7; 7]) 48 md5 in
     let* sha1Result := CryptoUtils.P_hash (C := ToyCrypto.crypto)
                          [1; 2; 3] (Buf.ofString "master secret" ++ [7; 7]) 48 sha1 in
     JS.Ok (Some (CryptoUtils.xorBuffers md5Result sha1Result)))
  /\ length [1; 2; 3] = 3%nat
  /\ [1; 2; 3] <> [2; 3].
Proof.
  exact (@PRF_odd_secret_second_half ToyCrypto.crypto [1; 2; 3] "master secret" [7; 7] 48
           eq_refl eq_refl ltac:(vm_compute; discriminate)).
Defined.


(** ** DtlsRecord: what the encoder writes *)

Section RecordEncoding.

Context {C : Crypto}.

Lemma ceil_div_bounds (n d : Z) :
  0 < d -> n <= JS.ceil_div n d * d < n + d.
Proof.
  intros Hd. unfold JS.ceil_div.
  pose proof (Z.div_mod (- n) d ltac:(lia)).
  pose proof (Z.mod_pos_bound (- n) d Hd). nia.
Qed.

Lemma paddingLengthOf_range (fragment macHash : Buffer) (block : Z) :
  0 < block -> 0 <= paddingLengthOf fragment macHash block < block.
Proof.
  intros Hb. unfold paddingLengthOf.
  pose proof (ceil_div_bounds (Buf.len fragment + Buf.len macHash + 1) Hb). lia.
Qed.

Lemma paddedLength_multiple (fragment macHash : Buffer) (block : Z) :
  0 < block ->
  (Buf.len fragment + Buf.len macHash + 1 + paddingLengthOf fragment macHash block)
    mod block = 0.
Proof.
  intros Hb. unfold paddingLengthOf.
  replace (_ + _) with (JS.ceil_div (Buf.len fragment + Buf.len macHash + 1) block * block)
    by lia.
  apply Z.mod_mul. lia.
Qed.

Lemma buildBufferForMacCalculation_eq epoch sequenceNumber protocolType dtlsVersion fragment :
  0 <= epoch < 2 ^ 16 -> 0 <= sequenceNumber < 2 ^ 48 -> 0 <= dtlsVersion < 2 ^ 16 ->
  Buf.len fragment < 2 ^ 16 ->
  DtlsRecord.buildBufferForMacCalculation epoch sequenceNumber protocolType dtlsVersion fragment
  = JS.Ok (macInput epoch sequenceNumber protocolType dtlsVersion fragment).
Proof.
  intros He Hs Hv Hf. unfold DtlsRecord.buildBufferForMacCalculation, macInput.
  pose proof (len_nonneg fragment) as Hn. cbv zeta.
  rewrite alloc_filled.
  replace (Z.to_nat (8 + 5 + Buf.len fragment)) with (13 + length fragment)%nat
    by (unfold Buf.len; lia).
  unfold Buf.writeUInt16BE.
  fill_step. fill_step. fill_step. fill_step. fill_step. fill_step.
  f_equal.
  replace (13 + length fragment - 2 - 6 - 1 - 2 - 2 - length fragment)%nat with 0%nat by lia.
  rewrite filled_done. cbn [app]. rewrite <- !app_assoc. reflexivity.
Qed.

Lemma buildBufferForEncryption_eq (fragment macHash : Buffer) (block : Z) :
  0 < block ->
  let pad := paddingLengthOf fragment macHash block in
  DtlsRecord.buildBufferForEncryption fragment macHash block
  = fragment ++ macHash ++ repeat (pad mod 256) (Z.to_nat pad) ++ [pad mod 256].
Proof.
  intros Hb pad. unfold DtlsRecord.buildBufferForEncryption. cbv zeta.
  fold (paddingLengthOf fragment macHash block). fold pad.
  pose proof (paddingLengthOf_range fragment macHash Hb) as Hp. fold pad in Hp.
  pose proof (len_nonneg fragment). pose proof (len_nonneg macHash).
  assert (Hlen : JS.ceil_div (Buf.len fragment + Buf.len macHash + 1) block * block
                 = Buf.len fragment + Buf.len macHash + 1 + pad).
  { unfold pad, paddingLengthOf. lia. }
  rewrite Hlen. rewrite alloc_filled.
  replace (Z.to_nat (Buf.len fragment + Buf.len macHash + 1 + pad))
    with (length fragment + length macHash + 1 + Z.to_nat pad)%nat
    by (unfold Buf.len; lia).
  fill_step. fill_step. fill_step.
  replace (0 + Buf.len fragment + Buf.len macHash + pad - (0 + Buf.len fragment + Buf.len macHash))
    with pad by lia.
  fill_step.
  replace (_ - 1)%nat with 0%nat by lia.
  rewrite filled_done. cbn [app]. rewrite <- !app_assoc. reflexivity.
Qed.

Lemma len_paddedPlaintext (fragment macHash : Buffer) (block : Z) :
  0 < block ->
  Buf.len (paddedPlaintext fragment macHash block)
  = Buf.len fragment + Buf.len macHash + 1 + paddingLengthOf fragment macHash block.
Proof.
  intros Hb. pose proof (paddingLengthOf_range fragment macHash Hb).
  unfold paddedPlaintext. rewrite !len_app, len_repeat. unfold Buf.len. simpl length. lia.
Qed.

Lemma createFromPlaintext_Ok type dtlsVersion epoch sequenceNumber fragment :
  enums.isProtocolTypeValid type = true ->
  dtlsVersion = enums.DtlsVersion_DTLS_1_0 ->
  0 <= epoch <= 2 ^ 16 - 1 -> 0 <= sequenceNumber <= 2 ^ 48 - 1 ->
  Buf.len fragment <= 2 ^ 14 ->
  DtlsRecord.createFromPlaintext type dtlsVersion epoch sequenceNumber fragment
  = JS.Ok {| DtlsRecord.protocolType := JS.Num type;
             DtlsRecord.dtlsVersion := dtlsVersion;
             DtlsRecord.epoch := epoch;
             DtlsRecord.sequenceNumber := sequenceNumber;
             DtlsRecord.fragment := fragment |}.
Proof.
  intros Ht -> He Hs Hf. unfold DtlsRecord.createFromPlaintext.
  rewrite Ht. cbn [negb].
  change (enums.isDtlsVersionValid enums.DtlsVersion_DTLS_1_0) with true. cbn [negb].
  destruct (epoch <? 0) eqn:E1; [apply Z.ltb_lt in E1; lia|].
  destruct (2 ^ 16 - 1 <? epoch) eqn:E2; [apply Z.ltb_lt in E2; lia|].
  destruct (sequenceNumber <? 0) eqn:E3; [apply Z.ltb_lt in E3; lia|].
  destruct (2 ^ 48 - 1 <? sequenceNumber) eqn:E4; [apply Z.ltb_lt in E4; lia|].
  unfold DtlsRecord.MAX_PLAINTEXT_FRAGMENT_LENGTH.
  destruct (16384 <? Buf.len fragment) eqn:E5; [apply Z.ltb_lt in E5; lia|].
  reflexivity.
Qed.

Lemma toEncryptedBuffer_NULL (r : DtlsRecord.t) draw key macAlgorithm macSecret :
  wellFormed r ->
  DtlsRecord.toEncryptedBuffer r draw enums.Bulk_NULL key macAlgorithm macSecret
  = JS.Ok (Some (recordHeader (DtlsRecord.protocolType r) (DtlsRecord.dtlsVersion r)
                              (DtlsRecord.epoch r) (DtlsRecord.sequenceNumber r)
                              (Buf.len (DtlsRecord.fragment r))
                 ++ DtlsRecord.fragment r)).
Proof.
  intros (Hv & He & Hs & Hf). unfold DtlsRecord.toEncryptedBuffer, recordHeader.
  cbn [enums.isBulkNULL JS.bind]. cbv zeta.
  pose proof (len_nonneg (DtlsRecord.fragment r)) as Hn.
  rewrite alloc_filled. unfold DtlsRecord.HEADER_LENGTH.
  replace (Z.to_nat (13 + 0 + Buf.len (DtlsRecord.fragment r)))
    with (13 + length (DtlsRecord.fragment r))%nat by (unfold Buf.len; lia).
  unfold Buf.writeUInt16BE.
  fill_step. fill_step. fill_step. fill_step. fill_step. fill_step.
  do 2 f_equal.
  replace (_ - length (DtlsRecord.fragment r))%nat with 0%nat by lia.
  rewrite filled_done. cbn [app]. rewrite <- !app_assoc. cbn [app].
  replace (Buf.len (DtlsRecord.fragment r) + 0) with (Buf.len (DtlsRecord.fragment r)) by lia.
  reflexivity.
Qed.

Lemma accepts_key {L : CryptoLaws C} (alg : enums.BulkEncryptionAlgorithm) (key iv : Buffer) :
  enums.isBulkNULL alg = false ->
  Buf.len key = enums.getBulkAlgorithmKeySize alg -> Buf.len iv = 16 ->
  NodeCipher.accepts (enums.getBulkAlgorithmAsString alg) key iv = true.
Proof.
  intros Ha Hk Hi. unfold NodeCipher.accepts, NodeCipher.blockLength.
  destruct alg; try discriminate; cbn in *; rewrite Hk, Hi; reflexivity.
Qed.

Lemma toEncryptedBuffer_AES {L : CryptoLaws C}
      (r : DtlsRecord.t) draw alg key macAlgorithm macSecret :
  cryptoLoads = true ->
  enums.isBulkNULL alg = false ->
  Buf.len key = enums.getBulkAlgorithmKeySize alg ->
  wellFormed r ->
  let iv := randomBytes draw 16 in
  let macHash :=
    createHmac sha1 macSecret
               (macInput (DtlsRecord.epoch r) (DtlsRecord.sequenceNumber r)
                         (DtlsRecord.protocolType r) (DtlsRecord.dtlsVersion r)
                         (DtlsRecord.fragment r)) in
  let ct := cipher (enums.getBulkAlgorithmAsString alg) key iv
                   (paddedPlaintext (DtlsRecord.fragment r) macHash 16) in
  DtlsRecord.toEncryptedBuffer r draw alg key macAlgorithm macSecret
  = JS.Ok (Some (recordHeader (DtlsRecord.protocolType r) (DtlsRecord.dtlsVersion r)
                              (DtlsRecord.epoch r) (DtlsRecord.sequenceNumber r)
                              (Buf.len ct + 16)
                 ++ iv ++ ct)).
Proof.
  intros Hc Ha Hk (Hv & He & Hs & Hf) iv macHash ct.
  unfold DtlsRecord.toEncryptedBuffer.
  rewrite Ha. unfold CryptoUtils.verifyCrypto. rewrite Hc. cbn [negb]. cbv zeta.
  assert (Hblock : enums.getBulkAlgorithmBlockSize alg = 16)
    by (destruct alg; try discriminate; reflexivity).
  rewrite Hblock. fold iv.
  pose proof (len_nonneg (DtlsRecord.fragment r)) as Hn.
  rewrite buildBufferForMacCalculation_eq by (auto; lia).
  cbn [JS.bind]. fold macHash.
  rewrite buildBufferForEncryption_eq by lia. cbv zeta.
  fold (paddedPlaintext (DtlsRecord.fragment r) macHash 16).
  assert (Hiv : Buf.len iv = 16) by (apply randomBytes_length; lia).
  assert (Hmac : Buf.len macHash = 20) by (apply (createHmac_length sha1)).
  pose proof (paddingLengthOf_range (DtlsRecord.fragment r) macHash (block := 16) ltac:(lia)) as Hp.
  pose proof (@len_paddedPlaintext (DtlsRecord.fragment r) macHash 16 ltac:(lia)) as HE.
  pose proof (@paddedLength_multiple (DtlsRecord.fragment r) macHash 16 ltac:(lia)) as Hm.
  unfold NodeCipher.encrypt. rewrite accepts_key by auto. cbn [negb].
  unfold NodeCipher.blockLength. rewrite HE, Hm. cbn [Z.eqb negb JS.bind]. fold ct.
  assert (Hct : Buf.len ct = Buf.len (paddedPlaintext (DtlsRecord.fragment r) macHash 16)).
  { unfold ct, Buf.len. rewrite cipher_length. reflexivity. }
  rewrite alloc_filled. unfold DtlsRecord.HEADER_LENGTH.
  replace (Z.to_nat (13 + Buf.len iv + Buf.len ct))
    with (13 + length iv + length ct)%nat by (unfold Buf.len; lia).
  unfold Buf.writeUInt16BE, recordHeader.
  fill_step. fill_step. fill_step. fill_step. fill_step. fill_step. fill_step.
  do 2 f_equal.
  replace (_ - length ct)%nat with 0%nat by lia.
  rewrite filled_done. cbn [app]. rewrite <- !app_assoc. cbn [app].
  rewrite Hiv. reflexivity.
Qed.

End RecordEncoding.

(** ** DtlsRecord: what the decoder reads *)

Section RecordDecoding.

Context {C : Crypto}.

Lemma len_recordHeader pt ver ep sq n : Buf.len (recordHeader pt ver ep sq n) = 13.
Proof. unfold recordHeader. rewrite !len_app, !len_beBytes. reflexivity. Qed.

(** Reading the header fields of an encoded record back. *)
Lemma header_fields pt ver ep sq n body :
  0 <= ver < 2 ^ 16 -> 0 <= ep < 2 ^ 16 -> 0 <= sq < 2 ^ 48 -> 0 <= n < 2 ^ 16 ->
  let B := recordHeader pt ver ep sq n ++ body in
  Buf.index B 0 = JS.Num (Buf.ToUint8 pt mod 256)
  /\ Buf.readUInt16BE B 1 = JS.Ok ver
  /\ Buf.readUInt16BE B 3 = JS.Ok ep
  /\ Buf.readUIntBE B 5 6 = JS.Ok sq
  /\ Buf.readUInt16BE B 11 = JS.Ok n.
Proof.
  intros Hv He Hs Hn B. unfold B, recordHeader, Buf.readUInt16BE.
  rewrite <- !app_assoc. split; [|split; [|split; [|split]]].
  - apply (@index_after [] _ _ 0). reflexivity.
  - apply readUIntBE_after; [reflexivity | pow_const; lia].
  - rewrite (app_assoc [_] (Buf.beBytes 2 ver)).
    apply readUIntBE_after; [len_side | pow_const; lia].
  - rewrite (app_assoc [_] (Buf.beBytes 2 ver)).
    rewrite (app_assoc _ (Buf.beBytes 2 ep)).
    apply readUIntBE_after; [len_side | pow_const; lia].
  - rewrite (app_assoc [_] (Buf.beBytes 2 ver)).
    rewrite (app_assoc _ (Buf.beBytes 2 ep)).
    rewrite (app_assoc _ (Buf.beBytes 6 sq)).
    apply readUIntBE_after; [len_side | pow_const; lia].
Qed.

Lemma ToUint8_idem (pt : JS.value) :
  Buf.ToUint8 (JS.Num (Buf.ToUint8 pt mod 256)) mod 256 = Buf.ToUint8 pt mod 256.
Proof.
  unfold Buf.ToUint8 at 1. rewrite !Z.mod_mod by lia. reflexivity.
Qed.

(** Decoding a record made of a header, an IV and a ciphertext: the
    result is decided by the decrypt-and-verify step alone. *)
Lemma fromEncryptedBuffer_AES {L : CryptoLaws C}
      pt ver ep sq (iv ct : Buffer) alg key macAlgorithm macSecret :
  cryptoLoads = true ->
  enums.isBulkNULL alg = false ->
  Buf.len key = enums.getBulkAlgorithmKeySize alg ->
  0 <= ver < 2 ^ 16 -> 0 <= ep < 2 ^ 16 -> 0 <= sq < 2 ^ 48 ->
  Buf.len iv = 16 -> 0 < Buf.len ct -> Buf.len ct + 16 < 2 ^ 16 ->
  Buf.len ct mod 16 = 0 ->
  let B := recordHeader pt ver ep sq (Buf.len ct + 16) ++ iv ++ ct in
  DtlsRecord.fromEncryptedBuffer B None alg key macAlgorithm macSecret
  = (let* c := DtlsRecord.verifyCompressedtext
                 ep sq (JS.Num (Buf.ToUint8 pt mod 256)) ver macAlgorithm macSecret
                 (decipher (enums.getBulkAlgorithmAsString alg) key iv ct) in
     match c with
     | None => JS.Ok None
     | Some f =>
         JS.Ok (Some ({| DtlsRecord.protocolType := JS.Num (Buf.ToUint8 pt mod 256);
                         DtlsRecord.dtlsVersion := ver;
                         DtlsRecord.epoch := ep;
                         DtlsRecord.sequenceNumber := sq;
                         DtlsRecord.fragment := f |}, Buf.len B))
     end).
Proof.
  intros Hc Ha Hk Hv He Hs Hiv Hct Hn Hm B.
  destruct (@header_fields pt ver ep sq (Buf.len ct + 16) (iv ++ ct) Hv He Hs ltac:(lia))
    as (F0 & F1 & F2 & F3 & F4).
  fold B in F0, F1, F2, F3, F4.
  assert (HB : Buf.len B = 13 + (16 + Buf.len ct)).
  { unfold B. rewrite !len_app, len_recordHeader, Hiv. reflexivity. }
  assert (Hiv' : Buf.copy B (Buf.alloc 16) 0 13 (13 + 16) = iv).
  { unfold B. apply copy_out; [rewrite len_recordHeader; reflexivity | auto]. }
  assert (Hct' : Buf.copy B (Buf.alloc (Buf.len ct)) 0 (13 + 16) (13 + 16 + Buf.len ct) = ct).
  { unfold B. rewrite app_assoc.
    pose proof (@copy_out (recordHeader pt ver ep sq (Buf.len ct + 16) ++ iv) ct []
                          29 (Buf.len ct)) as H.
    rewrite app_nil_r in H. apply H; [rewrite len_app, len_recordHeader, Hiv|]; reflexivity. }
  assert (Hblock : enums.getBulkAlgorithmBlockSize alg = 16)
    by (destruct alg; try discriminate; reflexivity).
  unfold DtlsRecord.fromEncryptedBuffer. cbn [initialOffsetOf JS.bind]. cbv zeta.
  unfold DtlsRecord.HEADER_LENGTH. rewrite HB, Ha, Hblock. cbn [negb orb].
  destruct (13 + (16 + Buf.len ct) - 0 <? 13) eqn:E1; [apply Z.ltb_lt in E1; lia|].
  change (0 + 1) with 1. change (1 + 2) with 3. change (3 + 2) with 5.
  change (5 + 6) with 11. change (11 + 2) with 13.
  rewrite F1. cbn [JS.bind]. rewrite F2. cbn [JS.bind]. rewrite F3. cbn [JS.bind].
  rewrite F4. cbn [JS.bind].
  destruct (13 + (16 + Buf.len ct) - 13 <? Buf.len ct + 16) eqn:E2;
    [apply Z.ltb_lt in E2; lia|].
  destruct (16 <? Buf.len ct + 16) eqn:E3; [|apply Z.ltb_ge in E3; lia].
  cbn [negb]. rewrite Hiv'. rewrite Hiv. change (16 =? 0) with false.
  replace (Buf.len ct + 16 - 16) with (Buf.len ct) by lia.
  rewrite Hct'.
  unfold CryptoUtils.verifyCrypto. rewrite Hc. cbn [negb].
  unfold NodeCipher.decrypt. rewrite accepts_key by auto. cbn [negb].
  unfold NodeCipher.blockLength. rewrite Hm. cbn [Z.eqb negb JS.bind].
  rewrite F0.
  destruct (DtlsRecord.verifyCompressedtext _ _ _ _ _ _ _) as [[f|]|e]; cbn [JS.bind]; auto.
  rewrite copy_whole. do 3 f_equal. lia.
Qed.

End RecordDecoding.

(** ** DtlsRecord: the padding check and the MAC comparison *)

Section PaddingAndMac.

Context {C : Crypto}.

Lemma compareMacHash_fold (a b : Buffer) (l : list nat) (err : bool) (vis : list nat) :
  fold_left
    (fun '(macHashError, visited) iMacHash =>
       let differ :=
         match Buf.get a (Z.of_nat iMacHash), Buf.get b (Z.of_nat iMacHash) with
         | Some x, Some y => negb (x =? y)
         | None, None => false
         | _, _ => true
         end in
       (if differ then true else macHashError, visited ++ [iMacHash]))
    l (err, vis)
  = (err || existsb (differAt a b) l, vis ++ l).
Proof.
  revert err vis. induction l as [|i l IH]; intros err vis; cbn [fold_left existsb].
  - rewrite orb_false_r, app_nil_r. reflexivity.
  - rewrite IH. unfold differAt at 2.
    rewrite <- app_assoc. cbn [app]. f_equal.
    destruct (Buf.get a (Z.of_nat i)), (Buf.get b (Z.of_nat i)); cbn;
      try destruct (z =? z0); cbn; destruct err; cbn; auto.
Qed.

(** The MAC loop compares every index below [macHashLength], whatever the
    octets are, and reports whether any comparison failed. *)
Lemma compareMacHash_spec (a b : Buffer) (n : Z) :
  DtlsRecord.compareMacHash a b n
  = (existsb (differAt a b) (seq 0 (Z.to_nat n)), seq 0 (Z.to_nat n)).
Proof.
  unfold DtlsRecord.compareMacHash. rewrite compareMacHash_fold. reflexivity.
Qed.

Lemma differAt_refl (a : Buffer) (i : nat) : differAt a a i = false.
Proof.
  unfold differAt. destruct (Buf.get a (Z.of_nat i)); auto.
  rewrite Z.eqb_refl. reflexivity.
Qed.

Lemma compareMacHash_same (a : Buffer) (n : Z) :
  fst (DtlsRecord.compareMacHash a a n) = false.
Proof.
  rewrite compareMacHash_spec. cbn [fst].
  induction (seq 0 (Z.to_nat n)) as [|i l IH]; cbn; auto.
  rewrite differAt_refl. exact IH.
Qed.

Lemma get_nth_error (a : Buffer) (i : nat) : Buf.get a (Z.of_nat i) = nth_error a i.
Proof.
  unfold Buf.get. destruct (Z.of_nat i <? 0) eqn:E; [apply Z.ltb_lt in E; lia|].
  rewrite Nat2Z.id. reflexivity.
Qed.

(** For buffers of [n] octets the loop reports an error exactly when the
    buffers differ. *)
Lemma compareMacHash_differ (a b : Buffer) (n : nat) :
  length a = n -> length b = n ->
  fst (DtlsRecord.compareMacHash a b (Z.of_nat n)) = true <-> a <> b.
Proof.
  intros Ha Hb. rewrite compareMacHash_spec. cbn [fst]. rewrite Nat2Z.id.
  rewrite existsb_exists. split.
  - intros (i & Hi & Hd) ->. rewrite differAt_refl in Hd. discriminate.
  - intros Hne.
    assert (Hex : exists i, (i < n)%nat /\ nth_error a i <> nth_error b i).
    { clear - Ha Hb Hne. revert b n Ha Hb Hne.
      induction a as [|x a IH]; intros [|y b] n Ha Hb Hne; simpl in *; subst; try discriminate.
      - congruence.
      - destruct (Z.eq_dec x y) as [->|Hxy].
        + destruct (IH b (length a) eq_refl ltac:(congruence)) as (i & Hi & Hd).
          * congruence.
          * exists (S i). split; [lia | exact Hd].
        + exists 0%nat. split; [lia | simpl; congruence]. }
    destruct Hex as (i & Hi & Hd). exists i. split.
    + apply in_seq. lia.
    + unfold differAt. rewrite !get_nth_error.
      destruct (nth_error a i) as [x|] eqn:Ea, (nth_error b i) as [y|] eqn:Eb;
        auto; try congruence.
      destruct (x =? y) eqn:E; auto. apply Z.eqb_eq in E. congruence.
Qed.

Lemma in_downFrom (hi : Z) (k : nat) (i : Z) :
  In i (DtlsRecord.downFrom hi k) <-> hi - Z.of_nat k < i <= hi.
Proof.
  revert hi. induction k as [|k IH]; intros hi; cbn [DtlsRecord.downFrom In].
  - lia.
  - rewrite IH. lia.
Qed.

Lemma paddingLoop_all_equal (E : Buffer) (pad : Z) (idxs : list Z) :
  (forall i, In i idxs -> Buf.get E i = Some pad) ->
  fold_left
    (fun paddingError iPaddingByte =>
       match Buf.get E iPaddingByte with
       | Some v => if negb (v =? pad) then true else paddingError
       | None => true
       end) idxs false = false.
Proof.
  induction idxs as [|i l IH]; intros H; cbn [fold_left]; auto.
  rewrite (H i) by (left; reflexivity). rewrite Z.eqb_refl. cbn [negb].
  apply IH. intros j Hj. apply H. right. exact Hj.
Qed.

Lemma get_in_repeat (pre : Buffer) (x : Z) (k : nat) (i : Z) :
  Buf.len pre <= i < Buf.len pre + Z.of_nat k ->
  Buf.get (pre ++ repeat x k) i = Some x.
Proof.
  intros Hi. unfold Buf.get, Buf.len in *.
  destruct (i <? 0) eqn:E; [apply Z.ltb_lt in E; lia|].
  rewrite nth_error_app2 by lia.
  apply nth_error_repeat. lia.
Qed.

(** The padding [buildBufferForEncryption] writes passes the check. *)
Lemma verifyPadding_padded (pre : Buffer) (pad : Z) :
  0 <= pad ->
  DtlsRecord.verifyPadding (pre ++ repeat pad (S (Z.to_nat pad))) pad = false.
Proof.
  intros Hp. unfold DtlsRecord.verifyPadding. cbv zeta.
  rewrite len_app, len_repeat. pose proof (len_nonneg pre).
  destruct (Buf.len pre + Z.of_nat (S (Z.to_nat pad)) <? pad + 1) eqn:E;
    [apply Z.ltb_lt in E; lia|].
  apply paddingLoop_all_equal. intros i Hi. apply in_downFrom in Hi.
  apply get_in_repeat. lia.
Qed.

Lemma slice_range (b : Buffer) (s e : Z) :
  0 <= s <= e -> e <= Buf.len b ->
  Buf.slice b s e = firstn (Z.to_nat (e - s)) (skipn (Z.to_nat s) b).
Proof.
  intros Hs He. unfold Buf.slice, Buf.adjust.
  destruct (s <? 0) eqn:E1; [apply Z.ltb_lt in E1; lia|].
  destruct (e <? 0) eqn:E2; [apply Z.ltb_lt in E2; lia|].
  rewrite !Z.min_l by lia. reflexivity.
Qed.

Lemma repeat_snoc {A : Type} (x : A) (n : nat) : repeat x n ++ [x] = repeat x (S n).
Proof. induction n as [|n IH]; simpl; auto. f_equal. exact IH. Qed.

(** Decrypt-and-verify accepts what the encoder produced. *)
Lemma verifyCompressedtext_padded {L : CryptoLaws C}
      ep sq pt ver macSecret (fragment : Buffer) :
  0 <= ver < 2 ^ 16 -> 0 <= ep < 2 ^ 16 -> 0 <= sq < 2 ^ 48 ->
  Buf.len fragment <= 2 ^ 14 ->
  let macHash := createHmac sha1 macSecret (macInput ep sq pt ver fragment) in
  DtlsRecord.verifyCompressedtext ep sq pt ver enums.Mac_SHA1 macSecret
                                  (paddedPlaintext fragment macHash 16)
  = JS.Ok (Some fragment).
Proof.
  intros Hv He Hs Hf macHash.
  assert (Hmac : Buf.len macHash = 20) by (apply (createHmac_length sha1)).
  pose proof (paddingLengthOf_range fragment macHash (block := 16) ltac:(lia)) as Hp.
  pose proof (@len_paddedPlaintext fragment macHash 16 ltac:(lia)) as HE.
  pose proof (len_nonneg fragment) as Hn.
  set (pad := paddingLengthOf fragment macHash 16) in *.
  assert (Hpm : pad mod 256 = pad) by (apply Z.mod_small; lia).
  assert (Hshape : paddedPlaintext fragment macHash 16
                   = (fragment ++ macHash) ++ repeat pad (S (Z.to_nat pad))).
  { unfold paddedPlaintext. fold pad. cbv zeta. rewrite Hpm.
    rewrite repeat_snoc. rewrite app_assoc. reflexivity. }
  unfold DtlsRecord.verifyCompressedtext. cbv zeta.
  set (E := paddedPlaintext fragment macHash 16) in *.
  destruct (Buf.len E =? 0) eqn:E0; [apply Z.eqb_eq in E0; lia|].
  assert (Hlast : Buf.get E (Buf.len E - 1) = Some pad).
  { rewrite Hshape at 1. apply get_in_repeat.
    rewrite HE, len_app. lia. }
  rewrite Hlast.
  assert (Hpadok : DtlsRecord.verifyPadding E pad = false).
  { rewrite Hshape. apply verifyPadding_padded. lia. }
  rewrite Hpadok. cbn [enums.getMacAlgorithmHashSize].
  replace (Buf.len E - pad - 1 - 20) with (Buf.len fragment) by lia.
  replace (Buf.len E - pad - 1) with (Buf.len fragment + 20) by lia.
  assert (Hfrag : Buf.slice E 0 (Buf.len fragment) = fragment).
  { rewrite slice_prefix by lia. rewrite Hshape, <- app_assoc.
    unfold Buf.len. rewrite Nat2Z.id.
    rewrite firstn_app, firstn_all, Nat.sub_diag. cbn [firstn]. apply app_nil_r. }
  assert (Hm : Buf.slice E (Buf.len fragment) (Buf.len fragment + 20) = macHash).
  { rewrite slice_range by lia. rewrite Hshape, <- app_assoc.
    unfold Buf.len in *. rewrite Nat2Z.id.
    rewrite skipn_app, skipn_all, Nat.sub_diag. cbn [skipn app].
    replace (Z.to_nat (Z.of_nat (length fragment) + 20 - Z.of_nat (length fragment)))
      with (length macHash) by lia.
    rewrite firstn_app, firstn_all, Nat.sub_diag. cbn [firstn]. apply app_nil_r. }
  rewrite Hfrag, Hm.
  rewrite buildBufferForMacCalculation_eq by (auto; lia). cbn [JS.bind].
  fold macHash. rewrite compareMacHash_same. reflexivity.
Qed.

End PaddingAndMac.

(** ** C2: the record round trip *)

Section RecordRoundTrip.

Context {C : Crypto} {L : CryptoLaws C}.

Lemma valid_type_octet (type : Z) :
  enums.isProtocolTypeValid type = true -> Buf.ToUint8 (JS.Num type) mod 256 = type.
Proof.
  unfold enums.isProtocolTypeValid. intros H.
  repeat (apply orb_true_iff in H; destruct H as [H|H]);
    apply Z.eqb_eq in H; subst; reflexivity.
Qed.

(** C2: under AES-128-CBC or AES-256-CBC with HMAC-SHA1 and the same key
    and MAC secret on both sides, every record that [createFromPlaintext]
    accepts (fragment of at most 2^14 octets, epoch at most 2^16 - 1,
    sequence number at most 2^48 - 1) is encoded by [toEncryptedBuffer],
    and [fromEncryptedBuffer] on the encoding returns the same record
    with [bytesConsumed] the length of the encoding. *)
Theorem record_round_trip
        (type epoch sequenceNumber : Z) (fragment : Buffer) (draw : nat)
        (alg : enums.BulkEncryptionAlgorithm) (key macSecret : Buffer) :
  cryptoLoads = true ->
  alg = enums.AES_128_CBC \/ alg = enums.AES_256_CBC ->
  Buf.len key = enums.getBulkAlgorithmKeySize alg ->
  enums.isProtocolTypeValid type = true ->
  0 <= epoch <= 2 ^ 16 - 1 ->
  0 <= sequenceNumber <= 2 ^ 48 - 1 ->
  Buf.len fragment <= 2 ^ 14 ->
  exists (r : DtlsRecord.t) (encoded : Buffer),
    DtlsRecord.createFromPlaintext type enums.DtlsVersion_DTLS_1_0 epoch sequenceNumber fragment
    = JS.Ok r
    /\ DtlsRecord.fragment r = fragment
    /\ DtlsRecord.toEncryptedBuffer r draw alg key enums.Mac_SHA1 macSecret
       = JS.Ok (Some encoded)
    /\ DtlsRecord.fromEncryptedBuffer encoded None alg key enums.Mac_SHA1 macSecret
       = JS.Ok (Some (r, Buf.len encoded)).
Proof.
  intros Hc Halg Hk Ht He Hs Hf.
  assert (Ha : enums.isBulkNULL alg = false) by (destruct Halg; subst; reflexivity).
  set (r := {| DtlsRecord.protocolType := JS.Num type;
               DtlsRecord.dtlsVersion := enums.DtlsVersion_DTLS_1_0;
               DtlsRecord.epoch := epoch;
               DtlsRecord.sequenceNumber := sequenceNumber;
               DtlsRecord.fragment := fragment |}).
  assert (Hwf : wellFormed r).
  { unfold wellFormed, r, enums.DtlsVersion_DTLS_1_0. cbn. lia. }
  pose proof (@toEncryptedBuffer_AES C L r draw alg key enums.Mac_SHA1 macSecret
                                     Hc Ha Hk Hwf) as Henc.
  cbv zeta in Henc. cbn [DtlsRecord.protocolType DtlsRecord.dtlsVersion DtlsRecord.epoch
                         DtlsRecord.sequenceNumber DtlsRecord.fragment r] in Henc.
  set (iv := randomBytes draw 16) in *.
  set (macHash := createHmac sha1 macSecret
                    (macInput epoch sequenceNumber (JS.Num type)
                              enums.DtlsVersion_DTLS_1_0 fragment)) in *.
  set (ct := cipher (enums.getBulkAlgorithmAsString alg) key iv
                    (paddedPlaintext fragment macHash 16)) in *.
  exists r. eexists. split; [|split; [|split]].
  - apply createFromPlaintext_Ok; auto.
  - reflexivity.
  - exact Henc.
  - assert (Hiv : Buf.len iv = 16) by (apply randomBytes_length; lia).
    assert (Hmac : Buf.len macHash = 20) by (apply (createHmac_length sha1)).
    pose proof (paddingLengthOf_range fragment macHash (block := 16) ltac:(lia)) as Hp.
    pose proof (@len_paddedPlaintext fragment macHash 16 ltac:(lia)) as HE.
    pose proof (@paddedLength_multiple fragment macHash 16 ltac:(lia)) as Hm.
    pose proof (len_nonneg fragment) as Hn.
    assert (Hct : Buf.len ct = Buf.len (paddedPlaintext fragment macHash 16)).
    { unfold ct, Buf.len. rewrite cipher_length. reflexivity. }
    rewrite fromEncryptedBuffer_AES; auto;
      try (unfold enums.DtlsVersion_DTLS_1_0; lia); try (rewrite Hct, HE; lia).
    unfold ct. rewrite decipher_cipher.
    assert (Hty : Buf.ToUint8 (JS.Num type) mod 256 = type) by (apply valid_type_octet; auto).
    rewrite Hty.
    pose proof (@verifyCompressedtext_padded C L epoch sequenceNumber (JS.Num type)
                  enums.DtlsVersion_DTLS_1_0 macSecret fragment) as Hver.
    cbv zeta in Hver. fold macHash in Hver.
    rewrite Hver by (unfold enums.DtlsVersion_DTLS_1_0; lia).
    cbn [JS.bind]. reflexivity.
Qed.

End RecordRoundTrip.

Lemma record_round_trip_witness :
  exists (r : DtlsRecord.t) (encoded : Buffer),
    DtlsRecord.createFromPlaintext 23 enums.DtlsVersion_DTLS_1_0 65535 (2 ^ 48 - 1)
                                   [10; 20; 30]
    = JS.Ok r
    /\ DtlsRecord.fragment r = [10; 20; 30]
    /\ DtlsRecord.toEncryptedBuffer (C := ToyCrypto.crypto) r 3 enums.AES_256_CBC
                                    (repeat 5 32) enums.Mac_SHA1 (repeat 9 20)
       = JS.Ok (Some encoded)
    /\ DtlsRecord.fromEncryptedBuffer (C := ToyCrypto.crypto) encoded None enums.AES_256_CBC
                                      (repeat 5 32) enums.Mac_SHA1 (repeat 9 20)
       = JS.Ok (Some (r, Buf.len encoded)).
Proof.
  apply (@record_round_trip ToyCrypto.crypto ToyCrypto_laws 23 65535 (2 ^ 48 - 1)
           [10; 20; 30] 3 enums.AES_256_CBC (repeat 5 32) (repeat 9 20)).
  - reflexivity.
  - right. reflexivity.
  - reflexivity.
  - reflexivity.
  - lia.
  - lia.
  - vm_compute. discriminate.
Defined.

(** ** C8: one result for a bad padding and for a bad MAC *)

Section PaddingOracle.

Context {C : Crypto} {L : CryptoLaws C}.

Lemma paddingLoop_fold (E : Buffer) (pad : Z) (idxs : list Z) (err : bool) :
  fold_left
    (fun paddingError iPaddingByte =>
       match Buf.get E iPaddingByte with
       | Some v => if negb (v =? pad) then true else paddingError
       | None => true
       end) idxs err
  = err || existsb (fun i => match Buf.get E i with
                             | Some v => negb (v =? pad)
                             | None => true
                             end) idxs.
Proof.
  revert err. induction idxs as [|i l IH]; intros err; cbn [fold_left existsb].
  - rewrite orb_false_r. reflexivity.
  - rewrite IH. destruct (Buf.get E i) as [v|]; [destruct (negb (v =? pad))|];
      destruct err; reflexivity.
Qed.

Lemma verifyPadding_bad (P : Buffer) :
  badPadding P -> DtlsRecord.verifyPadding P (paddingLengthIn P) = true.
Proof.
  intros [Hlen | (i & Hi & Hne)]; unfold DtlsRecord.verifyPadding; cbv zeta.
  - destruct (Buf.len P <? paddingLengthIn P + 1) eqn:E; auto.
    apply Z.ltb_ge in E. lia.
  - destruct (Buf.len P <? paddingLengthIn P + 1) eqn:E; auto.
    apply Z.ltb_ge in E. rewrite paddingLoop_fold. cbn [orb].
    apply existsb_exists. exists i. split.
    + apply in_downFrom. lia.
    + destruct (Buf.get P i) as [v|]; auto.
      destruct (v =? paddingLengthIn P) eqn:Ev; auto.
      apply Z.eqb_eq in Ev. congruence.
Qed.

Lemma nth_error_differ (a b : Buffer) (n : nat) :
  length a = n -> (length b <= n)%nat -> a <> b ->
  exists i, (i < n)%nat /\ nth_error a i <> nth_error b i.
Proof.
  revert b n. induction a as [|x a IH]; intros b n Ha Hb Hne.
  - destruct b; simpl in *; [congruence | lia].
  - destruct b as [|y b]; simpl in *.
    + exists 0%nat. split; [lia | simpl; discriminate].
    + destruct (Z.eq_dec x y) as [->|Hxy].
      * destruct (IH b (length a) eq_refl ltac:(lia)) as (i & Hi & Hd); [congruence|].
        exists (S i). split; [lia | exact Hd].
      * exists 0%nat. split; [lia | simpl; congruence].
Qed.

Lemma compareMacHash_bad (a b : Buffer) (n : Z) :
  Buf.len a = n -> Buf.len b <= n -> a <> b ->
  fst (DtlsRecord.compareMacHash a b n) = true.
Proof.
  intros Ha Hb Hne. rewrite compareMacHash_spec. cbn [fst].
  destruct (@nth_error_differ a b (Z.to_nat n)) as (i & Hi & Hd);
    try (unfold Buf.len in *; lia); auto.
  apply existsb_exists. exists i. split; [apply in_seq; lia|].
  unfold differAt. rewrite !get_nth_error.
  destruct (nth_error a i) as [x|], (nth_error b i) as [y|]; auto; try congruence.
  destruct (x =? y) eqn:E; auto. apply Z.eqb_eq in E. congruence.
Qed.

Lemma len_slice_le (b : Buffer) (s e : Z) : Buf.len (Buf.slice b s e) <= Buf.len b.
Proof.
  unfold Buf.slice, Buf.len. rewrite length_firstn, length_skipn. lia.
Qed.

Lemma len_slice_width (b : Buffer) (s w : Z) :
  0 <= w -> Buf.len (Buf.slice b (s - w) s) <= w.
Proof.
  intros Hw. unfold Buf.slice, Buf.adjust, Buf.len.
  rewrite length_firstn, length_skipn.
  destruct (s - w <? 0) eqn:E1; destruct (s <? 0) eqn:E2;
    try apply Z.ltb_lt in E1; try apply Z.ltb_lt in E2;
    try apply Z.ltb_ge in E1; try apply Z.ltb_ge in E2; lia.
Qed.

Lemma get_last (P : Buffer) :
  P <> [] -> Buf.get P (Buf.len P - 1) = Some (last P 0).
Proof.
  intros HP. destruct (exists_last HP) as (P' & x & ->).
  rewrite last_last, len_app.
  apply (@get_after P' x [] (Buf.len P' + Buf.len [x] - 1)).
  unfold Buf.len. simpl. lia.
Qed.

(** The decrypt-and-verify step returns [null] for a bad padding, for a
    bad MAC, and for both. *)
Lemma verifyCompressedtext_bad ep sq pt ver macSecret (P : Buffer) :
  0 <= ver < 2 ^ 16 -> 0 <= ep < 2 ^ 16 -> 0 <= sq < 2 ^ 48 ->
  0 < Buf.len P < 2 ^ 16 ->
  badPadding P \/ badMac ep sq pt ver macSecret P ->
  DtlsRecord.verifyCompressedtext ep sq pt ver enums.Mac_SHA1 macSecret P = JS.Ok None.
Proof.
  intros Hv He Hs HP Hbad. unfold DtlsRecord.verifyCompressedtext. cbv zeta.
  destruct (Buf.len P =? 0) eqn:E0; [apply Z.eqb_eq in E0; lia|].
  rewrite get_last by (intros ->; unfold Buf.len in HP; simpl in HP; lia).
  fold (paddingLengthIn P). cbn [enums.getMacAlgorithmHashSize].
  fold (contentIn P). fold (macIn P).
  pose proof (len_slice_le P 0 (Buf.len P - paddingLengthIn P - 1 - 20)) as Hcl.
  fold (contentIn P) in Hcl.
  rewrite buildBufferForMacCalculation_eq by (auto; lia). cbn [JS.bind].
  destruct Hbad as [Hpad | Hmac].
  - rewrite (verifyPadding_bad Hpad).
    destruct (fst (DtlsRecord.compareMacHash _ _ _)); reflexivity.
  - rewrite compareMacHash_bad; auto.
    + apply (createHmac_length sha1).
    + unfold macIn.
      replace (Buf.len P - paddingLengthIn P - 1 - 20)
        with (Buf.len P - paddingLengthIn P - 1 - 20) by lia.
      apply (@len_slice_width P (Buf.len P - paddingLengthIn P - 1) 20). lia.
Qed.

(** C8: for an encrypted record (a header, an IV and a ciphertext of
    whole blocks) whose decrypted plaintext has a bad padding, a bad MAC
    or both, [fromEncryptedBuffer] returns [null]: the same value in the
    three cases. *)
Theorem fromEncryptedBuffer_bad_padding_or_mac
        pt ver ep sq (iv ct : Buffer) alg key macSecret :
  cryptoLoads = true ->
  alg = enums.AES_128_CBC \/ alg = enums.AES_256_CBC ->
  Buf.len key = enums.getBulkAlgorithmKeySize alg ->
  0 <= ver < 2 ^ 16 -> 0 <= ep < 2 ^ 16 -> 0 <= sq < 2 ^ 48 ->
  Buf.len iv = 16 -> 0 < Buf.len ct -> Buf.len ct + 16 < 2 ^ 16 ->
  Buf.len ct mod 16 = 0 ->
  let P := decipher (enums.getBulkAlgorithmAsString alg) key iv ct in
  let received := JS.Num (Buf.ToUint8 pt mod 256) in
  badPadding P \/ badMac ep sq received ver macSecret P ->
  DtlsRecord.fromEncryptedBuffer
    (recordHeader pt ver ep sq (Buf.len ct + 16) ++ iv ++ ct) None
    alg key enums.Mac_SHA1 macSecret
  = JS.Ok None.
Proof.
  intros Hc Halg Hk Hv He Hs Hiv Hct Hn Hm P received Hbad.
  assert (Ha : enums.isBulkNULL alg = false) by (destruct Halg; subst; reflexivity).
  rewrite fromEncryptedBuffer_AES by auto.
  fold P. fold received.
  assert (HP : Buf.len P = Buf.len ct).
  { unfold P, Buf.len. rewrite decipher_length. reflexivity. }
  rewrite verifyCompressedtext_bad; auto. lia.
Qed.

End PaddingOracle.

Lemma fromEncryptedBuffer_bad_padding_or_mac_witness :
  DtlsRecord.fromEncryptedBuffer (C := ToyCrypto.crypto)
    (recordHeader (JS.Num 23) 0xfeff 1 7 (32 + 16)
     ++ repeat 1 16 ++ (200 :: repeat 0 31)) None
    enums.AES_128_CBC (repeat 5 16) enums.Mac_SHA1 (repeat 9 20)
  = JS.Ok None.
Proof.
  apply (@fromEncryptedBuffer_bad_padding_or_mac ToyCrypto.crypto ToyCrypto_laws
           (JS.Num 23) 0xfeff 1 7 (repeat 1 16) (200 :: repeat 0 31)
           enums.AES_128_CBC (repeat 5 16) (repeat 9 20)).
  - reflexivity.
  - left. reflexivity.
  - reflexivity.
  - lia.
  - lia.
  - lia.
  - reflexivity.
  - reflexivity.
  - reflexivity.
  - reflexivity.
  - left. left. reflexivity.
Defined.

(** ** C5: DtlsAlertMessage cannot be serialised *)

Section AlertCodec.

(** C5 (the code departs from the claim): for every level and description
    that [DtlsAlertMessage.create] accepts, [create] returns a message and
    [toBuffer] on that message raises [ReferenceError], so no octets are
    produced for [fromBuffer] to parse. *)
Theorem DtlsAlertMessage_toBuffer_throws (level description : Z) :
  enums.isAlertLevelValid level = true ->
  enums.isAlertDescriptionValid description = true ->
  exists m : DtlsAlertMessage.t,
    DtlsAlertMessage.create level description = JS.Ok m
    /\ DtlsAlertMessage.toBuffer m = JS.Throw JS.ReferenceError.
Proof.
  intros Hl Hd. unfold DtlsAlertMessage.create. rewrite Hl, Hd. cbn [negb].
  eexists. split; reflexivity.
Qed.

End AlertCodec.

Lemma DtlsAlertMessage_toBuffer_throws_witness :
  exists m : DtlsAlertMessage.t,
    DtlsAlertMessage.create enums.AlertLevel_Warning enums.AlertDescription_CloseNotify
    = JS.Ok m
    /\ DtlsAlertMessage.toBuffer m = JS.Throw JS.ReferenceError.
Proof.
  exact (@DtlsAlertMessage_toBuffer_throws enums.AlertLevel_Warning
           enums.AlertDescription_CloseNotify eq_refl eq_refl).
Defined.

(** The fields play no part: [toBuffer] fails on every message, also on
    one that [fromBuffer] has read. *)
Lemma DtlsAlertMessage_toBuffer_always_throws (m : DtlsAlertMessage.t) :
  DtlsAlertMessage.toBuffer m = JS.Throw JS.ReferenceError.
Proof. reflexivity. Qed.

(** The alert [01 00] (warning, close notify) is parsed, and cannot be
    written back. *)
Example DtlsAlertMessage_fromBuffer_then_toBuffer :
  (let* parsed := DtlsAlertMessage.fromBuffer [1; 0] None in
   match parsed with
   | Some (m, _) => DtlsAlertMessage.toBuffer m
   | None => JS.Ok []
   end) = JS.Throw JS.ReferenceError.
Proof. reflexivity. Qed.

(** [DtlsHandshakeMessage.createFromMessageBuffer] accepts a message
    buffer longer than [fragmentLength]; [toBuffer] writes all of it and
    [fromBuffer] reads [fragmentLength] octets back: of the two octets
    [07 08] one returns, and 13 of the 14 octets are consumed. *)
Example DtlsHandshakeMessage_long_message_buffer :
  (let* m := DtlsHandshakeMessage.createFromMessageBuffer
               enums.MessageType_ClientHello 2 0 0 1 [7; 8] in
   let* encoded := DtlsHandshakeMessage.toBuffer m in
   let* parsed := DtlsHandshakeMessage.fromBuffer encoded None in
   JS.Ok (Buf.len encoded,
          option_map (fun r => (DtlsHandshakeMessage.message (fst r), snd r)) parsed))
  = JS.Ok (14, Some ([7], 13)).
Proof. vm_compute. reflexivity. Qed.

(** ** The MAC comparison loop *)

Section Comparisons.

(** The MAC loop visits every index below the MAC length and accumulates
    the mismatches, whatever the octets are. *)
Lemma compareMacHash_full_length (macHashVerify macHash : Buffer) (n : Z) :
  snd (DtlsRecord.compareMacHash macHashVerify macHash n) = seq 0 (Z.to_nat n)
  /\ fst (DtlsRecord.compareMacHash macHashVerify macHash n)
     = existsb (differAt macHashVerify macHash) (seq 0 (Z.to_nat n)).
Proof. rewrite compareMacHash_spec. split; reflexivity. Qed.

End Comparisons.

(** ** C3: a record that fails to decode *)

Section UndecodableRecord.

Context {C : Crypto}.

(** Wherever in the datagram the loop stands, a record for which
    [fromEncryptedBuffer] returns [null] makes the handler raise
    [TypeError]: the handler reads [record] of [null]. *)
Lemma onSocketMessage_loop_throws (fuel : nat) (msg : Buffer) (messageOffset : Z)
      (s : DtlsSession.t) :
  0 <= messageOffset < Buf.len msg ->
  DtlsRecord.fromEncryptedBuffer
    msg (Some (Z.to_nat messageOffset))
    (DtlsSession.bulkEncryptionAlgorithm (DtlsSession.currentReadState s))
    (DtlsSession.serverWriteKey (DtlsSession.securityParameters s))
    (DtlsSession.macAlgorithm (DtlsSession.currentReadState s))
    (DtlsSession.serverWriteMacSecret (DtlsSession.securityParameters s))
  = JS.Ok None ->
  DtlsSession.onSocketMessage_loop (S fuel) msg messageOffset s = JS.Throw JS.TypeError.
Proof.
  intros Hoff Hnull. cbn [DtlsSession.onSocketMessage_loop].
  destruct (messageOffset <? Buf.len msg) eqn:E; [|apply Z.ltb_ge in E; lia].
  cbn [negb]. rewrite Hnull. reflexivity.
Qed.

(** C3 (the code departs from the claim): when the first record of a
    datagram fails to decode ([fromEncryptedBuffer] returns [null], for a
    buffer too short or for an invalid MAC or padding), [onSocketMessage]
    raises [TypeError] instead of abandoning the datagram and returning. *)
Theorem onSocketMessage_throws_on_undecodable_record (msg : Buffer) (s : DtlsSession.t) :
  msg <> [] ->
  DtlsRecord.fromEncryptedBuffer
    msg (Some 0%nat)
    (DtlsSession.bulkEncryptionAlgorithm (DtlsSession.currentReadState s))
    (DtlsSession.serverWriteKey (DtlsSession.securityParameters s))
    (DtlsSession.macAlgorithm (DtlsSession.currentReadState s))
    (DtlsSession.serverWriteMacSecret (DtlsSession.securityParameters s))
  = JS.Ok None ->
  DtlsSession.onSocketMessage msg s = JS.Throw JS.TypeError.
Proof.
  intros Hne Hnull. unfold DtlsSession.onSocketMessage.
  destruct msg as [|b msg]; [congruence|].
  cbn [length]. apply onSocketMessage_loop_throws; auto.
  unfold Buf.len. cbn [length]. lia.
Qed.

End UndecodableRecord.

Lemma onSocketMessage_throws_on_undecodable_record_witness :
  DtlsSession.onSocketMessage (C := ToyCrypto.crypto) [1; 2; 3] Scenario.clientHelloSent
  = JS.Throw JS.TypeError.
Proof.
  apply (@onSocketMessage_throws_on_undecodable_record ToyCrypto.crypto [1; 2; 3]
           Scenario.clientHelloSent).
  - discriminate.
  - reflexivity.
Defined.

(** The same in the middle of a datagram: the first record is dispatched,
    the stray octets after it raise [TypeError]. *)
Example onSocketMessage_throws_mid_datagram :
  DtlsSession.onSocketMessage (C := ToyCrypto.crypto) Scenario.truncatedDatagram
                              Scenario.clientHelloSent
  = JS.Throw JS.TypeError.
Proof. vm_compute. reflexivity. Qed.

(** ** C1: the answer to a HelloVerifyRequest *)

Section HelloVerifyRequest.

Context {C : Crypto}.

(** [ClientHelloMessage.create] with a cookie: the cookie bound is looked
    up under the name [version], which nothing declares. *)
Lemma ClientHelloMessage_create_cookie_throws
      (random : Buffer) (cookie : Buffer) (cipherSuites compressionMethods : list Z) :
  Buf.len random = 32 ->
  ClientHelloMessage.create DtlsSession.DTLS_VERSION random None (Some cookie)
                            cipherSuites compressionMethods
  = JS.Throw JS.ReferenceError.
Proof.
  intros Hr. unfold ClientHelloMessage.create.
  change (enums.isDtlsVersionValid DtlsSession.DTLS_VERSION) with true. cbn [negb].
  unfold ClientHelloMessage.RANDOM_LENGTH. rewrite Hr. reflexivity.
Qed.

(** C1 (the code departs from the claim): when the handshake message
    carries a HelloVerifyRequest with a non-empty cookie, the handler
    raises [ReferenceError] while it builds the new ClientHello; no
    ClientHello is appended to the transcript or sent. *)
Theorem onHelloVerifyRequest_throws
        (dtlsHandshakeMessage : DtlsHandshakeMessage.t) (s : DtlsSession.t)
        (helloVerifyRequestMessage : HelloVerifyRequestMessage.t) (bytesConsumed : Z)
        (cookie : Buffer) :
  HelloVerifyRequestMessage.fromBuffer
    (DtlsHandshakeMessage.message dtlsHandshakeMessage) None
  = JS.Ok (Some (helloVerifyRequestMessage, bytesConsumed)) ->
  HelloVerifyRequestMessage.cookie helloVerifyRequestMessage = Some cookie ->
  Buf.len (DtlsSession.clientRandom (DtlsSession.securityParameters s)) = 32 ->
  DtlsSession.sessionId s = None ->
  DtlsSession.onHelloVerifyRequest dtlsHandshakeMessage s = JS.Throw JS.ReferenceError.
Proof.
  intros Hparse Hcookie Hrandom Hsid. unfold DtlsSession.onHelloVerifyRequest.
  rewrite Hparse. cbn [JS.bind]. cbv zeta. rewrite Hcookie.
  cbn [DtlsSession.sessionId DtlsSession.securityParameters
       DtlsSession.set_transcript DtlsSession.set_handshakeMessageSequence].
  rewrite Hsid.
  rewrite ClientHelloMessage_create_cookie_throws by exact Hrandom. reflexivity.
Qed.

End HelloVerifyRequest.

Lemma onHelloVerifyRequest_throws_witness :
  DtlsSession.onHelloVerifyRequest (C := ToyCrypto.crypto)
    {| DtlsHandshakeMessage.messageType := JS.Num 3;
       DtlsHandshakeMessage.length := 7;
       DtlsHandshakeMessage.messageSequence := 0;
       DtlsHandshakeMessage.fragmentOffset := 0;
       DtlsHandshakeMessage.fragmentLength := 7;
       DtlsHandshakeMessage.message := [0xfe; 0xff; 4; 0xde; 0xad; 0xbe; 0xef] |}
    Scenario.clientHelloSent
  = JS.Throw JS.ReferenceError.
Proof.
  apply (@onHelloVerifyRequest_throws ToyCrypto.crypto _ Scenario.clientHelloSent
           {| HelloVerifyRequestMessage.serverVersion := 0xfeff;
              HelloVerifyRequestMessage.cookie := Some [0xde; 0xad; 0xbe; 0xef] |}
           7 [0xde; 0xad; 0xbe; 0xef]).
  - reflexivity.
  - reflexivity.
  - reflexivity.
  - reflexivity.
Defined.

(** The same through [onSocketMessage], on a datagram that carries the
    HelloVerifyRequest in a handshake record. *)
Example onSocketMessage_HelloVerifyRequest_throws :
  DtlsSession.onSocketMessage (C := ToyCrypto.crypto) Scenario.helloVerifyRequestDatagram
                              Scenario.clientHelloSent
  = JS.Throw JS.ReferenceError.
Proof. vm_compute. reflexivity. Qed.

(** ** DtlsSession: sending under the current write state *)

Section SessionSending.

Context {C : Crypto} {L : CryptoLaws C}.

Lemma outgoingRecord_wellFormed type fragment s :
  countersInRange s -> Buf.len fragment <= 2 ^ 14 ->
  wellFormed (outgoingRecord type fragment s).
Proof.
  intros (He & Hs) Hf. unfold wellFormed, outgoingRecord, enums.DtlsVersion_DTLS_1_0.
  cbn. lia.
Qed.

Lemma encryptOutgoing_spec (type : Z) (fragment : Buffer) (s : DtlsSession.t) :
  enums.isProtocolTypeValid type = true ->
  Buf.len fragment <= 2 ^ 14 ->
  countersInRange s -> writeReady s ->
  exists encoded : Buffer,
    outgoingEncoding type fragment s = JS.Ok (Some encoded)
    /\ DtlsSession.encryptOutgoing type fragment s = JS.Ok (Some encoded, afterEncryption s).
Proof.
  intros Ht Hf Hc Hw.
  pose proof (@outgoingRecord_wellFormed type fragment s Hc Hf) as Hwf.
  destruct Hc as (He & Hs).
  unfold DtlsSession.encryptOutgoing, outgoingEncoding, afterEncryption.
  rewrite createFromPlaintext_Ok by auto. cbn [JS.bind]. cbv zeta.
  fold (outgoingRecord type fragment s).
  destruct Hw as [Hnull | (Hcl & Hk)].
  - set (bulk := DtlsSession.bulkEncryptionAlgorithm _) in *.
    destruct bulk; try discriminate.
    rewrite toEncryptedBuffer_NULL by exact Hwf. cbn [JS.bind enums.isBulkNULL orb].
    eexists. split; reflexivity.
  - set (bulk := DtlsSession.bulkEncryptionAlgorithm _) in *.
    destruct (enums.isBulkNULL bulk) eqn:Hb.
    + destruct bulk; try discriminate.
      rewrite toEncryptedBuffer_NULL by exact Hwf. cbn [JS.bind orb].
      eexists. split; reflexivity.
    + rewrite toEncryptedBuffer_AES by auto. cbn [JS.bind orb].
      unfold CryptoUtils.verifyCrypto. rewrite Hcl. cbn [negb].
      eexists. split; reflexivity.
Qed.

End SessionSending.

(** ** C10: queueing before the handshake is verified, sending after *)

Section ApplicationData.

Context {C : Crypto} {L : CryptoLaws C}.

(** [SessionState] has no member [Connected]: the state written by the
    Finished handler and tested by [sendApplicationData] is [undefined]. *)
Lemma SessionState_Connected_undefined : enums.SessionState_Connected = JS.Undefined.
Proof. reflexivity. Qed.

(** C10 (as amended): while the session state is one of the three members
    of [SessionState] (every state before the server Finished is verified),
    [sendApplicationData] appends the payload to the queue and produces no
    event; once the state is [SessionState.Connected], which is
    [undefined], a call with a payload of at most 2^14 octets, counters in
    range and a usable write state encrypts the payload, hands one
    datagram to the socket and leaves the queue and the state as they
    were. *)
Theorem sendApplicationData_queues_then_sends (data : Buffer) (s : DtlsSession.t) :
  (In (DtlsSession.sessionState s)
      [enums.SessionState_NotConnected; enums.SessionState_ClientHelloSent;
       enums.SessionState_FinishedSent] ->
   DtlsSession.sendApplicationData data s
   = JS.Ok (DtlsSession.set_messageQueue (DtlsSession.messageQueue s ++ [data]) s)
   /\ DtlsSession.events
        (DtlsSession.set_messageQueue (DtlsSession.messageQueue s ++ [data]) s)
      = DtlsSession.events s)
  /\ (DtlsSession.sessionState s = enums.SessionState_Connected ->
      Buf.len data <= 2 ^ 14 -> countersInRange s -> writeReady s ->
      exists (encoded : Buffer) (s' : DtlsSession.t),
        DtlsSession.sendApplicationData data s = JS.Ok s'
        /\ outgoingEncoding enums.ProtocolType_DtlsApplicationDataProtocol data s
           = JS.Ok (Some encoded)
        /\ DtlsSession.events s'
           = DtlsSession.events s
             ++ [DtlsSession.Sent encoded (DtlsSession.dstPort s) (DtlsSession.dstIpAddress s)]
        /\ DtlsSession.messageQueue s' = DtlsSession.messageQueue s
        /\ DtlsSession.sessionState s' = enums.SessionState_Connected)
  /\ enums.SessionState_Connected = JS.Undefined.
Proof.
  split; [|split].
  - intros Hin. unfold DtlsSession.sendApplicationData.
    assert (Hneq : JS.strict_neq (DtlsSession.sessionState s) enums.SessionState_Connected
                   = true).
    { cbn [In] in Hin. destruct Hin as [H|[H|[H|[]]]]; rewrite <- H; reflexivity. }
    rewrite Hneq. split; reflexivity.
  - intros Hst Hlen Hc Hw. unfold DtlsSession.sendApplicationData.
    rewrite Hst. cbn [JS.strict_neq enums.SessionState_Connected].
    change (JS.strict_neq (enums.SessionState "Connected") (enums.SessionState "Connected"))
      with false. cbv iota.
    unfold DtlsApplicationDataMessage.create. cbn [JS.bind].
    unfold DtlsApplicationDataMessage.toBuffer. cbn [DtlsApplicationDataMessage.data].
    cbv zeta. rewrite copy_whole.
    destruct (@encryptOutgoing_spec C L enums.ProtocolType_DtlsApplicationDataProtocol
                data s eq_refl Hlen Hc Hw) as (encoded & Henc & Hout).
    rewrite Hout. cbn [JS.bind DtlsSession.socketSend].
    exists encoded. eexists. split; [reflexivity|]. split; [exact Henc|].
    unfold afterEncryption.
    destruct (enums.isBulkNULL _); cbn; rewrite ?Hst; auto.
  - reflexivity.
Qed.

End ApplicationData.

Lemma sendApplicationData_queues_then_sends_witness :
  DtlsSession.sendApplicationData (C := ToyCrypto.crypto) [72; 105] Scenario.clientHelloSent
  = JS.Ok (DtlsSession.set_messageQueue [[66]; [67]; [72; 105]] Scenario.clientHelloSent)
  /\ exists (encoded : Buffer) (s' : DtlsSession.t),
      DtlsSession.sendApplicationData (C := ToyCrypto.crypto) [72; 105]
        (DtlsSession.set_sessionState enums.SessionState_Connected Scenario.finishedSent)
      = JS.Ok s'
      /\ DtlsSession.events s' = [DtlsSession.Sent encoded 5684 "10.0.0.1"]
      /\ DtlsSession.messageQueue s' = [[66]; [67]].
Proof.
  split.
  - destruct (@sendApplicationData_queues_then_sends ToyCrypto.crypto ToyCrypto_laws
                [72; 105] Scenario.clientHelloSent) as ((H & _) & _ & _).
    + right. left. reflexivity.
    + exact H.
  - destruct (@sendApplicationData_queues_then_sends ToyCrypto.crypto ToyCrypto_laws
                [72; 105]
                (DtlsSession.set_sessionState enums.SessionState_Connected
                                              Scenario.finishedSent))
      as (_ & H & _).
    destruct H as (encoded & s' & H1 & _ & H3 & H4 & _).
    + reflexivity.
    + vm_compute. discriminate.
    + split; split; vm_compute; discriminate.
    + right. split; reflexivity.
    + exists encoded, s'. auto.
Defined.

(** C10 as stated does not hold: in the session that a verified server
    Finished leaves (state [SessionState.Connected]),
    [sendApplicationData] raises [RangeError] and hands nothing to the
    socket for a payload of 2^14 + 1 octets, and for a small payload once
    the outgoing sequence number is 2^48 or the epoch 2^16; with a
    client write key that has not the length of the cipher the call
    raises as well. *)
Lemma sendApplicationData_connected_raises :
  match DtlsSession.onFinished (C := ToyCrypto.crypto) Scenario.serverFinished
                               Scenario.finishedSent with
  | JS.Ok (_, s) =>
      DtlsSession.sessionState s = enums.SessionState_Connected
      /\ DtlsSession.sendApplicationData (C := ToyCrypto.crypto) (Buf.alloc (2 ^ 14 + 1)) s
         = JS.Throw JS.RangeError
      /\ DtlsSession.sendApplicationData (C := ToyCrypto.crypto) [72; 105]
           (DtlsSession.set_outgoing (DtlsSession.nextOutgoingEpoch s) (2 ^ 48) s)
         = JS.Throw JS.RangeError
      /\ DtlsSession.sendApplicationData (C := ToyCrypto.crypto) [72; 105]
           (DtlsSession.set_outgoing (2 ^ 16) 0 s)
         = JS.Throw JS.RangeError
      /\ JS.throws
           (DtlsSession.sendApplicationData (C := ToyCrypto.crypto) [72; 105]
              (DtlsSession.set_securityParameters
                 {| DtlsSession.clientRandom := repeat 0 32;
                    DtlsSession.serverRandom := repeat 1 32;
                    DtlsSession.masterSecret := repeat 2 48;
                    DtlsSession.clientWriteMacSecret := repeat 3 20;
                    DtlsSession.serverWriteMacSecret := repeat 4 20;
                    DtlsSession.clientWriteKey := [1; 2; 3];
                    DtlsSession.serverWriteKey := repeat 6 16;
                    DtlsSession.sp_bulkEncryptionAlgorithm := enums.AES_128_CBC;
                    DtlsSession.sp_macAlgorithm := enums.Mac_SHA1;
                    DtlsSession.sp_compressionMethod := enums.CompressionMethod_NULL |}
                 s))
         = true
  | JS.Throw _ => False
  end.
Proof. vm_compute. repeat split; reflexivity. Qed.

(** ** C4: the order in which the queue is drained *)

Section QueueDrain.

Context {C : Crypto}.

Lemma pop_snoc (q : list Buffer) (x : Buffer) :
  DtlsSession.pop (q ++ [x]) = Some (x, q).
Proof.
  unfold DtlsSession.pop. rewrite rev_app_distr. cbn. rewrite rev_involutive. reflexivity.
Qed.

(** In the connected state [sendApplicationData] neither reads nor
    writes the queue, and keeps the state. *)
Lemma sendApplicationData_connected (data : Buffer) (q : list Buffer) (s : DtlsSession.t) :
  DtlsSession.sessionState s = enums.SessionState_Connected ->
  DtlsSession.sendApplicationData data (DtlsSession.set_messageQueue q s)
  = (let* s' := DtlsSession.sendApplicationData data s in
     JS.Ok (DtlsSession.set_messageQueue q s')).
Proof.
  intros Hst. unfold DtlsSession.sendApplicationData.
  cbn [DtlsSession.sessionState DtlsSession.set_messageQueue]. rewrite Hst.
  change (JS.strict_neq enums.SessionState_Connected enums.SessionState_Connected)
    with false. cbv iota.
  unfold DtlsApplicationDataMessage.create. cbn [JS.bind].
  unfold DtlsSession.encryptOutgoing.
  cbn [DtlsSession.nextOutgoingEpoch DtlsSession.nextOutgoingSequenceNumber
       DtlsSession.currentWriteState DtlsSession.securityParameters DtlsSession.draws
       DtlsSession.set_messageQueue].
  destruct (DtlsRecord.createFromPlaintext _ _ _ _ _) as [r|e]; cbn [JS.bind]; auto.
  cbv zeta.
  destruct (DtlsRecord.toEncryptedBuffer _ _ _ _ _ _) as [[b|]|e]; cbn [JS.bind]; auto;
    destruct (enums.isBulkNULL _ || negb CryptoUtils.verifyCrypto); reflexivity.
Qed.

Lemma sendApplicationData_keeps_state (data : Buffer) (s s' : DtlsSession.t) :
  DtlsSession.sessionState s = enums.SessionState_Connected ->
  DtlsSession.sendApplicationData data s = JS.Ok s' ->
  DtlsSession.sessionState s' = enums.SessionState_Connected
  /\ DtlsSession.messageQueue s' = DtlsSession.messageQueue s.
Proof.
  intros Hst. unfold DtlsSession.sendApplicationData. rewrite Hst.
  change (JS.strict_neq enums.SessionState_Connected enums.SessionState_Connected)
    with false. cbv iota.
  unfold DtlsApplicationDataMessage.create. cbn [JS.bind].
  unfold DtlsSession.encryptOutgoing.
  destruct (DtlsRecord.createFromPlaintext _ _ _ _ _) as [r|e]; cbn [JS.bind];
    [|discriminate].
  cbv zeta.
  destruct (DtlsRecord.toEncryptedBuffer _ _ _ _ _ _) as [[b|]|e]; cbn [JS.bind];
    try discriminate;
    destruct (enums.isBulkNULL _ || negb CryptoUtils.verifyCrypto);
    cbn [DtlsSession.socketSend]; intros H; inversion H; subst; cbn; auto; discriminate.
Qed.

(** The drain loop in the connected state: the queue is emptied, and the
    payloads go through [sendApplicationData] last submitted first. *)
Lemma drainMessageQueue_reverse (q : list Buffer) (s : DtlsSession.t) :
  DtlsSession.sessionState s = enums.SessionState_Connected ->
  DtlsSession.messageQueue s = q ->
  DtlsSession.drainMessageQueue (length q) s
  = DtlsSession.sendEach (rev q) (DtlsSession.set_messageQueue [] s).
Proof.
  revert s. induction q as [|x q IH] using rev_ind; intros s Hst Hq.
  - cbn. destruct s; cbn in *; subst; reflexivity.
  - rewrite length_app. cbn [length]. rewrite Nat.add_1_r.
    cbn [DtlsSession.drainMessageQueue].
    rewrite Hq, pop_snoc. rewrite rev_app_distr. cbn [rev app DtlsSession.sendEach].
    rewrite !sendApplicationData_connected by exact Hst.
    destruct (DtlsSession.sendApplicationData x s) as [s'|e] eqn:Hsend; cbn [JS.bind]; auto.
    destruct (@sendApplicationData_keeps_state x s s' Hst Hsend) as (Hst' & Hq').
    rewrite IH.
    + reflexivity.
    + exact Hst'.
    + reflexivity.
Qed.

Lemma callConnectListener_keeps (s s' : DtlsSession.t) :
  DtlsSession.sessionState s = enums.SessionState_Connected ->
  DtlsSession.callConnectListener s = JS.Ok s' ->
  DtlsSession.sessionState s' = enums.SessionState_Connected
  /\ DtlsSession.messageQueue s' = DtlsSession.messageQueue s.
Proof.
  intros Hst. unfold DtlsSession.callConnectListener.
  destruct (DtlsSession.connectListener s).
  - intros H. inversion H. subst. auto.
  - intros H. apply sendApplicationData_keeps_state in H; auto.
  - intros H. inversion H. subst. auto.
Qed.

(** C4 (the code departs from the claim): when the server verify data
    compare equal, the handler sets the state to [SessionState.Connected],
    calls the connect listener, and then passes the queued payloads to
    [sendApplicationData] in the reverse of the order in which they were
    submitted ([rev (messageQueue s)]: the loop takes them with [pop]). *)
Theorem onFinished_drains_queue_in_reverse
        (dtlsHandshakeMessage : DtlsHandshakeMessage.t) (s : DtlsSession.t)
        (finishedMessage : FinishedMessage.t) (bytesConsumed : Z)
        (serverVerifyData : Buffer) :
  FinishedMessage.fromBuffer (DtlsHandshakeMessage.message dtlsHandshakeMessage) None
  = JS.Ok (Some (finishedMessage, bytesConsumed)) ->
  DtlsSession.verifyData "server finished" s = JS.Ok (Some serverVerifyData) ->
  Buf.compare serverVerifyData (FinishedMessage.verifyData finishedMessage) = 0 ->
  DtlsSession.onFinished dtlsHandshakeMessage s
  = (let* s1 := DtlsSession.callConnectListener
                  (DtlsSession.set_sessionState enums.SessionState_Connected s) in
     let* s2 := DtlsSession.sendEach (rev (DtlsSession.messageQueue s))
                                     (DtlsSession.set_messageQueue [] s1) in
     JS.Ok (DtlsSession.Continue, s2)).
Proof.
  intros Hparse Hverify Hcmp. unfold DtlsSession.onFinished.
  rewrite Hparse. cbn [JS.bind].
  assert (Hv : DtlsSession.verifyData "server finished" s = JS.Ok (Some serverVerifyData))
    by exact Hverify.
  rewrite Hv. cbn [JS.bind]. rewrite Hcmp. cbn [Z.eqb negb]. cbv zeta.
  destruct (DtlsSession.callConnectListener _) as [s1|e] eqn:Hcall; cbn [JS.bind]; auto.
  destruct (@callConnectListener_keeps
              (DtlsSession.set_sessionState enums.SessionState_Connected s) s1
              eq_refl Hcall) as (Hst & Hq).
  cbn [DtlsSession.messageQueue DtlsSession.set_sessionState] in Hq.
  rewrite (@drainMessageQueue_reverse (DtlsSession.messageQueue s1) s1 Hst eq_refl).
  rewrite Hq. reflexivity.
Qed.

End QueueDrain.

(** On the session [Scenario.finishedSent], where "B" then "C" are queued
    and the connect listener sends "A", the records leave in the order
    "A", "C", "B". *)
Lemma onFinished_drains_queue_in_reverse_witness :
  exists s2 : DtlsSession.t,
    DtlsSession.onFinished (C := ToyCrypto.crypto) Scenario.serverFinished
                           Scenario.finishedSent
    = JS.Ok (DtlsSession.Continue, s2)
    /\ Scenario.sentPayloads (DtlsSession.events s2) = [Some [65]; Some [67]; Some [66]]
    /\ DtlsSession.sessionState s2 = JS.Undefined.
Proof.
  pose proof (@onFinished_drains_queue_in_reverse ToyCrypto.crypto
                Scenario.serverFinished Scenario.finishedSent
                {| FinishedMessage.verifyData :=
                     DtlsHandshakeMessage.message Scenario.serverFinished |}
                12
                (DtlsHandshakeMessage.message Scenario.serverFinished)
                eq_refl eq_refl eq_refl) as H.
  eexists. split; [rewrite H; vm_compute; reflexivity|].
  split; vm_compute; reflexivity.
Defined.


(** ** C7: the second flight *)

Section SecondFlight.

Context {C : Crypto} {L : CryptoLaws C}.



Lemma len_xorBuffers (a b : Buffer) : Buf.len (CryptoUtils.xorBuffers a b) = Buf.len a.
Proof. unfold CryptoUtils.xorBuffers, Buf.len. rewrite length_map, length_seq. reflexivity. Qed.


Lemma len_handshakeWire type body messageSequence :
  Buf.len (handshakeWire type body messageSequence) = 12 + Buf.len body.
Proof. unfold handshakeWire. rewrite !len_app, !len_beBytes. unfold Buf.len. cbn [length]. lia. Qed.

Lemma wrapHandshake_spec (type : Z) (body : Buffer) (s : DtlsSession.t) :
  enums.isMessageTypeValid type = true ->
  Buf.len body <= 2 ^ 14 ->
  0 <= DtlsSession.handshakeMessageSequence s <= 2 ^ 16 - 1 ->
  DtlsSession.wrapHandshake type body s
  = JS.Ok (handshakeWire type body (DtlsSession.handshakeMessageSequence s),
           DtlsSession.set_transcript
             (DtlsSession.allHandshakeMessagesAsBuffer s
              ++ handshakeWire type body (DtlsSession.handshakeMessageSequence s))
             (DtlsSession.set_handshakeMessageSequence
                (DtlsSession.handshakeMessageSequence s + 1) s)).
Proof.
  intros Ht Hb Hq. unfold DtlsSession.wrapHandshake.
  pose proof (len_nonneg body) as Hn.
  unfold DtlsHandshakeMessage.createFromMessageBuffer. rewrite Ht. cbn [negb].
  unfold DtlsHandshakeMessage.MAX_LENGTH, DtlsHandshakeMessage.MAX_FRAGMENT_OFFSET,
    DtlsHandshakeMessage.MAX_FRAGMENT_LENGTH.
  repeat match goal with
         | |- context [?a <? ?b] =>
             destruct (a <? b) eqn:?E;
             [apply Z.ltb_lt in E; lia | clear E]
         end.
  cbn [orb JS.bind].
  unfold DtlsHandshakeMessage.toBuffer.
  cbn [DtlsHandshakeMessage.messageType DtlsHandshakeMessage.length
       DtlsHandshakeMessage.messageSequence DtlsHandshakeMessage.fragmentOffset
       DtlsHandshakeMessage.fragmentLength DtlsHandshakeMessage.message Buf.ToUint8].
  cbv zeta. unfold DtlsHandshakeMessage.HEADER_LENGTH, Buf.writeUInt16BE.
  rewrite alloc_filled.
  replace (Z.to_nat (12 + Buf.len body)) with (12 + length body)%nat
    by (unfold Buf.len; lia).
  fill_step. fill_step. fill_step. fill_step. fill_step. fill_step.
  replace (_ - length body)%nat with 0%nat by lia.
  rewrite filled_done. cbn [app JS.bind]. rewrite <- !app_assoc. cbn [app].
  reflexivity.
Qed.

Lemma encryptOutgoing_NULL (type : Z) (fragment : Buffer) (s : DtlsSession.t) :
  DtlsSession.bulkEncryptionAlgorithm (DtlsSession.currentWriteState s) = enums.Bulk_NULL ->
  enums.isProtocolTypeValid type = true ->
  Buf.len fragment <= 2 ^ 14 ->
  countersInRange s ->
  DtlsSession.encryptOutgoing type fragment s
  = JS.Ok (Some (recordHeader (JS.Num type) enums.DtlsVersion_DTLS_1_0
                              (DtlsSession.nextOutgoingEpoch s)
                              (DtlsSession.nextOutgoingSequenceNumber s)
                              (Buf.len fragment)
                 ++ fragment), s).
Proof.
  intros Hnull Ht Hf Hc.
  pose proof (@outgoingRecord_wellFormed type fragment s Hc Hf) as Hwf.
  destruct Hc as (He & Hs).
  unfold DtlsSession.encryptOutgoing.
  rewrite createFromPlaintext_Ok by auto. cbn [JS.bind]. cbv zeta.
  rewrite Hnull. fold (outgoingRecord type fragment s).
  rewrite toEncryptedBuffer_NULL by exact Hwf. reflexivity.
Qed.

Lemma PskClientKeyExchange_toBuffer (identity : Buffer) :
  Buf.len identity <= 2 ^ 16 - 1 ->
  (let* m := PskClientKeyExchangeMessage.create identity in
   PskClientKeyExchangeMessage.toBuffer m)
  = JS.Ok (clientKeyExchangeBody identity).
Proof.
  intros Hi. pose proof (len_nonneg identity) as Hn.
  unfold PskClientKeyExchangeMessage.create, PskClientKeyExchangeMessage.MAX_IDENTITY_LENGTH.
  destruct (2 ^ 16 - 1 <? Buf.len identity) eqn:E; [apply Z.ltb_lt in E; lia|].
  cbn [JS.bind]. unfold PskClientKeyExchangeMessage.toBuffer.
  cbn [PskClientKeyExchangeMessage.identity]. rewrite copy_whole.
  unfold PskClientKeyExchangeMessage.MAX_IDENTITY_LENGTH. rewrite E. cbv zeta.
  unfold Buf.writeUInt16BE. rewrite alloc_filled.
  replace (Z.to_nat (2 + Buf.len identity)) with (2 + length identity)%nat
    by (unfold Buf.len; lia).
  fill_step. fill_step.
  replace (_ - length identity)%nat with 0%nat by lia.
  rewrite filled_done. cbn [app]. reflexivity.
Qed.









End SecondFlight.


(* ================================================================== *)
(** * Further properties of the codecs, the record layer and the session *)

(** ** Message codecs *)

Section Codecs.

(** Application data survive serialisation: [fromBuffer] applied to what
    [toBuffer] wrote returns the payload and consumes all of it. *)
Theorem DtlsApplicationDataMessage_round_trip (data : Buffer) :
  (let* m := DtlsApplicationDataMessage.create data in
   DtlsApplicationDataMessage.fromBuffer (DtlsApplicationDataMessage.toBuffer m) None)
  = JS.Ok (Some ({| DtlsApplicationDataMessage.data := data |}, Buf.len data)).
Proof.
  unfold DtlsApplicationDataMessage.create. cbn [JS.bind].
  unfold DtlsApplicationDataMessage.toBuffer. cbn [DtlsApplicationDataMessage.data].
  rewrite copy_whole.
  unfold DtlsApplicationDataMessage.fromBuffer, initialOffsetOf. cbn [JS.bind]. cbv zeta.
  rewrite !Z.sub_0_r, copy_whole. reflexivity.
Qed.

(** [Buffer.alloc(n)] followed by a copy of the first [n] octets. *)
Lemma copy_prefix (b : Buffer) (n : Z) :
  0 <= n <= Buf.len b ->
  Buf.copy b (Buf.alloc n) 0 0 n = firstn (Z.to_nat n) b.
Proof.
  intros Hn.
  pose proof (@copy_out [] (firstn (Z.to_nat n) b) (skipn (Z.to_nat n) b) 0 n eq_refl) as H.
  cbn [app] in H. rewrite firstn_skipn in H. apply H.
  unfold Buf.len in *. rewrite length_firstn. lia.
Qed.

(** With an offset, [DtlsApplicationDataMessage.fromBuffer] still copies
    from position 0: the payload it returns is the leading
    [buffer.length - offset] octets of the buffer, not the octets that
    start at the offset. *)
Theorem DtlsApplicationDataMessage_fromBuffer_offset (buffer : Buffer) (offset : nat) :
  (offset < length buffer)%nat ->
  DtlsApplicationDataMessage.fromBuffer buffer (Some offset)
  = JS.Ok (Some ({| DtlsApplicationDataMessage.data :=
                      firstn (length buffer - offset) buffer |},
                 Buf.len buffer - Z.of_nat offset)).
Proof.
  intros Ho. unfold DtlsApplicationDataMessage.fromBuffer, initialOffsetOf.
  destruct (Buf.len buffer <=? Z.of_nat offset) eqn:E;
    [apply Z.leb_le in E; unfold Buf.len in E; lia|].
  cbn [JS.bind]. cbv zeta.
  rewrite copy_prefix by (unfold Buf.len; lia).
  replace (Z.to_nat (Buf.len buffer - Z.of_nat offset)) with (length buffer - offset)%nat
    by (unfold Buf.len; lia).
  do 3 f_equal. lia.
Qed.

Lemma ToUint8_range (v : JS.value) : 0 <= Buf.ToUint8 v < 256.
Proof. destruct v; simpl; [lia | apply Z.mod_pos_bound; lia]. Qed.

Lemma ToUint8_mod (v : JS.value) : Buf.ToUint8 v mod 256 = Buf.ToUint8 v.
Proof. apply Z.mod_small, ToUint8_range. Qed.

(** What [DtlsHandshakeMessage.toBuffer] writes. *)
Lemma DtlsHandshakeMessage_toBuffer_layout (m : DtlsHandshakeMessage.t) :
  0 <= DtlsHandshakeMessage.length m < 2 ^ 24 ->
  0 <= DtlsHandshakeMessage.messageSequence m < 2 ^ 16 ->
  0 <= DtlsHandshakeMessage.fragmentOffset m < 2 ^ 24 ->
  0 <= DtlsHandshakeMessage.fragmentLength m < 2 ^ 24 ->
  DtlsHandshakeMessage.toBuffer m = JS.Ok (handshakeLayout m).
Proof.
  intros Hl Hs Ho Hf. unfold DtlsHandshakeMessage.toBuffer, handshakeLayout.
  cbv zeta. unfold DtlsHandshakeMessage.HEADER_LENGTH, Buf.writeUInt16BE.
  rewrite alloc_filled.
  replace (Z.to_nat (12 + Buf.len (DtlsHandshakeMessage.message m)))
    with (12 + length (DtlsHandshakeMessage.message m))%nat by (unfold Buf.len; lia).
  fill_step. fill_step. fill_step. fill_step. fill_step. fill_step.
  replace (_ - length (DtlsHandshakeMessage.message m))%nat with 0%nat by lia.
  rewrite filled_done. cbn [app JS.bind]. rewrite <- !app_assoc. cbn [app].
  rewrite ToUint8_mod. reflexivity.
Qed.

(** What [DtlsHandshakeMessage.fromBuffer] reads from a buffer that
    starts with a message; the octets after it are left alone. *)
Lemma DtlsHandshakeMessage_fromBuffer_layout
      (type length messageSequence fragmentOffset fragmentLength : Z) (message rest : Buffer) :
  0 <= length < 2 ^ 24 -> 0 <= messageSequence < 2 ^ 16 ->
  0 <= fragmentOffset < 2 ^ 24 -> 0 <= fragmentLength < 2 ^ 24 ->
  Buf.len message = fragmentLength ->
  DtlsHandshakeMessage.fromBuffer
    ([type] ++ Buf.beBytes 3 length ++ Buf.beBytes 2 messageSequence
     ++ Buf.beBytes 3 fragmentOffset ++ Buf.beBytes 3 fragmentLength ++ message ++ rest) None
  = JS.Ok (Some ({| DtlsHandshakeMessage.messageType := JS.Num type;
                    DtlsHandshakeMessage.length := length;
                    DtlsHandshakeMessage.messageSequence := messageSequence;
                    DtlsHandshakeMessage.fragmentOffset := fragmentOffset;
                    DtlsHandshakeMessage.fragmentLength := fragmentLength;
                    DtlsHandshakeMessage.message := message |},
                 12 + fragmentLength)).
Proof.
  intros Hl Hs Ho Hf Hm.
  set (B := _ ++ _).
  assert (HB : Buf.len B = 12 + fragmentLength + Buf.len rest).
  { unfold B. rewrite !len_app, !len_beBytes. unfold Buf.len in *. cbn [List.length]. lia. }
  pose proof (len_nonneg rest) as Hr.
  assert (F0 : Buf.index B 0 = JS.Num type)
    by (apply (@index_after [] _ _ 0); reflexivity).
  assert (F1 : Buf.readUIntBE B 1 3 = JS.Ok length)
    by (unfold B; apply readUIntBE_after; [reflexivity | pow_const; lia]).
  assert (F2 : Buf.readUIntBE B 4 2 = JS.Ok messageSequence).
  { unfold B. rewrite (app_assoc [_] (Buf.beBytes 3 length)).
    apply readUIntBE_after; [len_side | pow_const; lia]. }
  assert (F3 : Buf.readUIntBE B 6 3 = JS.Ok fragmentOffset).
  { unfold B. rewrite (app_assoc [_] (Buf.beBytes 3 length)).
    rewrite (app_assoc _ (Buf.beBytes 2 messageSequence)).
    apply readUIntBE_after; [len_side | pow_const; lia]. }
  assert (F4 : Buf.readUIntBE B 9 3 = JS.Ok fragmentLength).
  { unfold B. rewrite (app_assoc [_] (Buf.beBytes 3 length)).
    rewrite (app_assoc _ (Buf.beBytes 2 messageSequence)).
    rewrite (app_assoc _ (Buf.beBytes 3 fragmentOffset)).
    apply readUIntBE_after; [len_side | pow_const; lia]. }
  assert (F5 : Buf.copy B (Buf.alloc fragmentLength) 0 12 (12 + fragmentLength) = message).
  { unfold B. rewrite (app_assoc [_] (Buf.beBytes 3 length)).
    rewrite (app_assoc _ (Buf.beBytes 2 messageSequence)).
    rewrite (app_assoc _ (Buf.beBytes 3 fragmentOffset)).
    rewrite (app_assoc _ (Buf.beBytes 3 fragmentLength)).
    apply copy_out; [len_side | auto]. }
  unfold DtlsHandshakeMessage.fromBuffer. cbn [initialOffsetOf JS.bind]. cbv zeta.
  unfold DtlsHandshakeMessage.HEADER_LENGTH, Buf.readUInt16BE. rewrite HB.
  destruct (12 + fragmentLength + Buf.len rest - 0 <? 12) eqn:E1;
    [apply Z.ltb_lt in E1; lia|].
  change (0 + 1) with 1. change (1 + 3) with 4. change (4 + 2) with 6.
  change (6 + 3) with 9. change (9 + 3) with 12.
  rewrite F1. cbn [JS.bind]. rewrite F2. cbn [JS.bind]. rewrite F3. cbn [JS.bind].
  rewrite F4. cbn [JS.bind].
  destruct (12 + fragmentLength + Buf.len rest - 12 <? fragmentLength) eqn:E2;
    [apply Z.ltb_lt in E2; lia|].
  rewrite F0, F5. do 3 f_equal. lia.
Qed.

(** What [createFromMessageBuffer] has checked when it returns. *)
Lemma createFromMessageBuffer_inv
      (type length messageSequence fragmentOffset fragmentLength : Z)
      (messageBuffer : Buffer) (m : DtlsHandshakeMessage.t) :
  DtlsHandshakeMessage.createFromMessageBuffer
    type length messageSequence fragmentOffset fragmentLength messageBuffer = JS.Ok m ->
  enums.isMessageTypeValid type = true
  /\ 0 <= length < 2 ^ 24 /\ 0 <= messageSequence < 2 ^ 16
  /\ 0 <= fragmentOffset < 2 ^ 24 /\ 0 <= fragmentLength < 2 ^ 24
  /\ fragmentLength <= Buf.len messageBuffer < 2 ^ 24
  /\ fragmentOffset + fragmentLength <= length
  /\ m = {| DtlsHandshakeMessage.messageType := JS.Num type;
            DtlsHandshakeMessage.length := length;
            DtlsHandshakeMessage.messageSequence := messageSequence;
            DtlsHandshakeMessage.fragmentOffset := fragmentOffset;
            DtlsHandshakeMessage.fragmentLength := fragmentLength;
            DtlsHandshakeMessage.message := messageBuffer |}.
Proof.
  unfold DtlsHandshakeMessage.createFromMessageBuffer,
    DtlsHandshakeMessage.MAX_LENGTH, DtlsHandshakeMessage.MAX_FRAGMENT_OFFSET,
    DtlsHandshakeMessage.MAX_FRAGMENT_LENGTH.
  destruct (enums.isMessageTypeValid type); cbn [negb]; [|discriminate].
  repeat match goal with
         | |- context [?a <? ?b] =>
             destruct (Z.ltb_spec a b); cbn [orb]; [discriminate|]
         | |- context [?a <? ?b] =>
             destruct (Z.ltb_spec a b); cbn [orb]
         end; try discriminate.
  intros Heq. injection Heq as <-. repeat split; try lia.
Qed.

Lemma valid_message_type_octet (type : Z) :
  enums.isMessageTypeValid type = true -> 0 <= type < 256.
Proof.
  unfold enums.isMessageTypeValid. intros H.
  repeat (apply orb_prop in H; destruct H as [H|H]); apply Z.eqb_eq in H; subst; lia.
Qed.

(** A handshake message whose message buffer has exactly
    [fragmentLength] octets survives serialisation: [toBuffer] writes the
    documented layout, and [fromBuffer] returns the same fields and
    consumes the 12 header octets and the message. *)
Theorem DtlsHandshakeMessage_round_trip
        (type length messageSequence fragmentOffset fragmentLength : Z)
        (messageBuffer : Buffer) (m : DtlsHandshakeMessage.t) :
  DtlsHandshakeMessage.createFromMessageBuffer
    type length messageSequence fragmentOffset fragmentLength messageBuffer = JS.Ok m ->
  Buf.len messageBuffer = fragmentLength ->
  DtlsHandshakeMessage.toBuffer m = JS.Ok (handshakeLayout m)
  /\ DtlsHandshakeMessage.fromBuffer (handshakeLayout m) None
     = JS.Ok (Some (m, 12 + fragmentLength)).
Proof.
  intros Hc Hm.
  destruct (createFromMessageBuffer_inv _ _ _ _ _ _ Hc)
    as (Ht & Hl & Hs & Ho & Hf & Hb & Hsum & ->).
  split.
  - apply DtlsHandshakeMessage_toBuffer_layout; assumption.
  - pose proof (valid_message_type_octet _ Ht) as Hty.
    unfold handshakeLayout.
    cbn [DtlsHandshakeMessage.messageType DtlsHandshakeMessage.length
         DtlsHandshakeMessage.messageSequence DtlsHandshakeMessage.fragmentOffset
         DtlsHandshakeMessage.fragmentLength DtlsHandshakeMessage.message Buf.ToUint8].
    rewrite (Z.mod_small type 256) by lia.
    pose proof (@DtlsHandshakeMessage_fromBuffer_layout
                  type length messageSequence fragmentOffset fragmentLength
                  messageBuffer [] Hl Hs Ho Hf Hm) as H.
    rewrite app_nil_r in H. exact H.
Qed.

(** A buffer too short for the 12 header octets, or for the message the
    header announces, is not parsed. *)
Lemma DtlsHandshakeMessage_fromBuffer_short
      (type length messageSequence fragmentOffset fragmentLength : Z) (tail : Buffer) :
  0 <= length < 2 ^ 24 -> 0 <= messageSequence < 2 ^ 16 ->
  0 <= fragmentOffset < 2 ^ 24 -> 0 <= fragmentLength < 2 ^ 24 ->
  Buf.len tail < fragmentLength ->
  DtlsHandshakeMessage.fromBuffer
    ([type] ++ Buf.beBytes 3 length ++ Buf.beBytes 2 messageSequence
     ++ Buf.beBytes 3 fragmentOffset ++ Buf.beBytes 3 fragmentLength ++ tail) None
  = JS.Ok None.
Proof.
  intros Hl Hs Ho Hf Hm.
  set (B := _ ++ _).
  assert (HB : Buf.len B = 12 + Buf.len tail).
  { unfold B. rewrite !len_app, !len_beBytes. unfold Buf.len in *. cbn [List.length]. lia. }
  pose proof (len_nonneg tail) as Hr.
  assert (F1 : Buf.readUIntBE B 1 3 = JS.Ok length)
    by (unfold B; apply readUIntBE_after; [reflexivity | pow_const; lia]).
  assert (F2 : Buf.readUIntBE B 4 2 = JS.Ok messageSequence).
  { unfold B. rewrite (app_assoc [_] (Buf.beBytes 3 length)).
    apply readUIntBE_after; [len_side | pow_const; lia]. }
  assert (F3 : Buf.readUIntBE B 6 3 = JS.Ok fragmentOffset).
  { unfold B. rewrite (app_assoc [_] (Buf.beBytes 3 length)).
    rewrite (app_assoc _ (Buf.beBytes 2 messageSequence)).
    apply readUIntBE_after; [len_side | pow_const; lia]. }
  assert (F4 : Buf.readUIntBE B 9 3 = JS.Ok fragmentLength).
  { unfold B. rewrite (app_assoc [_] (Buf.beBytes 3 length)).
    rewrite (app_assoc _ (Buf.beBytes 2 messageSequence)).
    rewrite (app_assoc _ (Buf.beBytes 3 fragmentOffset)).
    apply readUIntBE_after; [len_side | pow_const; lia]. }
  unfold DtlsHandshakeMessage.fromBuffer. cbn [initialOffsetOf JS.bind]. cbv zeta.
  unfold DtlsHandshakeMessage.HEADER_LENGTH, Buf.readUInt16BE. rewrite HB.
  destruct (12 + Buf.len tail - 0 <? 12) eqn:E1; [apply Z.ltb_lt in E1; lia|].
  change (0 + 1) with 1. change (1 + 3) with 4. change (4 + 2) with 6.
  change (6 + 3) with 9. change (9 + 3) with 12.
  rewrite F1. cbn [JS.bind]. rewrite F2. cbn [JS.bind]. rewrite F3. cbn [JS.bind].
  rewrite F4. cbn [JS.bind].
  destruct (12 + Buf.len tail - 12 <? fragmentLength) eqn:E2;
    [reflexivity | apply Z.ltb_ge in E2; lia].
Qed.

(** A truncated handshake message is not parsed: on every proper prefix
    of what [toBuffer] wrote, [fromBuffer] returns [null]. *)
Theorem DtlsHandshakeMessage_truncated
        (type length messageSequence fragmentOffset fragmentLength : Z)
        (messageBuffer : Buffer) (m : DtlsHandshakeMessage.t) (k : nat) :
  DtlsHandshakeMessage.createFromMessageBuffer
    type length messageSequence fragmentOffset fragmentLength messageBuffer = JS.Ok m ->
  Buf.len messageBuffer = fragmentLength ->
  (k < List.length (handshakeLayout m))%nat ->
  DtlsHandshakeMessage.fromBuffer (firstn k (handshakeLayout m)) None = JS.Ok None.
Proof.
  intros Hc Hm Hk.
  destruct (createFromMessageBuffer_inv _ _ _ _ _ _ Hc)
    as (Ht & Hl & Hs & Ho & Hf & Hb & Hsum & ->).
  unfold handshakeLayout in *.
  cbn [DtlsHandshakeMessage.messageType DtlsHandshakeMessage.length
       DtlsHandshakeMessage.messageSequence DtlsHandshakeMessage.fragmentOffset
       DtlsHandshakeMessage.fragmentLength DtlsHandshakeMessage.message] in *.
  set (hdr := [Buf.ToUint8 (JS.Num type)] ++ Buf.beBytes 3 length
              ++ Buf.beBytes 2 messageSequence ++ Buf.beBytes 3 fragmentOffset
              ++ Buf.beBytes 3 fragmentLength).
  assert (Hh : List.length hdr = 12%nat).
  { unfold hdr. rewrite !length_app, !beBytes_length. reflexivity. }
  assert (Heq : [Buf.ToUint8 (JS.Num type)] ++ Buf.beBytes 3 length
                ++ Buf.beBytes 2 messageSequence ++ Buf.beBytes 3 fragmentOffset
                ++ Buf.beBytes 3 fragmentLength ++ messageBuffer = hdr ++ messageBuffer).
  { unfold hdr. rewrite <- !app_assoc. reflexivity. }
  rewrite Heq in *. rewrite length_app, Hh in Hk.
  destruct (Nat.lt_ge_cases k 12) as [Hlt|Hge].
  - unfold DtlsHandshakeMessage.fromBuffer. cbn [initialOffsetOf JS.bind]. cbv zeta.
    unfold DtlsHandshakeMessage.HEADER_LENGTH.
    assert (Hlen : Buf.len (firstn k (hdr ++ messageBuffer)) = Z.of_nat k).
    { unfold Buf.len. rewrite length_firstn, length_app, Hh. lia. }
    rewrite Hlen.
    destruct (Z.of_nat k - 0 <? 12) eqn:E; [reflexivity | apply Z.ltb_ge in E; lia].
  - rewrite firstn_app, Hh, (firstn_all2 (n := k) hdr) by lia.
    unfold hdr. rewrite <- !app_assoc.
    apply DtlsHandshakeMessage_fromBuffer_short; try assumption.
    unfold Buf.len in *. rewrite length_firstn. lia.
Qed.

(** What [HelloVerifyRequestMessage.create] has checked when it
    returns, and the message it returns. *)
Lemma HelloVerifyRequestMessage_create_inv
      (serverVersion : Z) (cookie : option Buffer) (m : HelloVerifyRequestMessage.t) :
  HelloVerifyRequestMessage.create serverVersion cookie = JS.Ok m ->
  serverVersion = enums.DtlsVersion_DTLS_1_0
  /\ match cookie with
     | None => True
     | Some c => 0 < Buf.len c <= 32
     end
  /\ m = {| HelloVerifyRequestMessage.serverVersion := serverVersion;
            HelloVerifyRequestMessage.cookie := cookie |}.
Proof.
  unfold HelloVerifyRequestMessage.create, enums.isDtlsVersionValid.
  destruct (Z.eqb_spec serverVersion 65279) as [->|]; cbn [negb]; [|discriminate].
  destruct cookie as [c|].
  - pose proof (len_nonneg c).
    destruct (Z.eqb_spec (Buf.len c) 0); [discriminate|].
    change (enums.getMaximumCookieLength 65279) with (JS.Ok 32). cbn [JS.bind].
    destruct (Z.ltb_spec 32 (Buf.len c)); [discriminate|].
    rewrite copy_whole. intros Heq. injection Heq as <-.
    repeat split; lia.
  - intros Heq. injection Heq as <-. repeat split.
Qed.

(** A HelloVerifyRequest survives serialisation: [toBuffer] writes the
    documented layout and [fromBuffer] returns the version and the
    cookie ([null] when there is none) and consumes all octets. *)
Theorem HelloVerifyRequestMessage_round_trip
        (serverVersion : Z) (cookie : option Buffer) (m : HelloVerifyRequestMessage.t) :
  HelloVerifyRequestMessage.create serverVersion cookie = JS.Ok m ->
  HelloVerifyRequestMessage.toBuffer m
  = JS.Ok (helloVerifyRequestLayout serverVersion cookie)
  /\ HelloVerifyRequestMessage.fromBuffer (helloVerifyRequestLayout serverVersion cookie) None
     = JS.Ok (Some (m, Buf.len (helloVerifyRequestLayout serverVersion cookie))).
Proof.
  intros Hc.
  destruct (HelloVerifyRequestMessage_create_inv _ _ Hc) as (-> & Hk & ->).
  unfold helloVerifyRequestLayout, enums.DtlsVersion_DTLS_1_0 in *. change (Buf.beBytes 2 _) with [254; 255].
  destruct cookie as [c|].
  - pose proof (len_nonneg c) as Hn. split.
    + unfold HelloVerifyRequestMessage.toBuffer.
      cbn [HelloVerifyRequestMessage.serverVersion HelloVerifyRequestMessage.cookie].
      change (enums.isDtlsVersionValid 65279) with true.
      cbn [negb].
      destruct (Z.eqb_spec (Buf.len c) 0); [lia|].
      change (enums.getMaximumCookieLength 65279) with (JS.Ok 32).
      cbn [JS.bind].
      destruct (Z.ltb_spec 32 (Buf.len c)); [lia|]. cbn [JS.bind]. cbv zeta.
      unfold Buf.writeUInt16BE. rewrite alloc_filled.
      replace (Z.to_nat (2 + 1 + Buf.len c)) with (3 + length c)%nat
        by (unfold Buf.len; lia).
      fill_step. change (Buf.beBytes 2 _) with [254; 255].
      fill_step. fill_step.
      replace (_ - length c)%nat with 0%nat by lia.
      rewrite filled_done. cbn [app]. rewrite Z.mod_small by lia. reflexivity.
    + set (B := _ ++ _).
      assert (HB : Buf.len B = 3 + Buf.len c) by (unfold B; len_side).
      unfold HelloVerifyRequestMessage.fromBuffer,
        SerializationHelper.ValidateDeserializationArguments,
        HelloVerifyRequestMessage.MIN_LENGTH.
      cbn [Z.ltb Z.compare JS.bind]. rewrite HB.
      destruct (Z.ltb_spec (3 + Buf.len c - 0) 3); [lia|]. cbn [negb]. cbv zeta.
      assert (F1 : Buf.readUInt16BE B 0 = JS.Ok 65279).
      { change B with ([] ++ Buf.beBytes 2 65279 ++ ([Buf.len c] ++ c)).
        apply readUIntBE_after; [reflexivity | pow_const; lia]. }
      assert (F2 : Buf.get B (0 + 2) = Some (Buf.len c)).
      { change B with ([254; 255] ++ Buf.len c :: c). apply get_after. reflexivity. }
      rewrite F1. cbn [JS.bind].
      destruct (Z.ltb_spec (3 + Buf.len c - (0 + 2)) 1); [lia|].
      rewrite F2.
      destruct (Z.ltb_spec (3 + Buf.len c - (0 + 2 + 1)) (Buf.len c)); [lia|].
      destruct (Z.eqb_spec (Buf.len c) 0); [lia|].
      assert (F : Buf.copy B (Buf.alloc (Buf.len c)) 0 (0 + 2 + 1) (0 + 2 + 1 + Buf.len c) = c).
      { pose proof (@copy_out [254; 255; Buf.len c] c [] 3 (Buf.len c) eq_refl eq_refl) as Hx.
        rewrite app_nil_r in Hx. exact Hx. }
      rewrite F.
      replace (0 + 2 + 1 + Buf.len c - 0) with (3 + Buf.len c) by lia. reflexivity.
  - split; reflexivity.
Qed.

(** A ClientKeyExchange survives serialisation: [toBuffer] writes the
    identity length on two octets and the identity, [fromBuffer] returns
    the identity and consumes all octets. *)
Theorem PskClientKeyExchangeMessage_round_trip
        (identity : Buffer) (m : PskClientKeyExchangeMessage.t) :
  PskClientKeyExchangeMessage.create identity = JS.Ok m ->
  PskClientKeyExchangeMessage.toBuffer m = JS.Ok (clientKeyExchangeBody identity)
  /\ PskClientKeyExchangeMessage.fromBuffer (clientKeyExchangeBody identity) None
     = JS.Ok (Some (m, 2 + Buf.len identity)).
Proof.
  intros Hc. pose proof (len_nonneg identity) as Hn.
  assert (Hi : (Buf.len identity <= 2 ^ 16 - 1) /\
               (m = {| PskClientKeyExchangeMessage.identity := identity |})).
  { revert Hc. unfold PskClientKeyExchangeMessage.create,
      PskClientKeyExchangeMessage.MAX_IDENTITY_LENGTH.
    destruct (Z.ltb_spec (2 ^ 16 - 1) (Buf.len identity)); [discriminate|].
    rewrite copy_whole. intros Heq. injection Heq as <-. split; [lia | reflexivity]. }
  destruct Hi as (Hi & ->). split.
  - pose proof (@PskClientKeyExchange_toBuffer identity Hi) as H.
    rewrite Hc in H. exact H.
  - unfold clientKeyExchangeBody. set (B := _ ++ _).
    assert (HB : Buf.len B = 2 + Buf.len identity) by (unfold B; len_side).
    assert (F1 : Buf.readUInt16BE B 0 = JS.Ok (Buf.len identity)).
    { change B with ([] ++ Buf.beBytes 2 (Buf.len identity) ++ identity).
      apply readUIntBE_after; [reflexivity | pow_const; lia]. }
    assert (F2 : Buf.copy B (Buf.alloc (Buf.len identity)) 0 (0 + 2) (0 + 2 + Buf.len identity)
                 = identity).
    { pose proof (@copy_out (Buf.beBytes 2 (Buf.len identity)) identity [] 2
                            (Buf.len identity)) as Hx.
      rewrite app_nil_r in Hx. apply Hx; [rewrite len_beBytes|]; reflexivity. }
    unfold PskClientKeyExchangeMessage.fromBuffer,
      SerializationHelper.ValidateDeserializationArguments,
      PskClientKeyExchangeMessage.MIN_LENGTH.
    cbn [Z.ltb Z.compare JS.bind]. rewrite HB.
    destruct (Z.ltb_spec (2 + Buf.len identity - 0) 2); [lia|]. cbn [negb]. cbv zeta.
    rewrite F1. cbn [JS.bind].
    destruct (Z.ltb_spec (2 + Buf.len identity - (0 + 2)) (Buf.len identity)); [lia|].
    rewrite F2.
    replace (0 + 2 + Buf.len identity - 0) with (2 + Buf.len identity) by lia.
    reflexivity.
Qed.

(** [FinishedMessage.fromBuffer] reads twelve octets. *)
Lemma FinishedMessage_fromBuffer_twelve (verifyData rest : Buffer) :
  Buf.len verifyData = 12 ->
  FinishedMessage.fromBuffer (verifyData ++ rest) None
  = JS.Ok (Some ({| FinishedMessage.verifyData := verifyData |}, 12)).
Proof.
  intros Hi. pose proof (len_nonneg rest) as Hr.
  unfold FinishedMessage.fromBuffer,
    SerializationHelper.ValidateDeserializationArguments,
    FinishedMessage.MIN_LENGTH, FinishedMessage.VERIFY_DATA_LENGTH.
  cbn [Z.ltb Z.compare JS.bind]. rewrite len_app, Hi.
  destruct (Z.ltb_spec (12 + Buf.len rest - 0) 12); [lia|]. cbn [negb]. cbv zeta.
  pose proof (@copy_out [] verifyData rest 0 12 eq_refl (eq_sym Hi)) as Hx.
  cbn [app] in Hx. change (0 + 12) with 12 in *. rewrite Hx. reflexivity.
Qed.

(** A Finished message survives serialisation, and [fromBuffer] reads
    the twelve octets of verify data whatever follows them. *)
Theorem FinishedMessage_round_trip
        (verifyData rest : Buffer) (m : FinishedMessage.t) :
  FinishedMessage.create verifyData = JS.Ok m ->
  FinishedMessage.toBuffer m = JS.Ok verifyData
  /\ FinishedMessage.fromBuffer (verifyData ++ rest) None = JS.Ok (Some (m, 12)).
Proof.
  intros Hc. pose proof (len_nonneg rest) as Hr.
  assert (Hi : (Buf.len verifyData = 12) /\
               (m = {| FinishedMessage.verifyData := verifyData |})).
  { revert Hc. unfold FinishedMessage.create, FinishedMessage.VERIFY_DATA_LENGTH.
    destruct (Z.eqb_spec (Buf.len verifyData) 12); cbn [negb]; [|discriminate].
    rewrite copy_whole. intros Heq. injection Heq as <-. split; [lia | reflexivity]. }
  destruct Hi as (Hi & ->). split.
  - unfold FinishedMessage.toBuffer, FinishedMessage.VERIFY_DATA_LENGTH.
    cbn [FinishedMessage.verifyData]. rewrite Hi. cbn [Z.eqb negb Pos.eqb]. cbv zeta.
    change (0 + 12) with 12.
    pose proof (copy_whole verifyData) as H. rewrite Hi in H. rewrite H. reflexivity.
  - apply FinishedMessage_fromBuffer_twelve. assumption.
Qed.

(** [ServerHelloMessage.fromBuffer] on the documented layout. *)
Lemma ServerHelloMessage_fromBuffer_fields
      (dtlsVersion cipherSuite compressionMethod : Z) (random sessionId : Buffer) :
  0 <= dtlsVersion < 2 ^ 16 -> 0 <= cipherSuite < 2 ^ 16 ->
  Buf.len random = 32 -> 2 <= Buf.len sessionId ->
  ServerHelloMessage.fromBuffer
    (serverHelloLayout dtlsVersion random sessionId cipherSuite compressionMethod) None
  = JS.Ok (Some ({| ServerHelloMessage.dtlsVersion := dtlsVersion;
                    ServerHelloMessage.random := random;
                    ServerHelloMessage.sessionId := sessionId;
                    ServerHelloMessage.cipherSuite := cipherSuite;
                    ServerHelloMessage.compressionMethod := JS.Num compressionMethod |},
                 38 + Buf.len sessionId)).
Proof.
  intros Hv Hs Hr Hi. unfold serverHelloLayout. set (B := _ ++ _).
  assert (HB : Buf.len B = 38 + Buf.len sessionId).
  { unfold B. rewrite !len_app, !len_beBytes, Hr. unfold Buf.len. cbn [length]. lia. }
  assert (F1 : Buf.readUInt16BE B 0 = JS.Ok dtlsVersion).
  { unfold B. apply (@readUIntBE_after [] 2 dtlsVersion _ 0); [reflexivity | pow_const; lia]. }
  assert (F2 : Buf.copy B (Buf.alloc 32) 0 2 (2 + 32) = random).
  { unfold B. apply copy_out; [rewrite len_beBytes; reflexivity | auto]. }
  assert (F3 : Buf.get B 34 = Some (Buf.len sessionId)).
  { unfold B. rewrite (app_assoc (Buf.beBytes 2 dtlsVersion)).
    apply get_after. rewrite len_app, len_beBytes, Hr. reflexivity. }
  assert (F4 : Buf.copy B (Buf.alloc (Buf.len sessionId)) 0 35 (35 + Buf.len sessionId)
               = sessionId).
  { unfold B. rewrite (app_assoc (Buf.beBytes 2 dtlsVersion)).
    rewrite (app_assoc _ [_]).
    apply copy_out; [|reflexivity].
    rewrite !len_app, len_beBytes, Hr. reflexivity. }
  assert (F5 : Buf.readUInt16BE B (35 + Buf.len sessionId) = JS.Ok cipherSuite).
  { unfold B. rewrite (app_assoc (Buf.beBytes 2 dtlsVersion)).
    rewrite (app_assoc _ [_]). rewrite (app_assoc _ sessionId).
    apply readUIntBE_after; [|pow_const; lia].
    rewrite !len_app, len_beBytes, Hr. unfold Buf.len. cbn [length]. lia. }
  assert (F6 : Buf.index B (35 + Buf.len sessionId + 2) = JS.Num compressionMethod).
  { unfold B. rewrite (app_assoc (Buf.beBytes 2 dtlsVersion)).
    rewrite (app_assoc _ [_]). rewrite (app_assoc _ sessionId).
    rewrite (app_assoc _ (Buf.beBytes 2 cipherSuite)).
    apply index_after.
    rewrite !len_app, !len_beBytes, Hr. unfold Buf.len. cbn [length]. lia. }
  unfold ServerHelloMessage.fromBuffer, ServerHelloMessage.MIN_LENGTH,
    ServerHelloMessage.RANDOM_LENGTH.
  cbn [initialOffsetOf JS.bind]. cbv zeta. rewrite HB.
  destruct (Z.ltb_spec (38 + Buf.len sessionId - 0) 40); [lia|].
  rewrite F1. cbn [JS.bind].
  change (0 + 2) with 2. change (2 + 32) with 34 in *. rewrite F3.
  change (34 + 1) with 35. rewrite F2, F4, F5. cbn [JS.bind]. rewrite F6.
  replace (35 + Buf.len sessionId + 2 + 1 - 0) with (38 + Buf.len sessionId) by lia.
  reflexivity.
Qed.

(** [ServerHelloMessage.fromBuffer] on the documented layout, when the
    session id has at least two octets: every field is returned, the
    whole message is consumed, and the octets consumed are those the
    layout has. *)
Theorem ServerHelloMessage_fromBuffer_layout
        (dtlsVersion cipherSuite compressionMethod : Z) (random sessionId : Buffer) :
  0 <= dtlsVersion < 2 ^ 16 -> 0 <= cipherSuite < 2 ^ 16 ->
  Buf.len random = 32 -> 2 <= Buf.len sessionId ->
  ServerHelloMessage.fromBuffer
    (serverHelloLayout dtlsVersion random sessionId cipherSuite compressionMethod) None
  = JS.Ok (Some ({| ServerHelloMessage.dtlsVersion := dtlsVersion;
                    ServerHelloMessage.random := random;
                    ServerHelloMessage.sessionId := sessionId;
                    ServerHelloMessage.cipherSuite := cipherSuite;
                    ServerHelloMessage.compressionMethod := JS.Num compressionMethod |},
                 Buf.len (serverHelloLayout dtlsVersion random sessionId cipherSuite
                                            compressionMethod))).
Proof.
  intros Hv Hs Hr Hi.
  rewrite ServerHelloMessage_fromBuffer_fields by assumption.
  do 3 f_equal. unfold serverHelloLayout.
  rewrite !len_app, !len_beBytes, Hr. unfold Buf.len. cbn [length]. lia.
Qed.

(** A ServerHello whose session id has fewer than two octets is shorter
    than the 40 octets [fromBuffer] asks for, and is not parsed. *)
Theorem ServerHelloMessage_short_session_id
        (dtlsVersion cipherSuite compressionMethod : Z) (random sessionId : Buffer) :
  Buf.len random = 32 -> Buf.len sessionId < 2 ->
  ServerHelloMessage.fromBuffer
    (serverHelloLayout dtlsVersion random sessionId cipherSuite compressionMethod) None
  = JS.Ok None.
Proof.
  intros Hr Hi. unfold ServerHelloMessage.fromBuffer, ServerHelloMessage.MIN_LENGTH.
  cbn [initialOffsetOf JS.bind]. cbv zeta.
  assert (HB : Buf.len (serverHelloLayout dtlsVersion random sessionId cipherSuite
                                          compressionMethod) = 38 + Buf.len sessionId).
  { unfold serverHelloLayout. rewrite !len_app, !len_beBytes, Hr.
    unfold Buf.len. cbn [length]. lia. }
  rewrite HB. destruct (Z.ltb_spec (38 + Buf.len sessionId - 0) 40); [reflexivity | lia].
Qed.

Lemma len_flat_map_beBytes (n : nat) (l : list Z) :
  Buf.len (flat_map (Buf.beBytes n) l) = Z.of_nat n * Buf.len l.
Proof.
  induction l as [|x l IH]; [unfold Buf.len; cbn; lia|].
  cbn [flat_map]. rewrite len_app, len_beBytes, IH. unfold Buf.len. cbn [length]. lia.
Qed.

(** The two loops of [ClientHelloMessage.toBuffer] on a buffer under
    construction. *)
Lemma writeEach_UInt16BE_filled (l : list Z) (p : Buffer) (k : nat) (off : Z) :
  off = Buf.len p -> (2 * length l <= k)%nat ->
  Forall (fun x => 0 <= x < 2 ^ 16) l ->
  ClientHelloMessage.writeEach Buf.writeUInt16BE 2 l (filled p k) off
  = JS.Ok (filled (p ++ flat_map (Buf.beBytes 2) l) (k - 2 * length l),
           off + 2 * Buf.len l).
Proof.
  revert p k off. induction l as [|x l IH]; intros p k off Ho Hk Hf.
  - cbn [ClientHelloMessage.writeEach flat_map length]. rewrite app_nil_r.
    do 2 f_equal; [f_equal; lia | unfold Buf.len; cbn [length]; lia].
  - inversion Hf as [|? ? Hx Hl]; subst. cbn [length] in Hk.
    cbn [ClientHelloMessage.writeEach flat_map]. unfold Buf.writeUInt16BE at 1.
    rewrite writeUIntBE_filled; [|reflexivity|lia|pow_const; lia].
    cbn [JS.bind]. rewrite IH; [|len_side|lia|assumption].
    rewrite <- app_assoc. cbn [length].
    do 2 f_equal; [f_equal; lia | unfold Buf.len; cbn [length]; lia].
Qed.

Lemma writeEach_store_filled (l : list Z) (p : Buffer) (k : nat) (off : Z) :
  off = Buf.len p -> (length l <= k)%nat ->
  ClientHelloMessage.writeEach (fun b v o => JS.Ok (Buf.store b o v)) 1 l (filled p k) off
  = JS.Ok (filled (p ++ map (fun v => v mod 256) l) (k - length l), off + Buf.len l).
Proof.
  revert p k off. induction l as [|x l IH]; intros p k off Ho Hk.
  - cbn [ClientHelloMessage.writeEach map length]. rewrite app_nil_r.
    do 2 f_equal; [f_equal; lia | unfold Buf.len; cbn [length]; lia].
  - cbn [length] in Hk. cbn [ClientHelloMessage.writeEach map JS.bind].
    rewrite store_filled; [|assumption|lia].
    rewrite IH; [|len_side|lia].
    rewrite <- app_assoc. cbn [length].
    do 2 f_equal; [f_equal; lia | unfold Buf.len; cbn [length]; lia].
Qed.

(** What [ClientHelloMessage.toBuffer] writes for a message without
    session id and cookie. *)
Lemma ClientHelloMessage_toBuffer_plain
      (dtlsVersion : Z) (random : Buffer) (cipherSuites compressionMethods : list Z) :
  0 <= dtlsVersion < 2 ^ 16 -> Buf.len random = 32 ->
  Forall (fun x => 0 <= x < 2 ^ 16) cipherSuites ->
  Buf.len cipherSuites * 2 < 2 ^ 16 ->
  ClientHelloMessage.toBuffer
    {| ClientHelloMessage.dtlsVersion := dtlsVersion;
       ClientHelloMessage.random := random;
       ClientHelloMessage.sessionId := None;
       ClientHelloMessage.cookie := None;
       ClientHelloMessage.cipherSuites := cipherSuites;
       ClientHelloMessage.compressionMethods := compressionMethods |}
  = JS.Ok (clientHelloLayout dtlsVersion random cipherSuites compressionMethods).
Proof.
  intros Hv Hr Hs Hn.
  pose proof (len_nonneg cipherSuites) as H1.
  pose proof (len_nonneg compressionMethods) as H2.
  unfold ClientHelloMessage.toBuffer, clientHelloLayout, ClientHelloMessage.RANDOM_LENGTH.
  cbn [ClientHelloMessage.sessionId ClientHelloMessage.cookie ClientHelloMessage.dtlsVersion
       ClientHelloMessage.random ClientHelloMessage.cipherSuites
       ClientHelloMessage.compressionMethods].
  cbv zeta. unfold Buf.writeUInt16BE at 1 2. rewrite alloc_filled.
  replace (Z.to_nat _)
    with (38 + 2 * length cipherSuites + (1 + length compressionMethods))%nat
    by (unfold Buf.len; lia).
  fill_step. fill_step. fill_step. fill_step. fill_step.
  rewrite writeEach_UInt16BE_filled; [|len_side|len_side|assumption].
  cbn [JS.bind].
  pose proof (len_flat_map_beBytes 2 cipherSuites) as H3.
  rewrite store_filled; [|rewrite len_app, H3; len_side|len_side].
  rewrite writeEach_store_filled; [|rewrite !len_app, H3; len_side|len_side].
  cbn [JS.bind].
  replace (_ - length compressionMethods)%nat with 0%nat by (unfold Buf.len in *; lia).
  rewrite filled_done. cbn [app]. rewrite <- !app_assoc. cbn [app].
  rewrite !Z.mod_0_l by lia. reflexivity.
Qed.

(** The first ClientHello of a handshake (no session id, no cookie):
    [create] accepts DTLS 1.0, a random of 32 octets and at least one
    compression method, and [toBuffer] writes the documented layout,
    with every cipher suite on two octets and every compression method
    on one. *)
Theorem ClientHelloMessage_toBuffer_layout
        (dtlsVersion : Z) (random : Buffer) (cipherSuites compressionMethods : list Z)
        (m : ClientHelloMessage.t) :
  ClientHelloMessage.create dtlsVersion random None None cipherSuites compressionMethods
  = JS.Ok m ->
  Forall (fun x => 0 <= x < 2 ^ 16) cipherSuites ->
  Buf.len cipherSuites * 2 < 2 ^ 16 ->
  dtlsVersion = enums.DtlsVersion_DTLS_1_0 /\ Buf.len random = 32
  /\ compressionMethods <> []
  /\ ClientHelloMessage.toBuffer m
     = JS.Ok (clientHelloLayout dtlsVersion random cipherSuites compressionMethods).
Proof.
  intros Hc Hs Hn. revert Hc.
  unfold ClientHelloMessage.create, enums.isDtlsVersionValid,
    ClientHelloMessage.RANDOM_LENGTH.
  destruct (Z.eqb_spec dtlsVersion 65279) as [->|]; cbn [negb]; [|discriminate].
  destruct (Z.eqb_spec (Buf.len random) 32) as [Hr|]; cbn [negb JS.bind]; [|discriminate].
  destruct (Z.eqb_spec (Buf.len compressionMethods) 0) as [|Hne]; [discriminate|].
  intros Heq. injection Heq as <-.
  split; [reflexivity|]. split; [assumption|]. split.
  - intros ->. apply Hne. reflexivity.
  - apply ClientHelloMessage_toBuffer_plain; auto. lia.
Qed.

End Codecs.

Lemma DtlsApplicationDataMessage_fromBuffer_offset_witness :
  DtlsApplicationDataMessage.fromBuffer [1; 2; 3; 4; 5] (Some 2%nat)
  = JS.Ok (Some ({| DtlsApplicationDataMessage.data := [1; 2; 3] |}, 3)).
Proof.
  exact (@DtlsApplicationDataMessage_fromBuffer_offset [1; 2; 3; 4; 5] 2
           ltac:(cbn [length]; lia)).
Defined.

Lemma DtlsHandshakeMessage_round_trip_witness :
  DtlsHandshakeMessage.toBuffer
    {| DtlsHandshakeMessage.messageType := JS.Num enums.MessageType_Finished;
       DtlsHandshakeMessage.length := 3;
       DtlsHandshakeMessage.messageSequence := 2;
       DtlsHandshakeMessage.fragmentOffset := 0;
       DtlsHandshakeMessage.fragmentLength := 3;
       DtlsHandshakeMessage.message := [7; 8; 9] |}
  = JS.Ok [20; 0; 0; 3; 0; 2; 0; 0; 0; 0; 0; 3; 7; 8; 9]
  /\ DtlsHandshakeMessage.fromBuffer [20; 0; 0; 3; 0; 2; 0; 0; 0; 0; 0; 3; 7; 8; 9] None
     = JS.Ok (Some ({| DtlsHandshakeMessage.messageType := JS.Num enums.MessageType_Finished;
                       DtlsHandshakeMessage.length := 3;
                       DtlsHandshakeMessage.messageSequence := 2;
                       DtlsHandshakeMessage.fragmentOffset := 0;
                       DtlsHandshakeMessage.fragmentLength := 3;
                       DtlsHandshakeMessage.message := [7; 8; 9] |}, 15)).
Proof.
  exact (@DtlsHandshakeMessage_round_trip enums.MessageType_Finished 3 2 0 3 [7; 8; 9] _
           eq_refl eq_refl).
Defined.

Lemma DtlsHandshakeMessage_truncated_witness :
  DtlsHandshakeMessage.fromBuffer [20; 0; 0; 3; 0; 2; 0; 0; 0; 0; 0; 3; 7; 8] None
  = JS.Ok None.
Proof.
  exact (@DtlsHandshakeMessage_truncated enums.MessageType_Finished 3 2 0 3 [7; 8; 9] _ 14
           eq_refl eq_refl ltac:(vm_compute; lia)).
Defined.

Lemma HelloVerifyRequestMessage_round_trip_witness :
  HelloVerifyRequestMessage.toBuffer
    {| HelloVerifyRequestMessage.serverVersion := 65279;
       HelloVerifyRequestMessage.cookie := Some [222; 173; 190; 239] |}
  = JS.Ok [254; 255; 4; 222; 173; 190; 239]
  /\ HelloVerifyRequestMessage.fromBuffer [254; 255; 4; 222; 173; 190; 239] None
     = JS.Ok (Some ({| HelloVerifyRequestMessage.serverVersion := 65279;
                       HelloVerifyRequestMessage.cookie := Some [222; 173; 190; 239] |}, 7)).
Proof.
  exact (@HelloVerifyRequestMessage_round_trip 65279 (Some [222; 173; 190; 239]) _ eq_refl).
Defined.

Lemma PskClientKeyExchangeMessage_round_trip_witness :
  PskClientKeyExchangeMessage.toBuffer {| PskClientKeyExchangeMessage.identity := [105; 100] |}
  = JS.Ok [0; 2; 105; 100]
  /\ PskClientKeyExchangeMessage.fromBuffer [0; 2; 105; 100] None
     = JS.Ok (Some ({| PskClientKeyExchangeMessage.identity := [105; 100] |}, 4)).
Proof.
  exact (@PskClientKeyExchangeMessage_round_trip [105; 100] _ eq_refl).
Defined.

Lemma FinishedMessage_round_trip_witness :
  FinishedMessage.toBuffer
    {| FinishedMessage.verifyData := [1; 2; 3; 4; 5; 6; 7; 8; 9; 10; 11; 12] |}
  = JS.Ok [1; 2; 3; 4; 5; 6; 7; 8; 9; 10; 11; 12]
  /\ FinishedMessage.fromBuffer ([1; 2; 3; 4; 5; 6; 7; 8; 9; 10; 11; 12] ++ [99]) None
     = JS.Ok (Some ({| FinishedMessage.verifyData :=
                         [1; 2; 3; 4; 5; 6; 7; 8; 9; 10; 11; 12] |}, 12)).
Proof.
  exact (@FinishedMessage_round_trip [1; 2; 3; 4; 5; 6; 7; 8; 9; 10; 11; 12] [99] _ eq_refl).
Defined.

Lemma ServerHelloMessage_fromBuffer_layout_witness :
  ServerHelloMessage.fromBuffer
    (serverHelloLayout 65279 (repeat 7 32) [1; 2] 140 0) None
  = JS.Ok (Some ({| ServerHelloMessage.dtlsVersion := 65279;
                    ServerHelloMessage.random := repeat 7 32;
                    ServerHelloMessage.sessionId := [1; 2];
                    ServerHelloMessage.cipherSuite := 140;
                    ServerHelloMessage.compressionMethod := JS.Num 0 |},
                 Buf.len (serverHelloLayout 65279 (repeat 7 32) [1; 2] 140 0))).
Proof.
  exact (@ServerHelloMessage_fromBuffer_layout 65279 140 0 (repeat 7 32) [1; 2]
           ltac:(lia) ltac:(lia) eq_refl ltac:(vm_compute; discriminate)).
Defined.

Lemma ServerHelloMessage_short_session_id_witness :
  ServerHelloMessage.fromBuffer (serverHelloLayout 65279 (repeat 7 32) [] 140 0) None
  = JS.Ok None.
Proof.
  exact (@ServerHelloMessage_short_session_id 65279 140 0 (repeat 7 32) []
           eq_refl ltac:(vm_compute; reflexivity)).
Defined.

Lemma ClientHelloMessage_toBuffer_layout_witness :
  65279 = enums.DtlsVersion_DTLS_1_0 /\ Buf.len (repeat 7 32) = 32
  /\ DtlsSession.supportedCompressionMethods <> []
  /\ ClientHelloMessage.toBuffer
       {| ClientHelloMessage.dtlsVersion := 65279;
          ClientHelloMessage.random := repeat 7 32;
          ClientHelloMessage.sessionId := None;
          ClientHelloMessage.cookie := None;
          ClientHelloMessage.cipherSuites := DtlsSession.supportedCipherSuites;
          ClientHelloMessage.compressionMethods := DtlsSession.supportedCompressionMethods |}
     = JS.Ok (clientHelloLayout 65279 (repeat 7 32) DtlsSession.supportedCipherSuites
                                DtlsSession.supportedCompressionMethods).
Proof.
  refine (@ClientHelloMessage_toBuffer_layout
            65279 (repeat 7 32) DtlsSession.supportedCipherSuites
            DtlsSession.supportedCompressionMethods _ eq_refl _ _).
  - repeat constructor; vm_compute; intuition discriminate.
  - vm_compute. reflexivity.
Defined.

(** ** CryptoUtils: the expansion function and the premaster secret *)

Section Expansion.

Context {C : Crypto} {L : CryptoLaws C}.

Lemma digestSize_pos (a : HashAlgorithm) : 16 <= digestSize a.
Proof. destruct a; simpl; lia. Qed.

Lemma len_P_blocks (k : nat) secret seed alg data :
  Buf.len (P_blocks k secret seed alg data) = Z.of_nat k * digestSize alg.
Proof.
  revert data. induction k as [|k IH]; intros data.
  - reflexivity.
  - cbn [P_blocks]. cbv zeta. rewrite len_app, createHmac_length, IH. lia.
Qed.

(** The blocks for a larger count extend those for a smaller one. *)
Lemma P_blocks_prefix (j k : nat) secret seed alg data :
  (j <= k)%nat ->
  exists rest, P_blocks k secret seed alg data = P_blocks j secret seed alg data ++ rest.
Proof.
  revert k data. induction j as [|j IH]; intros k data Hjk.
  - eexists. reflexivity.
  - destruct k as [|k]; [lia|]. cbn [P_blocks]. cbv zeta.
    destruct (IH k (createHmac alg secret data) ltac:(lia)) as (rest & ->).
    exists rest. rewrite app_assoc. reflexivity.
Qed.

(** The loop of [P_hash] appends whole blocks, and stops only when the
    result is long enough or the fuel is used up. *)
Lemma P_hash_loop_blocks (fuel : nat) secret seed n alg result data :
  exists j, (j <= fuel)%nat
    /\ CryptoUtils.P_hash_loop fuel secret seed n alg result data
       = result ++ P_blocks j secret seed alg data
    /\ (n <= Buf.len (result ++ P_blocks j secret seed alg data) \/ j = fuel).
Proof.
  revert result data. induction fuel as [|fuel IH]; intros result data.
  - exists 0%nat. cbn. rewrite app_nil_r. auto.
  - cbn [CryptoUtils.P_hash_loop].
    destruct (Z.ltb_spec (Buf.len result) n) as [Hlt|Hge].
    + cbv zeta.
      destruct (IH (result ++ createHmac alg secret (createHmac alg secret data ++ seed))
                   (createHmac alg secret data)) as (j & Hj & Heq & Hstop).
      exists (S j). cbn [P_blocks]. cbv zeta. rewrite app_assoc.
      split; [lia|]. split; [exact Heq|]. destruct Hstop; [left; assumption | right; lia].
    + exists 0%nat. cbn [P_blocks]. rewrite app_nil_r. split; [lia|]. split; auto.
Qed.

(** [P_hash] returns the first [outputLength] octets of the block
    stream. *)
Lemma P_hash_stream secret seed n alg (k : nat) :
  0 <= n -> n <= Z.of_nat k * digestSize alg ->
  CryptoUtils.P_hash secret seed n alg
  = JS.Ok (firstn (Z.to_nat n) (P_blocks k secret seed alg seed)).
Proof.
  intros Hn Hk. unfold CryptoUtils.P_hash. cbv zeta.
  destruct (P_hash_loop_blocks (S (Z.to_nat n)) secret seed n alg (Buf.alloc 0) seed)
    as (j & Hj & Heq & Hstop).
  rewrite Heq. change (Buf.alloc 0) with (@nil Z). cbn [app] in *.
  assert (Hlong : n <= Buf.len (P_blocks j secret seed alg seed)).
  { destruct Hstop as [Hs|Hs]; [assumption | subst j].
    rewrite len_P_blocks. pose proof (digestSize_pos alg). nia. }
  assert (Hpre : firstn (Z.to_nat n) (P_blocks j secret seed alg seed)
                 = firstn (Z.to_nat n) (P_blocks k secret seed alg seed)).
  { destruct (Nat.le_ge_cases j k) as [Hjk|Hkj].
    - destruct (P_blocks_prefix secret seed alg seed Hjk) as (rest & ->).
      rewrite firstn_app.
      replace (Z.to_nat n - length (P_blocks j secret seed alg seed))%nat with 0%nat
        by (unfold Buf.len in Hlong; lia).
      cbn [firstn]. rewrite app_nil_r. reflexivity.
    - destruct (P_blocks_prefix secret seed alg seed Hkj) as (rest & ->).
      rewrite firstn_app.
      replace (Z.to_nat n - length (P_blocks k secret seed alg seed))%nat with 0%nat.
      + cbn [firstn]. rewrite app_nil_r. reflexivity.
      + pose proof (len_P_blocks k secret seed alg seed) as Hl. unfold Buf.len in Hl. lia. }
  rewrite <- Hpre.
  destruct (Z.ltb_spec n (Buf.len (P_blocks j secret seed alg seed))) as [Hlt|Hge].
  - destruct (Z.ltb_spec n 0); [lia|]. f_equal. apply copy_prefix. lia.
  - rewrite firstn_all2; [reflexivity | unfold Buf.len in *; lia].
Qed.

(** Asking [P_hash] for fewer octets gives a prefix of what it returns
    for more. *)
Lemma P_hash_prefix secret seed alg (n m : Z) :
  0 <= n <= m ->
  exists longer,
    CryptoUtils.P_hash secret seed m alg = JS.Ok longer
    /\ Buf.len longer = m
    /\ CryptoUtils.P_hash secret seed n alg = JS.Ok (firstn (Z.to_nat n) longer).
Proof.
  intros Hnm. pose proof (digestSize_pos alg) as Hd.
  destruct (@P_hash_length C L secret seed m alg ltac:(lia)) as (longer & Hm & Hl).
  exists longer. split; [exact Hm|]. split; [exact Hl|].
  rewrite (@P_hash_stream secret seed m alg (Z.to_nat m)) in Hm by nia.
  injection Hm as <-.
  rewrite (@P_hash_stream secret seed n alg (Z.to_nat m)) by nia.
  rewrite firstn_firstn. do 2 f_equal. lia.
Qed.

Lemma get_firstn (b : Buffer) (n : nat) (i : Z) :
  i < Z.of_nat n -> Buf.get (firstn n b) i = Buf.get b i.
Proof.
  intros Hi. unfold Buf.get. destruct (Z.ltb_spec i 0); [reflexivity|].
  rewrite nth_error_firstn.
  destruct (Nat.ltb_spec (Z.to_nat i) n); [reflexivity | lia].
Qed.

Lemma firstn_seq (n start len : nat) :
  firstn n (seq start len) = seq start (Nat.min n len).
Proof.
  revert start len. induction n as [|n IH]; intros start [|len]; cbn; auto.
  f_equal. apply IH.
Qed.

(** [xorBuffers] works octet by octet, so it commutes with taking a
    prefix. *)
Lemma xorBuffers_firstn (a b : Buffer) (n : nat) :
  (n <= length a)%nat ->
  CryptoUtils.xorBuffers (firstn n a) (firstn n b) = firstn n (CryptoUtils.xorBuffers a b).
Proof.
  intros Hn. unfold CryptoUtils.xorBuffers.
  rewrite firstn_map, firstn_seq, length_firstn, (Nat.min_l n (length a)) by lia.
  apply map_ext_in. intros i Hi. apply in_seq in Hi.
  rewrite !get_firstn by lia. reflexivity.
Qed.

Lemma xorBuffers_octets (a b : Buffer) : octets (CryptoUtils.xorBuffers a b).
Proof.
  unfold octets, CryptoUtils.xorBuffers. apply Forall_map, Forall_forall.
  intros i _. apply Z.mod_pos_bound. lia.
Qed.

(** With the crypto module loaded, [PRF] returns exactly [outputLength]
    octets, whatever the secret, the label and the seed are; without it,
    [PRF] returns [null]. *)
Theorem PRF_output_length (secret : Buffer) (label : string) (seed : Buffer)
        (outputLength : Z) :
  0 <= outputLength ->
  (cryptoLoads = true ->
   exists out, CryptoUtils.PRF secret label seed outputLength = JS.Ok (Some out)
               /\ Buf.len out = outputLength /\ octets out)
  /\ (cryptoLoads = false ->
      CryptoUtils.PRF secret label seed outputLength = JS.Ok None).
Proof.
  intros Hn. unfold CryptoUtils.PRF, CryptoUtils.verifyCrypto. split; intros ->; cbn [negb].
  - cbv zeta.
    destruct (@P_hash_length C L (CryptoUtils.secretFirstHalf secret)
                (Buf.ofString label ++ seed) outputLength md5 Hn) as (a & Ha & Hla).
    destruct (@P_hash_length C L (CryptoUtils.secretSecondHalf secret)
                (Buf.ofString label ++ seed) outputLength sha1 Hn) as (b & Hb & _).
    rewrite Ha, Hb. cbn [JS.bind].
    eexists. split; [reflexivity|]. split.
    + rewrite len_xorBuffers. exact Hla.
    + apply xorBuffers_octets.
  - reflexivity.
Qed.

(** The output of [PRF] for a shorter length is a prefix of its output
    for a longer one: the first octets of a key block do not depend on
    how many octets are asked for. *)
Theorem PRF_prefix (secret : Buffer) (label : string) (seed : Buffer) (n m : Z) :
  cryptoLoads = true -> 0 <= n <= m ->
  exists shorter longer,
    CryptoUtils.PRF secret label seed n = JS.Ok (Some shorter)
    /\ CryptoUtils.PRF secret label seed m = JS.Ok (Some longer)
    /\ shorter = firstn (Z.to_nat n) longer.
Proof.
  intros Hc Hnm. unfold CryptoUtils.PRF, CryptoUtils.verifyCrypto. rewrite Hc. cbn [negb].
  cbv zeta.
  destruct (@P_hash_prefix (CryptoUtils.secretFirstHalf secret)
              (Buf.ofString label ++ seed) md5 n m Hnm) as (a & Ham & Hla & Han).
  destruct (@P_hash_prefix (CryptoUtils.secretSecondHalf secret)
              (Buf.ofString label ++ seed) sha1 n m Hnm) as (b & Hbm & _ & Hbn).
  rewrite Ham, Hbm, Han, Hbn. cbn [JS.bind].
  do 2 eexists. split; [reflexivity|]. split; [reflexivity|].
  apply xorBuffers_firstn. unfold Buf.len in Hla. lia.
Qed.

Lemma filled_skip (p : Buffer) (k j : nat) :
  (j <= k)%nat -> filled p k = filled (p ++ repeat 0 j) (k - j).
Proof.
  intros Hj. unfold filled. rewrite <- app_assoc, <- repeat_app. do 2 f_equal. lia.
Qed.

(** [createPremasterSecret_FromPresharedKey] builds the premaster secret
    of RFC 4279 for every key of at most 65535 octets, and raises
    [RangeError] for a longer one. *)
Theorem createPremasterSecret_layout (psk : Buffer) :
  (Buf.len psk <= 2 ^ 16 - 1 ->
   CryptoUtils.createPremasterSecret_FromPresharedKey psk = JS.Ok (premasterLayout psk))
  /\ (2 ^ 16 - 1 < Buf.len psk ->
      CryptoUtils.createPremasterSecret_FromPresharedKey psk = JS.Throw JS.RangeError).
Proof.
  pose proof (len_nonneg psk) as Hn.
  unfold CryptoUtils.createPremasterSecret_FromPresharedKey. cbv zeta. split; intros Hp.
  - unfold Buf.writeUInt16BE, premasterLayout. rewrite alloc_filled.
    replace (Z.to_nat (4 + Buf.len psk * 2)) with (4 + 2 * length psk)%nat
      by (unfold Buf.len; lia).
    fill_step.
    rewrite (@filled_skip _ _ (length psk)) by lia.
    fill_step. fill_step.
    replace (_ - length psk)%nat with 0%nat by lia.
    rewrite filled_done. cbn [app]. rewrite <- !app_assoc. reflexivity.
  - unfold Buf.writeUInt16BE, Buf.writeUIntBE. change (256 ^ Z.of_nat 2) with 65536.
    destruct (Z.ltb_spec (Buf.len psk) 0); [lia|].
    destruct (Z.leb_spec 65536 (Buf.len psk)); [reflexivity | lia].
Qed.

End Expansion.

Lemma PRF_output_length_witness :
  exists out, CryptoUtils.PRF (C := ToyCrypto.crypto) [1; 2; 3; 4] "key expansion" [9] 72
              = JS.Ok (Some out)
              /\ Buf.len out = 72 /\ octets out.
Proof.
  exact (proj1 (@PRF_output_length ToyCrypto.crypto ToyCrypto_laws [1; 2; 3; 4]
                  "key expansion" [9] 72 ltac:(lia)) eq_refl).
Defined.

Lemma PRF_prefix_witness :
  exists shorter longer,
    CryptoUtils.PRF (C := ToyCrypto.crypto) [1; 2; 3; 4] "key expansion" [9] 20
    = JS.Ok (Some shorter)
    /\ CryptoUtils.PRF (C := ToyCrypto.crypto) [1; 2; 3; 4] "key expansion" [9] 72
       = JS.Ok (Some longer)
    /\ shorter = firstn (Z.to_nat 20) longer.
Proof.
  exact (@PRF_prefix ToyCrypto.crypto ToyCrypto_laws [1; 2; 3; 4] "key expansion" [9] 20 72
           eq_refl ltac:(lia)).
Defined.

Lemma createPremasterSecret_layout_witness :
  CryptoUtils.createPremasterSecret_FromPresharedKey [1; 2; 3]
  = JS.Ok [0; 3; 0; 0; 0; 0; 3; 1; 2; 3].
Proof.
  exact (proj1 (@createPremasterSecret_layout [1; 2; 3]) ltac:(vm_compute; discriminate)).
Defined.

(** ** DtlsRecord: records inside a datagram *)

Section RecordsInDatagrams.

Context {C : Crypto} {L : CryptoLaws C}.

(** Reading the header of a record that starts after the octets [pre]. *)
Lemma header_fields_at (pre : Buffer) pt ver ep sq n (body : Buffer) :
  0 <= ver < 2 ^ 16 -> 0 <= ep < 2 ^ 16 -> 0 <= sq < 2 ^ 48 -> 0 <= n < 2 ^ 16 ->
  let B := pre ++ recordHeader pt ver ep sq n ++ body in
  let o := Buf.len pre in
  Buf.index B o = JS.Num (Buf.ToUint8 pt mod 256)
  /\ Buf.readUInt16BE B (o + 1) = JS.Ok ver
  /\ Buf.readUInt16BE B (o + 1 + 2) = JS.Ok ep
  /\ Buf.readUIntBE B (o + 1 + 2 + 2) 6 = JS.Ok sq
  /\ Buf.readUInt16BE B (o + 1 + 2 + 2 + 6) = JS.Ok n.
Proof.
  intros Hv He Hs Hn B o. unfold B, o, recordHeader, Buf.readUInt16BE.
  rewrite <- !app_assoc. split; [|split; [|split; [|split]]].
  - apply index_after. reflexivity.
  - rewrite (app_assoc pre [_]).
    apply readUIntBE_after; [len_side | pow_const; lia].
  - rewrite (app_assoc pre [_]). rewrite (app_assoc _ (Buf.beBytes 2 ver)).
    apply readUIntBE_after; [len_side | pow_const; lia].
  - rewrite (app_assoc pre [_]). rewrite (app_assoc _ (Buf.beBytes 2 ver)).
    rewrite (app_assoc _ (Buf.beBytes 2 ep)).
    apply readUIntBE_after; [len_side | pow_const; lia].
  - rewrite (app_assoc pre [_]). rewrite (app_assoc _ (Buf.beBytes 2 ver)).
    rewrite (app_assoc _ (Buf.beBytes 2 ep)).
    rewrite (app_assoc _ (Buf.beBytes 6 sq)).
    apply readUIntBE_after; [len_side | pow_const; lia].
Qed.

(** Decoding a record made of a header, an IV and a ciphertext that
    starts after [pre] and is followed by [post]: the result is decided
    by the decrypt-and-verify step alone, and the octets consumed are
    those of the record. *)
Lemma fromEncryptedBuffer_AES_at
      (pre post : Buffer) pt ver ep sq (iv ct : Buffer) alg key macAlgorithm macSecret :
  cryptoLoads = true ->
  enums.isBulkNULL alg = false ->
  Buf.len key = enums.getBulkAlgorithmKeySize alg ->
  0 <= ver < 2 ^ 16 -> 0 <= ep < 2 ^ 16 -> 0 <= sq < 2 ^ 48 ->
  Buf.len iv = 16 -> 0 < Buf.len ct -> Buf.len ct + 16 < 2 ^ 16 ->
  Buf.len ct mod 16 = 0 ->
  DtlsRecord.fromEncryptedBuffer
    (pre ++ (recordHeader pt ver ep sq (Buf.len ct + 16) ++ iv ++ ct) ++ post)
    (Some (length pre)) alg key macAlgorithm macSecret
  = (let* c := DtlsRecord.verifyCompressedtext
                 ep sq (JS.Num (Buf.ToUint8 pt mod 256)) ver macAlgorithm macSecret
                 (decipher (enums.getBulkAlgorithmAsString alg) key iv ct) in
     match c with
     | None => JS.Ok None
     | Some f =>
         JS.Ok (Some ({| DtlsRecord.protocolType := JS.Num (Buf.ToUint8 pt mod 256);
                         DtlsRecord.dtlsVersion := ver;
                         DtlsRecord.epoch := ep;
                         DtlsRecord.sequenceNumber := sq;
                         DtlsRecord.fragment := f |}, 13 + 16 + Buf.len ct))
     end).
Proof.
  intros Hc Ha Hk Hv He Hs Hiv Hct Hn Hm.
  rewrite <- !app_assoc.
  set (B := pre ++ _).
  destruct (@header_fields_at pre pt ver ep sq (Buf.len ct + 16) (iv ++ ct ++ post)
              Hv He Hs ltac:(lia)) as (F0 & F1 & F2 & F3 & F4).
  fold B in F0, F1, F2, F3, F4.
  set (o := Buf.len pre) in *.
  pose proof (len_nonneg pre) as Hpre. fold o in Hpre.
  pose proof (len_nonneg post) as Hpost.
  assert (HB : Buf.len B = o + 13 + 16 + Buf.len ct + Buf.len post).
  { unfold B. rewrite !len_app, len_recordHeader, Hiv. unfold o. lia. }
  assert (Hiv' : Buf.copy B (Buf.alloc 16) 0 (o + 1 + 2 + 2 + 6 + 2)
                          (o + 1 + 2 + 2 + 6 + 2 + 16) = iv).
  { unfold B. rewrite (app_assoc pre).
    apply copy_out; [rewrite len_app, len_recordHeader; unfold o; lia | auto]. }
  assert (Hct' : Buf.copy B (Buf.alloc (Buf.len ct)) 0 (o + 1 + 2 + 2 + 6 + 2 + 16)
                          (o + 1 + 2 + 2 + 6 + 2 + 16 + Buf.len ct) = ct).
  { unfold B. rewrite (app_assoc pre). rewrite (app_assoc _ iv).
    apply copy_out; [rewrite !len_app, len_recordHeader, Hiv; unfold o; lia | reflexivity]. }
  assert (Hblock : enums.getBulkAlgorithmBlockSize alg = 16)
    by (destruct alg; try discriminate; reflexivity).
  unfold DtlsRecord.fromEncryptedBuffer, initialOffsetOf.
  replace (Z.of_nat (length pre)) with o by reflexivity.
  rewrite HB.
  destruct (Z.leb_spec (o + 13 + 16 + Buf.len ct + Buf.len post) o); [lia|].
  cbn [JS.bind]. cbv zeta.
  unfold DtlsRecord.HEADER_LENGTH. rewrite Ha, Hblock. cbn [negb orb].
  destruct (Z.ltb_spec (o + 13 + 16 + Buf.len ct + Buf.len post - o) 13); [lia|].
  rewrite F1. cbn [JS.bind]. rewrite F2. cbn [JS.bind]. rewrite F3. cbn [JS.bind].
  rewrite F4. cbn [JS.bind].
  destruct (Z.ltb_spec (o + 13 + 16 + Buf.len ct + Buf.len post - (o + 1 + 2 + 2 + 6 + 2))
                       (Buf.len ct + 16)); [lia|].
  destruct (Z.ltb_spec 16 (Buf.len ct + 16)); [|lia].
  cbn [negb]. rewrite Hiv'. rewrite Hiv. change (16 =? 0) with false.
  replace (Buf.len ct + 16 - 16) with (Buf.len ct) by lia.
  rewrite Hct'.
  unfold CryptoUtils.verifyCrypto. rewrite Hc. cbn [negb].
  unfold NodeCipher.decrypt. rewrite accepts_key by auto. cbn [negb].
  unfold NodeCipher.blockLength. rewrite Hm. cbn [Z.eqb negb JS.bind].
  rewrite F0.
  destruct (DtlsRecord.verifyCompressedtext _ _ _ _ _ _ _) as [[f|]|e]; cbn [JS.bind]; auto.
  rewrite copy_whole. do 3 f_equal. lia.
Qed.

(** The same under the NULL cipher: the fragment is returned as it is,
    unless it is empty. *)
Lemma fromEncryptedBuffer_NULL_at
      (pre post : Buffer) pt ver ep sq (fragment : Buffer) key macAlgorithm macSecret :
  0 <= ver < 2 ^ 16 -> 0 <= ep < 2 ^ 16 -> 0 <= sq < 2 ^ 48 ->
  Buf.len fragment < 2 ^ 16 ->
  DtlsRecord.fromEncryptedBuffer
    (pre ++ (recordHeader pt ver ep sq (Buf.len fragment) ++ fragment) ++ post)
    (Some (length pre)) enums.Bulk_NULL key macAlgorithm macSecret
  = JS.Ok (if Buf.len fragment =? 0 then None
           else Some ({| DtlsRecord.protocolType := JS.Num (Buf.ToUint8 pt mod 256);
                         DtlsRecord.dtlsVersion := ver;
                         DtlsRecord.epoch := ep;
                         DtlsRecord.sequenceNumber := sq;
                         DtlsRecord.fragment := fragment |}, 13 + Buf.len fragment)).
Proof.
  intros Hv He Hs Hn.
  rewrite <- !app_assoc.
  set (B := pre ++ _).
  pose proof (len_nonneg fragment) as Hf.
  destruct (@header_fields_at pre pt ver ep sq (Buf.len fragment) (fragment ++ post)
              Hv He Hs ltac:(lia)) as (F0 & F1 & F2 & F3 & F4).
  fold B in F0, F1, F2, F3, F4.
  set (o := Buf.len pre) in *.
  pose proof (len_nonneg pre) as Hpre. fold o in Hpre.
  pose proof (len_nonneg post) as Hpost.
  assert (HB : Buf.len B = o + 13 + Buf.len fragment + Buf.len post).
  { unfold B. rewrite !len_app, len_recordHeader. unfold o. lia. }
  assert (Hfr : Buf.copy B (Buf.alloc (Buf.len fragment)) 0 (o + 1 + 2 + 2 + 6 + 2 + 0)
                         (o + 1 + 2 + 2 + 6 + 2 + 0 + Buf.len fragment) = fragment).
  { unfold B. rewrite (app_assoc pre).
    apply copy_out; [rewrite len_app, len_recordHeader; unfold o; lia | reflexivity]. }
  unfold DtlsRecord.fromEncryptedBuffer, initialOffsetOf.
  replace (Z.of_nat (length pre)) with o by reflexivity.
  rewrite HB.
  destruct (Z.leb_spec (o + 13 + Buf.len fragment + Buf.len post) o); [lia|].
  cbn [JS.bind]. cbv zeta.
  unfold DtlsRecord.HEADER_LENGTH. cbn [enums.isBulkNULL negb orb].
  destruct (Z.ltb_spec (o + 13 + Buf.len fragment + Buf.len post - o) 13); [lia|].
  rewrite F1. cbn [JS.bind]. rewrite F2. cbn [JS.bind]. rewrite F3. cbn [JS.bind].
  rewrite F4. cbn [JS.bind].
  destruct (Z.ltb_spec (o + 13 + Buf.len fragment + Buf.len post - (o + 1 + 2 + 2 + 6 + 2))
                       (Buf.len fragment)); [lia|].
  destruct (Z.eqb_spec (Buf.len fragment) 0) as [Hz|Hz].
  - destruct (Z.ltb_spec 0 (Buf.len fragment)); [lia|]. reflexivity.
  - destruct (Z.ltb_spec 0 (Buf.len fragment)); [|lia]. cbn [negb JS.bind].
    rewrite Z.sub_0_r. rewrite Hfr, F0, copy_whole. do 3 f_equal. lia.
Qed.

(** A buffer that ends before the record its header announces is not
    decoded, whatever the cipher. *)
Lemma fromEncryptedBuffer_short
      pt ver ep sq n (tail : Buffer) alg key macAlgorithm macSecret :
  0 <= ver < 2 ^ 16 -> 0 <= ep < 2 ^ 16 -> 0 <= sq < 2 ^ 48 -> 0 <= n < 2 ^ 16 ->
  Buf.len tail < n ->
  DtlsRecord.fromEncryptedBuffer (recordHeader pt ver ep sq n ++ tail) None
                                 alg key macAlgorithm macSecret
  = JS.Ok None.
Proof.
  intros Hv He Hs Hn Ht.
  destruct (@header_fields pt ver ep sq n tail Hv He Hs Hn) as (F0 & F1 & F2 & F3 & F4).
  set (B := _ ++ _) in *.
  pose proof (len_nonneg tail) as Hl.
  assert (HB : Buf.len B = 13 + Buf.len tail).
  { unfold B. rewrite len_app, len_recordHeader. reflexivity. }
  unfold DtlsRecord.fromEncryptedBuffer. cbn [initialOffsetOf JS.bind]. cbv zeta.
  unfold DtlsRecord.HEADER_LENGTH. rewrite HB.
  destruct (Z.ltb_spec (13 + Buf.len tail - 0) 13); [lia|].
  change (0 + 1) with 1. change (1 + 2) with 3. change (3 + 2) with 5.
  change (5 + 6) with 11. change (11 + 2) with 13.
  rewrite F1. cbn [JS.bind]. rewrite F2. cbn [JS.bind]. rewrite F3. cbn [JS.bind].
  rewrite F4. cbn [JS.bind].
  destruct (Z.ltb_spec (13 + Buf.len tail - 13) n); [reflexivity | lia].
Qed.

Lemma typedRecord_eq (r : DtlsRecord.t) :
  typedRecord r ->
  {| DtlsRecord.protocolType := JS.Num (Buf.ToUint8 (DtlsRecord.protocolType r) mod 256);
     DtlsRecord.dtlsVersion := DtlsRecord.dtlsVersion r;
     DtlsRecord.epoch := DtlsRecord.epoch r;
     DtlsRecord.sequenceNumber := DtlsRecord.sequenceNumber r;
     DtlsRecord.fragment := DtlsRecord.fragment r |} = r.
Proof.
  intros (t & Ht & Hr). destruct r as [pt v e q f]. cbn in *. subst pt.
  cbn [Buf.ToUint8]. rewrite Z.mod_mod, Z.mod_small by lia. reflexivity.
Qed.

(** The facts about the parts of an encrypted record that the proofs
    below share. *)
Lemma aesEncoding_parts (r : DtlsRecord.t) draw alg key macSecret :
  let iv := randomBytes draw 16 in
  let macHash :=
    createHmac sha1 macSecret
               (macInput (DtlsRecord.epoch r) (DtlsRecord.sequenceNumber r)
                         (DtlsRecord.protocolType r) (DtlsRecord.dtlsVersion r)
                         (DtlsRecord.fragment r)) in
  let ct := cipher (enums.getBulkAlgorithmAsString alg) key iv
                   (paddedPlaintext (DtlsRecord.fragment r) macHash 16) in
  Buf.len iv = 16
  /\ Buf.len ct = Buf.len (DtlsRecord.fragment r) + 21
                  + paddingLengthOf (DtlsRecord.fragment r) macHash 16
  /\ 0 <= paddingLengthOf (DtlsRecord.fragment r) macHash 16 < 16
  /\ Buf.len ct mod 16 = 0
  /\ Buf.len (aesEncoding r draw alg key macSecret) = 29 + Buf.len ct.
Proof.
  intros iv macHash ct.
  assert (Hiv : Buf.len iv = 16) by (apply randomBytes_length; lia).
  assert (Hmac : Buf.len macHash = 20) by (apply (createHmac_length sha1)).
  pose proof (paddingLengthOf_range (DtlsRecord.fragment r) macHash (block := 16)
                                    ltac:(lia)) as Hp.
  pose proof (@len_paddedPlaintext (DtlsRecord.fragment r) macHash 16 ltac:(lia)) as HE.
  pose proof (@paddedLength_multiple (DtlsRecord.fragment r) macHash 16 ltac:(lia)) as Hm.
  assert (Hct : Buf.len ct = Buf.len (paddedPlaintext (DtlsRecord.fragment r) macHash 16)).
  { unfold ct, Buf.len. rewrite cipher_length. reflexivity. }
  split; [exact Hiv|]. split; [rewrite Hct, HE; lia|]. split; [exact Hp|].
  split; [rewrite Hct, HE; exact Hm|].
  unfold aesEncoding. cbv zeta. fold iv macHash ct.
  rewrite !len_app, len_recordHeader, Hiv. lia.
Qed.

(** Under AES-CBC, [toEncryptedBuffer] writes the header, a fresh IV and
    the encryption of fragment, HMAC-SHA1, padding and padding length,
    whichever [macAlgorithm] is passed; the encoding is 29 octets plus a
    whole number of cipher blocks, between 50 and 65 octets longer than
    the fragment. *)
Theorem toEncryptedBuffer_layout
        (r : DtlsRecord.t) (draw : nat) (alg : enums.BulkEncryptionAlgorithm)
        (key : Buffer) (macAlgorithm : enums.MacAlgorithm) (macSecret : Buffer) :
  cryptoLoads = true ->
  enums.isBulkNULL alg = false ->
  Buf.len key = enums.getBulkAlgorithmKeySize alg ->
  wellFormed r ->
  DtlsRecord.toEncryptedBuffer r draw alg key macAlgorithm macSecret
  = JS.Ok (Some (aesEncoding r draw alg key macSecret))
  /\ (Buf.len (aesEncoding r draw alg key macSecret) - 29) mod 16 = 0
  /\ Buf.len (DtlsRecord.fragment r) + 50
     <= Buf.len (aesEncoding r draw alg key macSecret)
     <= Buf.len (DtlsRecord.fragment r) + 65.
Proof.
  intros Hc Ha Hk Hwf.
  destruct (aesEncoding_parts r draw alg key macSecret) as (Hiv & Hct & Hp & Hm & Hlen).
  split; [|split].
  - apply toEncryptedBuffer_AES; assumption.
  - rewrite Hlen. replace (29 + _ - 29) with
      (Buf.len (cipher (enums.getBulkAlgorithmAsString alg) key (randomBytes draw 16)
         (paddedPlaintext (DtlsRecord.fragment r)
            (createHmac sha1 macSecret
               (macInput (DtlsRecord.epoch r) (DtlsRecord.sequenceNumber r)
                  (DtlsRecord.protocolType r) (DtlsRecord.dtlsVersion r)
                  (DtlsRecord.fragment r))) 16))) by lia.
    exact Hm.
  - rewrite Hlen, Hct. lia.
Qed.

(** Decoding at the first octet of an encrypted record returns the
    record and consumes exactly the octets of its encoding, whatever
    precedes and follows it. *)
Lemma aesEncoding_decoded_at
      (r : DtlsRecord.t) (draw : nat) (alg : enums.BulkEncryptionAlgorithm)
      (key macSecret pre post : Buffer) :
  cryptoLoads = true ->
  enums.isBulkNULL alg = false ->
  Buf.len key = enums.getBulkAlgorithmKeySize alg ->
  wellFormed r -> typedRecord r ->
  DtlsRecord.fromEncryptedBuffer
    (pre ++ aesEncoding r draw alg key macSecret ++ post) (Some (length pre))
    alg key enums.Mac_SHA1 macSecret
  = JS.Ok (Some (r, Buf.len (aesEncoding r draw alg key macSecret))).
Proof.
  intros Hc Ha Hk Hwf Hty.
  destruct (aesEncoding_parts r draw alg key macSecret) as (Hiv & Hct & Hp & Hm & Hlen).
  pose proof (len_nonneg (DtlsRecord.fragment r)) as Hn.
  destruct Hwf as (Hv & He & Hs & Hf).
  rewrite Hlen. unfold aesEncoding. cbv zeta.
  rewrite fromEncryptedBuffer_AES_at; auto; try lia.
  rewrite decipher_cipher.
  pose proof (@verifyCompressedtext_padded C L (DtlsRecord.epoch r)
                (DtlsRecord.sequenceNumber r)
                (JS.Num (Buf.ToUint8 (DtlsRecord.protocolType r) mod 256))
                (DtlsRecord.dtlsVersion r) macSecret (DtlsRecord.fragment r)
                Hv He Hs Hf) as Hver.
  cbv zeta in Hver.
  assert (Hmi : macInput (DtlsRecord.epoch r) (DtlsRecord.sequenceNumber r)
                  (JS.Num (Buf.ToUint8 (DtlsRecord.protocolType r) mod 256))
                  (DtlsRecord.dtlsVersion r) (DtlsRecord.fragment r)
                = macInput (DtlsRecord.epoch r) (DtlsRecord.sequenceNumber r)
                    (DtlsRecord.protocolType r)
                    (DtlsRecord.dtlsVersion r) (DtlsRecord.fragment r)).
  { unfold macInput. rewrite ToUint8_idem. reflexivity. }
  rewrite Hmi in Hver. rewrite Hver. cbn [JS.bind].
  rewrite typedRecord_eq by assumption. reflexivity.
Qed.

(** Encrypted records are decoded wherever they sit in a datagram: of two
    records sent one after the other, the first is returned at the
    offset of its first octet, with its own length as [bytesConsumed],
    and the second at the offset that [bytesConsumed] leads to. *)
Theorem records_decoded_in_sequence
        (r1 r2 : DtlsRecord.t) (draw1 draw2 : nat) (alg : enums.BulkEncryptionAlgorithm)
        (key macSecret pre post : Buffer) :
  cryptoLoads = true ->
  enums.isBulkNULL alg = false ->
  Buf.len key = enums.getBulkAlgorithmKeySize alg ->
  wellFormed r1 -> typedRecord r1 -> wellFormed r2 -> typedRecord r2 ->
  let e1 := aesEncoding r1 draw1 alg key macSecret in
  let e2 := aesEncoding r2 draw2 alg key macSecret in
  let datagram := pre ++ e1 ++ e2 ++ post in
  DtlsRecord.fromEncryptedBuffer datagram (Some (length pre))
                                 alg key enums.Mac_SHA1 macSecret
  = JS.Ok (Some (r1, Buf.len e1))
  /\ DtlsRecord.fromEncryptedBuffer datagram (Some (length pre + length e1)%nat)
                                    alg key enums.Mac_SHA1 macSecret
     = JS.Ok (Some (r2, Buf.len e2)).
Proof.
  intros Hc Ha Hk Hw1 Ht1 Hw2 Ht2 e1 e2 datagram. split.
  - unfold datagram, e1. apply aesEncoding_decoded_at; assumption.
  - unfold datagram. rewrite (app_assoc pre e1), <- length_app.
    unfold e2. apply aesEncoding_decoded_at; assumption.
Qed.

(** A truncated record is not decoded: on every proper prefix of an
    encrypted record [fromEncryptedBuffer] returns [null]. *)
Theorem truncated_record_not_decoded
        (r : DtlsRecord.t) (draw : nat) (alg : enums.BulkEncryptionAlgorithm)
        (key : Buffer) (macAlgorithm : enums.MacAlgorithm) (macSecret : Buffer) (k : nat) :
  wellFormed r ->
  (k < length (aesEncoding r draw alg key macSecret))%nat ->
  DtlsRecord.fromEncryptedBuffer (firstn k (aesEncoding r draw alg key macSecret)) None
                                 alg key macAlgorithm macSecret
  = JS.Ok None.
Proof.
  intros Hwf Hk.
  destruct (aesEncoding_parts r draw alg key macSecret) as (Hiv & Hct & Hp & Hm & Hlen).
  pose proof (len_nonneg (DtlsRecord.fragment r)) as Hn.
  destruct Hwf as (Hv & He & Hs & Hf).
  unfold aesEncoding in *. cbv zeta in *.
  set (iv := randomBytes draw 16) in *.
  set (ct := cipher _ _ _ _) in *.
  set (hdr := recordHeader _ _ _ _ _) in *.
  assert (Hh : length hdr = 13%nat).
  { pose proof (len_recordHeader (DtlsRecord.protocolType r) (DtlsRecord.dtlsVersion r)
                  (DtlsRecord.epoch r) (DtlsRecord.sequenceNumber r) (Buf.len ct + 16)) as H.
    fold hdr in H. unfold Buf.len in H. lia. }
  destruct (Nat.lt_ge_cases k 13) as [Hlt|Hge].
  - unfold DtlsRecord.fromEncryptedBuffer. cbn [initialOffsetOf JS.bind]. cbv zeta.
    unfold DtlsRecord.HEADER_LENGTH.
    assert (Hl : Buf.len (firstn k (hdr ++ iv ++ ct)) = Z.of_nat k).
    { unfold Buf.len. rewrite length_firstn, length_app, Hh. lia. }
    rewrite Hl. destruct (Z.ltb_spec (Z.of_nat k - 0) 13); [reflexivity | lia].
  - rewrite firstn_app, Hh, (firstn_all2 (n := k) hdr) by lia.
    unfold hdr. apply fromEncryptedBuffer_short; try lia.
    unfold Buf.len in *. rewrite length_firstn.
    rewrite !length_app, Hh in Hk. rewrite !length_app in *. lia.
Qed.

(** Under the NULL cipher a record with a non-empty fragment is written
    as header and fragment and read back wherever it sits in a datagram;
    a record with an empty fragment is written, but reading it back
    gives [null]. *)
Theorem clear_record_round_trip
        (r : DtlsRecord.t) (draw : nat) (key : Buffer)
        (macAlgorithm : enums.MacAlgorithm) (macSecret pre post : Buffer) :
  wellFormed r -> typedRecord r ->
  DtlsRecord.toEncryptedBuffer r draw enums.Bulk_NULL key macAlgorithm macSecret
  = JS.Ok (Some (clearEncoding r))
  /\ DtlsRecord.fromEncryptedBuffer (pre ++ clearEncoding r ++ post) (Some (length pre))
                                    enums.Bulk_NULL key macAlgorithm macSecret
     = JS.Ok (match DtlsRecord.fragment r with
              | [] => None
              | _ :: _ => Some (r, Buf.len (clearEncoding r))
              end).
Proof.
  intros Hwf Hty. split.
  - apply toEncryptedBuffer_NULL. assumption.
  - destruct Hwf as (Hv & He & Hs & Hf). unfold clearEncoding.
    rewrite fromEncryptedBuffer_NULL_at; auto; try lia.
    rewrite len_app, len_recordHeader, typedRecord_eq by assumption.
    destruct (DtlsRecord.fragment r) as [|x f]; [reflexivity|].
    destruct (Z.eqb_spec (Buf.len (x :: f)) 0) as [Hz|Hz];
      [unfold Buf.len in Hz; cbn [length] in Hz; lia | reflexivity].
Qed.

End RecordsInDatagrams.

Lemma Sample_record_wellFormed : wellFormed Sample.record /\ typedRecord Sample.record.
Proof.
  split.
  - unfold wellFormed. vm_compute. intuition discriminate.
  - exists 23. split; [reflexivity | lia].
Defined.

Lemma Sample_emptyRecord_wellFormed :
  wellFormed Sample.emptyRecord /\ typedRecord Sample.emptyRecord.
Proof.
  split.
  - unfold wellFormed. vm_compute. intuition discriminate.
  - exists 23. split; [reflexivity | lia].
Defined.

Lemma toEncryptedBuffer_layout_witness :
  DtlsRecord.toEncryptedBuffer (C := ToyCrypto.crypto) Sample.record 0 enums.AES_128_CBC
                               Sample.key enums.Mac_NULL Sample.macSecret
  = JS.Ok (Some (aesEncoding (C := ToyCrypto.crypto) Sample.record 0 enums.AES_128_CBC
                             Sample.key Sample.macSecret))
  /\ (Buf.len (aesEncoding (C := ToyCrypto.crypto) Sample.record 0 enums.AES_128_CBC
                           Sample.key Sample.macSecret) - 29) mod 16 = 0
  /\ Buf.len (DtlsRecord.fragment Sample.record) + 50
     <= Buf.len (aesEncoding (C := ToyCrypto.crypto) Sample.record 0 enums.AES_128_CBC
                             Sample.key Sample.macSecret)
     <= Buf.len (DtlsRecord.fragment Sample.record) + 65.
Proof.
  exact (@toEncryptedBuffer_layout ToyCrypto.crypto ToyCrypto_laws Sample.record 0
           enums.AES_128_CBC Sample.key enums.Mac_NULL Sample.macSecret
           eq_refl eq_refl eq_refl (proj1 Sample_record_wellFormed)).
Defined.

Lemma records_decoded_in_sequence_witness :
  let e1 := aesEncoding (C := ToyCrypto.crypto) Sample.record 0 enums.AES_128_CBC
                        Sample.key Sample.macSecret in
  let e2 := aesEncoding (C := ToyCrypto.crypto) Sample.emptyRecord 1 enums.AES_128_CBC
                        Sample.key Sample.macSecret in
  let datagram := [1; 2; 3] ++ e1 ++ e2 ++ [4; 5] in
  DtlsRecord.fromEncryptedBuffer (C := ToyCrypto.crypto) datagram (Some 3%nat)
    enums.AES_128_CBC Sample.key enums.Mac_SHA1 Sample.macSecret
  = JS.Ok (Some (Sample.record, Buf.len e1))
  /\ DtlsRecord.fromEncryptedBuffer (C := ToyCrypto.crypto) datagram
       (Some (3 + length e1)%nat)
       enums.AES_128_CBC Sample.key enums.Mac_SHA1 Sample.macSecret
     = JS.Ok (Some (Sample.emptyRecord, Buf.len e2)).
Proof.
  exact (@records_decoded_in_sequence ToyCrypto.crypto ToyCrypto_laws
           Sample.record Sample.emptyRecord 0 1
           enums.AES_128_CBC Sample.key Sample.macSecret [1; 2; 3] [4; 5]
           eq_refl eq_refl eq_refl
           (proj1 Sample_record_wellFormed) (proj2 Sample_record_wellFormed)
           (proj1 Sample_emptyRecord_wellFormed) (proj2 Sample_emptyRecord_wellFormed)).
Defined.

Lemma truncated_record_not_decoded_witness :
  DtlsRecord.fromEncryptedBuffer (C := ToyCrypto.crypto)
    (firstn 60 (aesEncoding (C := ToyCrypto.crypto) Sample.record 0 enums.AES_128_CBC
                            Sample.key Sample.macSecret))
    None enums.AES_128_CBC Sample.key enums.Mac_SHA1 Sample.macSecret
  = JS.Ok None.
Proof.
  exact (@truncated_record_not_decoded ToyCrypto.crypto ToyCrypto_laws Sample.record 0
           enums.AES_128_CBC Sample.key enums.Mac_SHA1 Sample.macSecret 60
           (proj1 Sample_record_wellFormed) ltac:(vm_compute; lia)).
Defined.

Lemma clear_record_round_trip_witness :
  DtlsRecord.toEncryptedBuffer (C := ToyCrypto.crypto) Sample.record 0 enums.Bulk_NULL
                               [] enums.Mac_NULL []
  = JS.Ok (Some (clearEncoding Sample.record))
  /\ DtlsRecord.fromEncryptedBuffer (C := ToyCrypto.crypto)
       ([] ++ clearEncoding Sample.record ++ [22; 254]) (Some 0%nat)
       enums.Bulk_NULL [] enums.Mac_NULL []
     = JS.Ok (Some (Sample.record, Buf.len (clearEncoding Sample.record))).
Proof.
  exact (@clear_record_round_trip ToyCrypto.crypto Sample.record 0 [] enums.Mac_NULL []
           [] [22; 254] (proj1 Sample_record_wellFormed) (proj2 Sample_record_wellFormed)).
Defined.

(** ** DtlsSession: connecting *)

Ltac session_simpl' :=
  cbn [DtlsSession.set_connection DtlsSession.set_clientRandom
       DtlsSession.clientRandom DtlsSession.serverRandom DtlsSession.masterSecret
       DtlsSession.clientWriteMacSecret DtlsSession.serverWriteMacSecret
       DtlsSession.clientWriteKey DtlsSession.serverWriteKey
       DtlsSession.sp_bulkEncryptionAlgorithm DtlsSession.sp_macAlgorithm
       DtlsSession.sp_compressionMethod
       DtlsSession.bulkEncryptionAlgorithm DtlsSession.macAlgorithm
       DtlsSession.compressionMethod DtlsSession.negotiatedState
       DtlsSession.connectListener DtlsSession.disconnectListener DtlsSession.messageListener
       DtlsSession.dstIpAddress DtlsSession.dstPort DtlsSession.pskIdentity
       DtlsSession.pskPassword DtlsSession.sessionId DtlsSession.nextOutgoingEpoch
       DtlsSession.nextOutgoingSequenceNumber DtlsSession.nextIncomingEpoch
       DtlsSession.nextIncomingSequenceNumber DtlsSession.currentReadState
       DtlsSession.currentWriteState DtlsSession.securityParameters
       DtlsSession.handshakeMessageSequence DtlsSession.allHandshakeMessagesAsBuffer
       DtlsSession.sessionState DtlsSession.messageQueue DtlsSession.draws DtlsSession.events
       DtlsSession.set_transcript DtlsSession.set_handshakeMessageSequence
       DtlsSession.set_outgoing DtlsSession.set_currentReadState
       DtlsSession.set_currentWriteState DtlsSession.set_securityParameters
       DtlsSession.set_sessionState DtlsSession.set_messageQueue DtlsSession.set_draws
       DtlsSession.emit DtlsSession.incrementNextOutgoingSequenceNumber
       DtlsSession.incrementNextOutgoingEpoch].

Section Connecting.

Context {C : Crypto} {L : CryptoLaws C}.

Lemma generateClientRandom_spec (now : Z) (draw : nat) :
  cryptoLoads = true ->
  0 <= utcWithRandomOffset now (S draw) < 2 ^ 32 ->
  DtlsSession.generateClientRandom now draw = JS.Ok (Some (clientRandomAt now draw)).
Proof.
  intros Hc Hu.
  assert (Hutc : DtlsSession.calculateUtcWithRandomOffset now (S draw)
                 = Some (utcWithRandomOffset now (S draw))).
  { unfold DtlsSession.calculateUtcWithRandomOffset, CryptoUtils.verifyCrypto.
    rewrite Hc. reflexivity. }
  unfold DtlsSession.generateClientRandom, CryptoUtils.verifyCrypto.
  rewrite Hc, Hutc. cbn [negb]. cbv zeta.
  assert (Hr : Buf.len (randomBytes draw 28) = 28) by (apply randomBytes_length; lia).
  unfold DtlsSession.CLIENT_RANDOM_LENGTH, DtlsSession.CLIENT_RANDOM_SUFFIX_LENGTH.
  rewrite alloc_filled. change (Z.to_nat 32) with 32%nat.
  rewrite writeUIntBE_filled; [|reflexivity|lia|pow_const; lia].
  cbn [JS.bind]. rewrite copy_filled; [|len_side|reflexivity|unfold Buf.len in Hr; lia].
  replace (_ - length (randomBytes draw 28))%nat with 0%nat by (unfold Buf.len in Hr; lia).
  rewrite filled_done. reflexivity.
Qed.

Lemma len_clientHelloLayout (v : Z) (random : Buffer) (suites comps : list Z) :
  Buf.len (clientHelloLayout v random suites comps)
  = 2 + Buf.len random + 1 + 1 + 2 + 2 * Buf.len suites + 1 + Buf.len comps.
Proof.
  unfold clientHelloLayout.
  rewrite !len_app, !len_beBytes, len_flat_map_beBytes.
  unfold Buf.len. rewrite length_map. cbn [length]. lia.
Qed.

(** [connect] on a session that has no session id and still writes in the
    clear: the client random is drawn, one datagram is sent to the peer,
    a handshake record holding the ClientHello without cookie, with the
    epoch and sequence number at hand; the ClientHello is the whole
    transcript, the next handshake message has sequence 1, the next
    record the following sequence number, and the state is
    [ClientHelloSent]. *)
Theorem connect_sends_ClientHello
        (now port : Z) (ipAddress : string) (pskIdentity pskPassword : Buffer)
        (connectListener : DtlsSession.ConnectListener) (disconnectListener : bool)
        (s : DtlsSession.t) :
  cryptoLoads = true ->
  DtlsSession.sessionId s = None ->
  DtlsSession.bulkEncryptionAlgorithm (DtlsSession.currentWriteState s) = enums.Bulk_NULL ->
  countersInRange s ->
  0 <= utcWithRandomOffset now (S (DtlsSession.draws s)) < 2 ^ 32 ->
  exists s',
    DtlsSession.connect now port ipAddress pskIdentity pskPassword
                        connectListener disconnectListener s = JS.Ok s'
    /\ DtlsSession.events s'
       = DtlsSession.events s
         ++ [DtlsSession.Sent
               (recordHeader (JS.Num enums.ProtocolType_DtlsHandshakeProtocol)
                             enums.DtlsVersion_DTLS_1_0
                             (DtlsSession.nextOutgoingEpoch s)
                             (DtlsSession.nextOutgoingSequenceNumber s)
                             (Buf.len (firstClientHello now s))
                ++ firstClientHello now s)
               port ipAddress]
    /\ DtlsSession.sessionState s' = enums.SessionState_ClientHelloSent
    /\ DtlsSession.allHandshakeMessagesAsBuffer s' = firstClientHello now s
    /\ DtlsSession.handshakeMessageSequence s' = 1
    /\ DtlsSession.nextOutgoingEpoch s' = DtlsSession.nextOutgoingEpoch s
    /\ DtlsSession.nextOutgoingSequenceNumber s'
       = DtlsSession.nextOutgoingSequenceNumber s + 1
    /\ DtlsSession.clientRandom (DtlsSession.securityParameters s')
       = clientRandomAt now (DtlsSession.draws s)
    /\ DtlsSession.messageQueue s' = DtlsSession.messageQueue s.
Proof.
  intros Hc Hsid Hnull Hctr Hu.
  assert (Hr : Buf.len (clientRandomAt now (DtlsSession.draws s)) = 32).
  { unfold clientRandomAt. rewrite len_app, len_beBytes.
    rewrite randomBytes_length by lia. reflexivity. }
  unfold DtlsSession.connect, CryptoUtils.verifyCrypto. rewrite Hc. cbn [negb]. cbv zeta.
  session_simpl'.
  rewrite generateClientRandom_spec by assumption. cbn [JS.bind].
  rewrite Hsid.
  unfold ClientHelloMessage.create, ClientHelloMessage.RANDOM_LENGTH.
  change (enums.isDtlsVersionValid DtlsSession.DTLS_VERSION) with true. rewrite Hr.
  cbn [negb Z.eqb Pos.eqb JS.bind].
  change (Buf.len DtlsSession.supportedCompressionMethods =? 0) with false. cbv iota.
  cbn [JS.bind].
  rewrite ClientHelloMessage_toBuffer_plain;
    [|unfold DtlsSession.DTLS_VERSION, enums.DtlsVersion_DTLS_1_0; lia
     |assumption
     |repeat constructor; vm_compute; intuition discriminate
     |vm_compute; reflexivity].
  cbn [JS.bind].
  assert (Hlen : Buf.len (clientHelloLayout DtlsSession.DTLS_VERSION
                            (clientRandomAt now (DtlsSession.draws s))
                            DtlsSession.supportedCipherSuites
                            DtlsSession.supportedCompressionMethods) = 44).
  { rewrite len_clientHelloLayout, Hr. reflexivity. }
  rewrite wrapHandshake_spec; [|reflexivity|rewrite Hlen; lia|session_simpl'; lia].
  cbn [JS.bind]. session_simpl'.
  rewrite encryptOutgoing_NULL;
    [|session_simpl'; exact Hnull|reflexivity|rewrite len_handshakeWire, Hlen; lia
     |unfold countersInRange in *; session_simpl'; exact Hctr].
  cbn [JS.bind DtlsSession.socketSend]. session_simpl'.
  eexists. split; [reflexivity|]. session_simpl'.
  unfold firstClientHello. cbn [app].
  repeat split; reflexivity.
Qed.

End Connecting.

Lemma connect_sends_ClientHello_witness :
  exists s',
    DtlsSession.connect (C := ToyCrypto.crypto) 1700000000000 5684 "10.0.0.1"
                        (Buf.ofString "Client_identity") [1; 2; 3; 4; 5; 6; 7; 8]
                        DtlsSession.NotifyOnConnect true Scenario.clientHelloSent
    = JS.Ok s'
    /\ DtlsSession.sessionState s' = enums.SessionState_ClientHelloSent
    /\ DtlsSession.allHandshakeMessagesAsBuffer s'
       = firstClientHello (C := ToyCrypto.crypto) 1700000000000 Scenario.clientHelloSent
    /\ DtlsSession.handshakeMessageSequence s' = 1
    /\ DtlsSession.nextOutgoingSequenceNumber s' = 2.
Proof.
  destruct (@connect_sends_ClientHello ToyCrypto.crypto ToyCrypto_laws
              1700000000000 5684 "10.0.0.1"
              (Buf.ofString "Client_identity") [1; 2; 3; 4; 5; 6; 7; 8]
              DtlsSession.NotifyOnConnect true Scenario.clientHelloSent)
    as (s' & H1 & _ & H3 & H4 & H5 & _ & H7 & _).
  - reflexivity.
  - reflexivity.
  - reflexivity.
  - split; vm_compute; split; discriminate.
  - vm_compute. split; [discriminate | reflexivity].
  - exists s'. repeat split; assumption.
Defined.

(** ** DtlsSession: incoming datagrams *)

Section Incoming.

Context {C : Crypto} {L : CryptoLaws C}.

(** One turn of the loop of [onSocketMessage] on an encrypted record
    that starts at the current offset. *)
Lemma onSocketMessage_loop_step (fuel : nat) (pre post : Buffer) (r : DtlsRecord.t)
      (draw : nat) (s : DtlsSession.t) :
  readReady s -> wellFormed r -> typedRecord r ->
  DtlsSession.onSocketMessage_loop
    (S fuel) (pre ++ incomingEncoding r draw s ++ post) (Buf.len pre) s
  = (let* (flow, s') := dispatchRecord r s in
     match flow with
     | DtlsSession.Return => JS.Ok s'
     | DtlsSession.Continue =>
         DtlsSession.onSocketMessage_loop
           fuel (pre ++ incomingEncoding r draw s ++ post)
           (Buf.len pre + Buf.len (incomingEncoding r draw s)) s'
     end).
Proof.
  intros (Hc & Ha & Hmac & Hk) Hwf Hty.
  cbn [DtlsSession.onSocketMessage_loop].
  pose proof (len_nonneg pre) as Hpre. pose proof (len_nonneg post) as Hpost.
  unfold incomingEncoding in *.
  set (alg := DtlsSession.bulkEncryptionAlgorithm (DtlsSession.currentReadState s)) in *.
  set (key := DtlsSession.serverWriteKey (DtlsSession.securityParameters s)) in *.
  set (sec := DtlsSession.serverWriteMacSecret (DtlsSession.securityParameters s)) in *.
  destruct (aesEncoding_parts r draw alg key sec) as (Hiv & Hct & Hp & Hm & Hlen).
  pose proof (len_nonneg (DtlsRecord.fragment r)) as Hn.
  rewrite !len_app.
  destruct (Z.ltb_spec (Buf.len pre)
              (Buf.len pre + (Buf.len (aesEncoding r draw alg key sec) + Buf.len post)));
    [|lia].
  cbn [negb]. unfold Buf.len at 1. rewrite Nat2Z.id. rewrite Hmac.
  rewrite aesEncoding_decoded_at by assumption.
  cbn [JS.bind]. unfold dispatchRecord. reflexivity.
Qed.

(** The application-data branch hands the fragment of the record to
    the message listener. *)
Lemma dispatch_applicationData (epoch sequenceNumber : Z) (data : Buffer) (s : DtlsSession.t) :
  dispatchRecord (applicationDataRecord epoch sequenceNumber data) s
  = JS.Ok (DtlsSession.Continue,
           if DtlsSession.messageListener s
           then DtlsSession.emit (DtlsSession.MessageDelivered data) s else s).
Proof.
  unfold dispatchRecord, applicationDataRecord.
  cbn [DtlsRecord.protocolType enums.ProtocolType_DtlsApplicationDataProtocol].
  unfold DtlsSession.onApplicationDataRecord. cbn [DtlsRecord.fragment].
  unfold DtlsApplicationDataMessage.fromBuffer, initialOffsetOf. cbn [JS.bind]. cbv zeta.
  rewrite !Z.sub_0_r, copy_whole. reflexivity.
Qed.

Lemma applicationDataRecord_ok (epoch sequenceNumber : Z) (draw : nat) (data : Buffer) :
  incomingBounds (epoch, sequenceNumber, draw, data) ->
  wellFormed (applicationDataRecord epoch sequenceNumber data)
  /\ typedRecord (applicationDataRecord epoch sequenceNumber data).
Proof.
  intros (He & Hq & Hd). split.
  - unfold wellFormed, applicationDataRecord, enums.DtlsVersion_DTLS_1_0.
    cbn [DtlsRecord.dtlsVersion DtlsRecord.epoch DtlsRecord.sequenceNumber
         DtlsRecord.fragment]. lia.
  - exists 23. split; [reflexivity | lia].
Qed.

Lemma length_applicationDatagram (rs : list (Z * Z * nat * Buffer)) (s : DtlsSession.t) :
  (length rs <= length (applicationDatagram rs s))%nat.
Proof.
  induction rs as [|[[[e q] d] data] rs IH]; [cbn; lia|].
  cbn [applicationDatagram length]. rewrite length_app.
  unfold incomingEncoding.
  destruct (aesEncoding_parts (applicationDataRecord e q data) d
              (DtlsSession.bulkEncryptionAlgorithm (DtlsSession.currentReadState s))
              (DtlsSession.serverWriteKey (DtlsSession.securityParameters s))
              (DtlsSession.serverWriteMacSecret (DtlsSession.securityParameters s)))
    as (_ & Hct & Hp & _ & Hlen).
  pose proof (len_nonneg (DtlsRecord.fragment (applicationDataRecord e q data))).
  unfold Buf.len in Hlen, Hct. lia.
Qed.

Lemma applicationDatagram_same_keys (rs : list (Z * Z * nat * Buffer)) (s s0 : DtlsSession.t) :
  DtlsSession.currentReadState s = DtlsSession.currentReadState s0 ->
  DtlsSession.securityParameters s = DtlsSession.securityParameters s0 ->
  applicationDatagram rs s = applicationDatagram rs s0.
Proof.
  intros Hr Hp. induction rs as [|[[[e q] d] data] rs IH]; [reflexivity|].
  cbn [applicationDatagram]. unfold incomingEncoding. rewrite Hr, Hp, IH. reflexivity.
Qed.

Lemma onSocketMessage_loop_delivers (rs : list (Z * Z * nat * Buffer)) :
  forall (pre : Buffer) (fuel : nat) (s : DtlsSession.t),
    readReady s -> DtlsSession.messageListener s = true ->
    Forall incomingBounds rs -> (length rs < fuel)%nat ->
    DtlsSession.onSocketMessage_loop fuel (pre ++ applicationDatagram rs s) (Buf.len pre) s
    = JS.Ok (delivered (map snd rs) s).
Proof.
  induction rs as [|[[[e q] d] data] rs IH]; intros pre fuel s Hready Hl Hb Hf.
  - destruct fuel as [|fuel]; [lia|]. cbn [DtlsSession.onSocketMessage_loop applicationDatagram].
    rewrite app_nil_r.
    destruct (Z.ltb_spec (Buf.len pre) (Buf.len pre)); [lia|]. reflexivity.
  - destruct fuel as [|fuel]; [cbn [length] in Hf; lia|].
    inversion Hb as [|? ? Hx Hrest]; subst.
    destruct (applicationDataRecord_ok Hx) as (Hwf & Hty).
    cbn [applicationDatagram].
    rewrite onSocketMessage_loop_step by assumption.
    rewrite dispatch_applicationData, Hl. cbn [JS.bind].
    set (s' := DtlsSession.emit (DtlsSession.MessageDelivered data) s).
    assert (Hsame : applicationDatagram rs s = applicationDatagram rs s')
      by (apply applicationDatagram_same_keys; reflexivity).
    assert (Henc : incomingEncoding (applicationDataRecord e q data) d s
                   = incomingEncoding (applicationDataRecord e q data) d s')
      by reflexivity.
    rewrite Hsame, app_assoc, <- len_app.
    rewrite IH; [reflexivity| | | |cbn [length] in Hf; lia]; assumption.
Qed.

(** Every application-data record of a datagram is delivered: when the
    datagram holds records encrypted under the read state and the server
    write keys, [onSocketMessage] hands their payloads to the message
    listener first to last, whatever epoch and sequence number each
    record carries, and changes nothing else in the session. *)
Theorem application_data_delivered_in_order
        (rs : list (Z * Z * nat * Buffer)) (s : DtlsSession.t) :
  readReady s -> DtlsSession.messageListener s = true ->
  Forall incomingBounds rs ->
  DtlsSession.onSocketMessage (applicationDatagram rs s) s
  = JS.Ok (delivered (map snd rs) s).
Proof.
  intros Hready Hl Hb. unfold DtlsSession.onSocketMessage.
  destruct rs as [|x rs].
  - reflexivity.
  - pose proof (length_applicationDatagram (x :: rs) s) as Hlen.
    pose proof (@onSocketMessage_loop_delivers (x :: rs) []
                  (length (applicationDatagram (x :: rs) s)) s Hready Hl Hb) as H.
    cbn [app] in H. apply H.
    destruct x as [[[e q] d] data]. cbn [applicationDatagram] in *.
    rewrite length_app in *. unfold incomingEncoding in *.
    destruct (aesEncoding_parts (applicationDataRecord e q data) d
                (DtlsSession.bulkEncryptionAlgorithm (DtlsSession.currentReadState s))
                (DtlsSession.serverWriteKey (DtlsSession.securityParameters s))
                (DtlsSession.serverWriteMacSecret (DtlsSession.securityParameters s)))
      as (_ & Hct & Hp & _ & Hl2).
    pose proof (len_nonneg (DtlsRecord.fragment (applicationDataRecord e q data))).
    pose proof (length_applicationDatagram rs s).
    unfold Buf.len in Hl2, Hct. cbn [length]. lia.
Qed.

(** A datagram that holds one encrypted record: the record is
    dispatched, and the loop ends. *)
Lemma onSocketMessage_single_record (r : DtlsRecord.t) (draw : nat) (s : DtlsSession.t) :
  readReady s -> wellFormed r -> typedRecord r ->
  DtlsSession.onSocketMessage (incomingEncoding r draw s) s
  = (let* (flow, s') := dispatchRecord r s in JS.Ok s').
Proof.
  intros Hready Hwf Hty. unfold DtlsSession.onSocketMessage.
  set (enc := incomingEncoding r draw s).
  assert (Hpos : 29 <= Buf.len enc).
  { unfold enc, incomingEncoding.
    destruct (aesEncoding_parts r draw
                (DtlsSession.bulkEncryptionAlgorithm (DtlsSession.currentReadState s))
                (DtlsSession.serverWriteKey (DtlsSession.securityParameters s))
                (DtlsSession.serverWriteMacSecret (DtlsSession.securityParameters s)))
      as (_ & Hct & Hp & _ & Hlen).
    pose proof (len_nonneg (DtlsRecord.fragment r)). lia. }
  destruct (length enc) as [|fuel] eqn:Hfuel; [unfold Buf.len in Hpos; lia|].
  pose proof (@onSocketMessage_loop_step fuel [] [] r draw s Hready Hwf Hty) as H.
  cbn [app] in H. rewrite app_nil_r in H. fold enc in H.
  change (Buf.len []) with 0 in H. rewrite H.
  destruct (dispatchRecord r s) as [[flow s']|e]; cbn [JS.bind]; [|reflexivity].
  destruct flow; [|reflexivity].
  destruct fuel as [|fuel]; [reflexivity|]. cbn [DtlsSession.onSocketMessage_loop].
  destruct (Z.ltb_spec (0 + Buf.len enc) (Buf.len enc)); [lia|]. reflexivity.
Qed.

(** The alert branch: a close notify calls the disconnect listener, every
    other description is ignored; the level plays no part. *)
Lemma dispatch_alert (epoch sequenceNumber level description : Z) (s : DtlsSession.t) :
  dispatchRecord (alertRecord epoch sequenceNumber level description) s
  = JS.Ok (DtlsSession.Continue,
           if (description =? 0) && DtlsSession.disconnectListener s
           then DtlsSession.emit DtlsSession.DisconnectCalled s else s).
Proof.
  unfold dispatchRecord, alertRecord.
  cbn [DtlsRecord.protocolType enums.ProtocolType_DtlsAlertProtocol].
  unfold DtlsSession.onAlertRecord. cbn [DtlsRecord.fragment].
  change (DtlsAlertMessage.fromBuffer [level; description] None)
    with (JS.Ok (Some ({| DtlsAlertMessage.level := JS.Num level;
                          DtlsAlertMessage.description := JS.Num description |}, 2))).
  cbn [JS.bind DtlsAlertMessage.description].
  destruct description as [|p|p]; cbn [Z.eqb andb]; try reflexivity.
Qed.

(** A close-notify alert from the peer calls the disconnect listener
    once; an alert with any other description, whatever its level,
    changes nothing. *)
Theorem alert_close_notify
        (epoch sequenceNumber level description : Z) (draw : nat) (s : DtlsSession.t) :
  readReady s ->
  0 <= epoch < 2 ^ 16 -> 0 <= sequenceNumber < 2 ^ 48 ->
  DtlsSession.onSocketMessage
    (incomingEncoding (alertRecord epoch sequenceNumber level description) draw s) s
  = JS.Ok (if (description =? enums.AlertDescription_CloseNotify)
              && DtlsSession.disconnectListener s
           then DtlsSession.emit DtlsSession.DisconnectCalled s else s).
Proof.
  intros Hready He Hq.
  rewrite onSocketMessage_single_record; [|assumption| |].
  - rewrite dispatch_alert. reflexivity.
  - unfold wellFormed, alertRecord, enums.DtlsVersion_DTLS_1_0, Buf.len.
    cbn [DtlsRecord.dtlsVersion DtlsRecord.epoch DtlsRecord.sequenceNumber
         DtlsRecord.fragment length]. lia.
  - exists 21. split; [reflexivity | lia].
Qed.

(** One turn of the loop on a record in the clear, under the NULL read
    state. *)
Lemma onSocketMessage_loop_step_clear (fuel : nat) (pre post : Buffer) (r : DtlsRecord.t)
      (s : DtlsSession.t) :
  DtlsSession.bulkEncryptionAlgorithm (DtlsSession.currentReadState s) = enums.Bulk_NULL ->
  wellFormed r -> typedRecord r -> DtlsRecord.fragment r <> [] ->
  DtlsSession.onSocketMessage_loop (S fuel) (pre ++ clearEncoding r ++ post) (Buf.len pre) s
  = (let* (flow, s') := dispatchRecord r s in
     match flow with
     | DtlsSession.Return => JS.Ok s'
     | DtlsSession.Continue =>
         DtlsSession.onSocketMessage_loop
           fuel (pre ++ clearEncoding r ++ post)
           (Buf.len pre + Buf.len (clearEncoding r)) s'
     end).
Proof.
  intros Hnull Hwf Hty Hne.
  cbn [DtlsSession.onSocketMessage_loop].
  pose proof (len_nonneg pre) as Hpre. pose proof (len_nonneg post) as Hpost.
  pose proof (len_nonneg (clearEncoding r)) as Hce.
  assert (Hlen : Buf.len (clearEncoding r) = 13 + Buf.len (DtlsRecord.fragment r)).
  { unfold clearEncoding. rewrite len_app, len_recordHeader. reflexivity. }
  pose proof (len_nonneg (DtlsRecord.fragment r)) as Hn.
  rewrite !len_app.
  destruct (Z.ltb_spec (Buf.len pre)
              (Buf.len pre + (Buf.len (clearEncoding r) + Buf.len post))); [|lia].
  cbn [negb]. unfold Buf.len at 1. rewrite Nat2Z.id. rewrite Hnull.
  destruct Hwf as (Hv & He & Hs & Hf).
  unfold clearEncoding at 1.
  rewrite fromEncryptedBuffer_NULL_at by (auto; lia).
  rewrite typedRecord_eq by assumption.
  destruct (Z.eqb_spec (Buf.len (DtlsRecord.fragment r)) 0) as [Hz|Hz].
  - destruct (DtlsRecord.fragment r); [contradiction|].
    unfold Buf.len in Hz. cbn [length] in Hz. lia.
  - cbn [JS.bind]. unfold dispatchRecord. rewrite Hlen. reflexivity.
Qed.

Lemma dispatch_changeCipherSpec (epoch sequenceNumber type : Z) (s : DtlsSession.t) :
  dispatchRecord (changeCipherSpecRecord epoch sequenceNumber type) s
  = JS.Ok (if type =? enums.ChangeCipherSpecType_One
           then (DtlsSession.Continue, afterChangeCipherSpec s)
           else (DtlsSession.Return, s)).
Proof.
  unfold dispatchRecord, changeCipherSpecRecord.
  cbn [DtlsRecord.protocolType enums.ProtocolType_DtlsChangeCipherSpecProtocol].
  unfold DtlsSession.onChangeCipherSpecRecord. cbn [DtlsRecord.fragment].
  change (DtlsChangeCipherSpecMessage.fromBuffer [type] None)
    with (JS.Ok (Some ({| DtlsChangeCipherSpecMessage.type := JS.Num type |}, 1))).
  cbn [JS.bind DtlsChangeCipherSpecMessage.type JS.strict_neq].
  destruct (type =? enums.ChangeCipherSpecType_One); reflexivity.
Qed.

Lemma changeCipherSpecRecord_ok (epoch sequenceNumber type : Z) :
  0 <= epoch < 2 ^ 16 -> 0 <= sequenceNumber < 2 ^ 48 ->
  wellFormed (changeCipherSpecRecord epoch sequenceNumber type)
  /\ typedRecord (changeCipherSpecRecord epoch sequenceNumber type)
  /\ DtlsRecord.fragment (changeCipherSpecRecord epoch sequenceNumber type) <> [].
Proof.
  intros He Hq. split; [|split].
  - unfold wellFormed, changeCipherSpecRecord, enums.DtlsVersion_DTLS_1_0, Buf.len.
    cbn [DtlsRecord.dtlsVersion DtlsRecord.epoch DtlsRecord.sequenceNumber
         DtlsRecord.fragment length]. lia.
  - exists 20. split; [reflexivity | lia].
  - discriminate.
Qed.

(** A ChangeCipherSpec received in the clear replaces the read state by
    the negotiated one at once: the records that follow it in the same
    datagram are decrypted under the new state and delivered.  With a
    type octet other than 1 the handler returns: the read state stays
    and the rest of the datagram is not looked at. *)
Theorem change_cipher_spec_switches_read_state
        (epoch sequenceNumber type : Z) (rs : list (Z * Z * nat * Buffer))
        (post : Buffer) (s : DtlsSession.t) :
  DtlsSession.bulkEncryptionAlgorithm (DtlsSession.currentReadState s) = enums.Bulk_NULL ->
  0 <= epoch < 2 ^ 16 -> 0 <= sequenceNumber < 2 ^ 48 ->
  (readReady (afterChangeCipherSpec s) -> DtlsSession.messageListener s = true ->
   Forall incomingBounds rs ->
   DtlsSession.onSocketMessage
     (clearEncoding (changeCipherSpecRecord epoch sequenceNumber
                                            enums.ChangeCipherSpecType_One)
      ++ applicationDatagram rs (afterChangeCipherSpec s)) s
   = JS.Ok (delivered (map snd rs) (afterChangeCipherSpec s)))
  /\ (type <> enums.ChangeCipherSpecType_One ->
      DtlsSession.onSocketMessage
        (clearEncoding (changeCipherSpecRecord epoch sequenceNumber type) ++ post) s
      = JS.Ok s).
Proof.
  intros Hnull He Hq. split.
  - intros Hready Hl Hb.
    destruct (@changeCipherSpecRecord_ok epoch sequenceNumber enums.ChangeCipherSpecType_One
                He Hq) as (Hwf & Hty & Hne).
    unfold DtlsSession.onSocketMessage.
    set (ccs := clearEncoding _).
    assert (Hccs : length ccs = 14%nat) by reflexivity.
    rewrite length_app, Hccs.
    replace (14 + length (applicationDatagram rs (afterChangeCipherSpec s)))%nat
      with (S (13 + length (applicationDatagram rs (afterChangeCipherSpec s)))) by lia.
    pose proof (@onSocketMessage_loop_step_clear
                  (13 + length (applicationDatagram rs (afterChangeCipherSpec s))) [] 
                  (applicationDatagram rs (afterChangeCipherSpec s))
                  (changeCipherSpecRecord epoch sequenceNumber enums.ChangeCipherSpecType_One)
                  s Hnull Hwf Hty Hne) as H.
    cbn [app] in H. fold ccs in H. change (Buf.len []) with 0 in H. rewrite H.
    rewrite dispatch_changeCipherSpec. cbn [Z.eqb Pos.eqb enums.ChangeCipherSpecType_One JS.bind].
    replace (0 + Buf.len ccs) with (Buf.len ccs) by lia.
    apply onSocketMessage_loop_delivers; try assumption.
    pose proof (length_applicationDatagram rs (afterChangeCipherSpec s)). lia.
  - intros Ht.
    destruct (@changeCipherSpecRecord_ok epoch sequenceNumber type He Hq)
      as (Hwf & Hty & Hne).
    unfold DtlsSession.onSocketMessage.
    set (ccs := clearEncoding _).
    assert (Hccs : length ccs = 14%nat).
    { unfold ccs, clearEncoding. rewrite length_app.
      pose proof (len_recordHeader
                    (DtlsRecord.protocolType (changeCipherSpecRecord epoch sequenceNumber type))
                    (DtlsRecord.dtlsVersion (changeCipherSpecRecord epoch sequenceNumber type))
                    (DtlsRecord.epoch (changeCipherSpecRecord epoch sequenceNumber type))
                    (DtlsRecord.sequenceNumber
                       (changeCipherSpecRecord epoch sequenceNumber type))
                    (Buf.len (DtlsRecord.fragment
                                (changeCipherSpecRecord epoch sequenceNumber type)))) as Hh.
      unfold Buf.len in Hh at 1. cbn [DtlsRecord.fragment changeCipherSpecRecord length] in *.
      lia. }
    rewrite length_app, Hccs.
    replace (14 + length post)%nat with (S (13 + length post)) by lia.
    pose proof (@onSocketMessage_loop_step_clear
                  (13 + length post) [] post
                  (changeCipherSpecRecord epoch sequenceNumber type)
                  s Hnull Hwf Hty Hne) as H.
    cbn [app] in H. fold ccs in H. change (Buf.len []) with 0 in H. rewrite H.
    rewrite dispatch_changeCipherSpec.
    destruct (Z.eqb_spec type enums.ChangeCipherSpecType_One); [contradiction|].
    reflexivity.
Qed.

(** [Buffer.compare] returns 0 on equal buffers only. *)
Lemma compare_zero (a b : Buffer) : Buf.compare a b = 0 -> a = b.
Proof.
  revert b. induction a as [|x a IH]; intros [|y b]; cbn [Buf.compare];
    try discriminate; [reflexivity|].
  destruct (Z.ltb_spec x y); [discriminate|].
  destruct (Z.ltb_spec y x); [discriminate|].
  intros Hc. f_equal; [lia | apply IH; exact Hc].
Qed.

(** A handshake record that holds one whole message: the message is
    parsed and the handler of its type is called. *)
Lemma onHandshakeRecord_whole (epoch sequenceNumber type messageSequence : Z)
      (body : Buffer) (s : DtlsSession.t) :
  0 <= type < 256 -> 0 <= messageSequence < 2 ^ 16 -> Buf.len body < 2 ^ 24 ->
  let m := wholeMessage type messageSequence body in
  DtlsSession.onHandshakeRecord (handshakeRecord epoch sequenceNumber m) s
  = match type with
    | 0x03 => DtlsSession.onHelloVerifyRequest m s
    | 0x02 => DtlsSession.onServerHello m s
    | 0x0e => DtlsSession.onServerHelloDone m s
    | 0x14 => DtlsSession.onFinished m s
    | _ => JS.Ok (DtlsSession.Continue, s)
    end.
Proof.
  intros Ht Hq Hb m. pose proof (len_nonneg body) as Hn.
  unfold DtlsSession.onHandshakeRecord, handshakeRecord. cbn [DtlsRecord.fragment].
  assert (Hlay : handshakeLayout m
                 = [type] ++ Buf.beBytes 3 (Buf.len body) ++ Buf.beBytes 2 messageSequence
                   ++ Buf.beBytes 3 0 ++ Buf.beBytes 3 (Buf.len body) ++ body ++ []).
  { unfold handshakeLayout, m, wholeMessage.
    cbn [DtlsHandshakeMessage.messageType DtlsHandshakeMessage.length
         DtlsHandshakeMessage.messageSequence DtlsHandshakeMessage.fragmentOffset
         DtlsHandshakeMessage.fragmentLength DtlsHandshakeMessage.message Buf.ToUint8].
    rewrite app_nil_r, Z.mod_small by lia. reflexivity. }
  rewrite Hlay.
  rewrite DtlsHandshakeMessage_fromBuffer_layout by (auto; lia).
  cbn [JS.bind]. fold (wholeMessage type messageSequence body). fold m.
  cbn [DtlsHandshakeMessage.messageType m wholeMessage]. reflexivity.
Qed.

Lemma handshakeRecord_ok (epoch sequenceNumber type messageSequence : Z) (body : Buffer) :
  0 <= epoch < 2 ^ 16 -> 0 <= sequenceNumber < 2 ^ 48 -> Buf.len body <= 2 ^ 14 - 12 ->
  let r := handshakeRecord epoch sequenceNumber (wholeMessage type messageSequence body) in
  wellFormed r /\ typedRecord r /\ DtlsRecord.fragment r <> [].
Proof.
  intros He Hq Hb r. split; [|split].
  - unfold wellFormed, r, handshakeRecord, enums.DtlsVersion_DTLS_1_0.
    cbn [DtlsRecord.dtlsVersion DtlsRecord.epoch DtlsRecord.sequenceNumber
         DtlsRecord.fragment].
    unfold handshakeLayout. rewrite !len_app, !len_beBytes.
    cbn [DtlsHandshakeMessage.message wholeMessage]. unfold Buf.len in *. cbn [length]. lia.
  - exists 22. split; [reflexivity | lia].
  - discriminate.
Qed.

(** A server Finished whose verify data differ from the ones the session
    computes is dropped: the session is left exactly as it was (state,
    queue, transcript, counters), and no listener is called. *)
Theorem wrong_server_Finished_is_dropped
        (epoch sequenceNumber messageSequence : Z) (verifyData expected : Buffer)
        (draw : nat) (s : DtlsSession.t) :
  readReady s ->
  0 <= epoch < 2 ^ 16 -> 0 <= sequenceNumber < 2 ^ 48 -> 0 <= messageSequence < 2 ^ 16 ->
  Buf.len verifyData = 12 ->
  DtlsSession.verifyData "server finished" s = JS.Ok (Some expected) ->
  verifyData <> expected ->
  DtlsSession.onSocketMessage
    (incomingEncoding
       (handshakeRecord epoch sequenceNumber
                        (wholeMessage enums.MessageType_Finished messageSequence verifyData))
       draw s) s
  = JS.Ok s.
Proof.
  intros Hready He Hq Hm Hl Hv Hne.
  destruct (@handshakeRecord_ok epoch sequenceNumber enums.MessageType_Finished
              messageSequence verifyData He Hq ltac:(lia)) as (Hwf & Hty & _).
  rewrite onSocketMessage_single_record by assumption.
  unfold dispatchRecord.
  cbn [handshakeRecord DtlsRecord.protocolType enums.ProtocolType_DtlsHandshakeProtocol].
  fold (handshakeRecord epoch sequenceNumber
          (wholeMessage enums.MessageType_Finished messageSequence verifyData)).
  rewrite onHandshakeRecord_whole by (unfold enums.MessageType_Finished; lia).
  cbn [enums.MessageType_Finished]. unfold DtlsSession.onFinished.
  cbn [wholeMessage DtlsHandshakeMessage.message].
  rewrite <- (app_nil_r verifyData) at 1.
  rewrite FinishedMessage_fromBuffer_twelve by assumption.
  cbn [JS.bind]. rewrite Hv. cbn [JS.bind FinishedMessage.verifyData].
  destruct (Z.eqb_spec (Buf.compare expected verifyData) 0) as [Hz|Hz].
  - apply compare_zero in Hz. congruence.
  - reflexivity.
Qed.

(** A datagram that holds one record in the clear: the record is
    dispatched, and the loop ends. *)
Lemma onSocketMessage_single_record_clear (r : DtlsRecord.t) (s : DtlsSession.t) :
  DtlsSession.bulkEncryptionAlgorithm (DtlsSession.currentReadState s) = enums.Bulk_NULL ->
  wellFormed r -> typedRecord r -> DtlsRecord.fragment r <> [] ->
  DtlsSession.onSocketMessage (clearEncoding r) s
  = (let* (flow, s') := dispatchRecord r s in JS.Ok s').
Proof.
  intros Hnull Hwf Hty Hne. unfold DtlsSession.onSocketMessage.
  set (enc := clearEncoding r).
  assert (Hpos : 13 <= Buf.len enc).
  { unfold enc, clearEncoding. rewrite len_app, len_recordHeader.
    pose proof (len_nonneg (DtlsRecord.fragment r)). lia. }
  destruct (length enc) as [|fuel] eqn:Hfuel; [unfold Buf.len in Hpos; lia|].
  pose proof (@onSocketMessage_loop_step_clear fuel [] [] r s Hnull Hwf Hty Hne) as H.
  cbn [app] in H. rewrite app_nil_r in H. fold enc in H.
  change (Buf.len []) with 0 in H. rewrite H.
  destruct (dispatchRecord r s) as [[flow s']|e]; cbn [JS.bind]; [|reflexivity].
  destruct flow; [|reflexivity].
  destruct fuel as [|fuel]; [reflexivity|]. cbn [DtlsSession.onSocketMessage_loop].
  destruct (Z.ltb_spec (0 + Buf.len enc) (Buf.len enc)); [lia|]. reflexivity.
Qed.

(** A ServerHello received in the clear is added to the transcript and
    its random is stored.  TLS_PSK_WITH_AES_128_CBC_SHA selects
    AES-128-CBC with HMAC-SHA1, TLS_PSK_WITH_AES_256_CBC_SHA selects
    AES-256-CBC with HMAC-SHA1, any other suite leaves the algorithms as
    they were; nothing is sent, and state, counters and read and write
    states stay. *)
Theorem ServerHello_selects_cipher_suite
        (epoch sequenceNumber messageSequence dtlsVersion cipherSuite compressionMethod : Z)
        (random sessionId : Buffer) (s : DtlsSession.t) :
  DtlsSession.bulkEncryptionAlgorithm (DtlsSession.currentReadState s) = enums.Bulk_NULL ->
  0 <= epoch < 2 ^ 16 -> 0 <= sequenceNumber < 2 ^ 48 -> 0 <= messageSequence < 2 ^ 16 ->
  0 <= dtlsVersion < 2 ^ 16 -> 0 <= cipherSuite < 2 ^ 16 ->
  Buf.len random = 32 -> 2 <= Buf.len sessionId <= 255 ->
  let m := wholeMessage enums.MessageType_ServerHello messageSequence
                        (serverHelloLayout dtlsVersion random sessionId cipherSuite
                                           compressionMethod) in
  DtlsSession.onSocketMessage (clearEncoding (handshakeRecord epoch sequenceNumber m)) s
  = JS.Ok (DtlsSession.set_securityParameters
             (afterServerHelloParameters random cipherSuite compressionMethod
                                         (DtlsSession.securityParameters s))
             (DtlsSession.set_transcript
                (DtlsSession.allHandshakeMessagesAsBuffer s ++ handshakeLayout m) s)).
Proof.
  intros Hnull He Hq Hm Hv Hc Hr Hi m.
  assert (Hbody : Buf.len (serverHelloLayout dtlsVersion random sessionId cipherSuite
                                             compressionMethod) = 38 + Buf.len sessionId).
  { unfold serverHelloLayout. rewrite !len_app, !len_beBytes, Hr.
    unfold Buf.len. cbn [length]. lia. }
  destruct (@handshakeRecord_ok epoch sequenceNumber enums.MessageType_ServerHello
              messageSequence
              (serverHelloLayout dtlsVersion random sessionId cipherSuite compressionMethod)
              He Hq ltac:(lia)) as (Hwf & Hty & Hne).
  fold m in Hwf, Hty, Hne.
  rewrite onSocketMessage_single_record_clear by assumption.
  unfold dispatchRecord.
  cbn [handshakeRecord DtlsRecord.protocolType enums.ProtocolType_DtlsHandshakeProtocol].
  fold (handshakeRecord epoch sequenceNumber m). unfold m at 1.
  rewrite onHandshakeRecord_whole by (unfold enums.MessageType_ServerHello; lia).
  cbn [enums.MessageType_ServerHello]. fold m.
  unfold DtlsSession.onServerHello.
  cbn [m wholeMessage DtlsHandshakeMessage.message].
  rewrite ServerHelloMessage_fromBuffer_fields by (auto; lia).
  cbn [JS.bind].
  fold (wholeMessage 2 messageSequence
          (serverHelloLayout dtlsVersion random sessionId cipherSuite compressionMethod)).
  change (wholeMessage 2 messageSequence _) with m.
  rewrite DtlsHandshakeMessage_toBuffer_layout
    by (cbn [m wholeMessage DtlsHandshakeMessage.length DtlsHandshakeMessage.messageSequence
             DtlsHandshakeMessage.fragmentOffset DtlsHandshakeMessage.fragmentLength];
        rewrite ?Hbody; lia).
  cbn [JS.bind]. cbv zeta.
  cbn [ServerHelloMessage.cipherSuite ServerHelloMessage.compressionMethod
       ServerHelloMessage.random].
  unfold afterServerHelloParameters.
  destruct (cipherSuite =? enums.CipherSuite_TLS_PSK_WITH_AES_128_CBC_SHA);
    [|destruct (cipherSuite =? enums.CipherSuite_TLS_PSK_WITH_AES_256_CBC_SHA)];
    cbn [orb andb];
    try (destruct compressionMethod as [|p|p]; cbn [Z.eqb enums.CompressionMethod_NULL]);
    cbn [JS.bind]; session_simpl'; reflexivity.
Qed.

End Incoming.

Lemma finishedSent_readReady : readReady (C := ToyCrypto.crypto) Scenario.finishedSent.
Proof. repeat split. Defined.

Lemma application_data_delivered_in_order_witness :
  let rs := [(1, 7, 0%nat, [104; 105]); (0, 3, 1%nat, [33])] in
  DtlsSession.onSocketMessage (C := ToyCrypto.crypto)
    (applicationDatagram (C := ToyCrypto.crypto) rs Scenario.finishedSent)
    Scenario.finishedSent
  = JS.Ok (delivered [[104; 105]; [33]] Scenario.finishedSent).
Proof.
  exact (@application_data_delivered_in_order ToyCrypto.crypto ToyCrypto_laws
           [(1, 7, 0%nat, [104; 105]); (0, 3, 1%nat, [33])] Scenario.finishedSent
           finishedSent_readReady eq_refl
           ltac:(repeat constructor; vm_compute; discriminate)).
Defined.

Lemma alert_close_notify_witness :
  DtlsSession.onSocketMessage (C := ToyCrypto.crypto)
    (incomingEncoding (C := ToyCrypto.crypto)
       (alertRecord 1 4 enums.AlertLevel_Warning enums.AlertDescription_CloseNotify)
       0 Scenario.finishedSent)
    Scenario.finishedSent
  = JS.Ok (DtlsSession.emit DtlsSession.DisconnectCalled Scenario.finishedSent).
Proof.
  exact (@alert_close_notify ToyCrypto.crypto ToyCrypto_laws
           1 4 enums.AlertLevel_Warning enums.AlertDescription_CloseNotify 0
           Scenario.finishedSent finishedSent_readReady
           ltac:(lia) ltac:(lia)).
Defined.

Lemma change_cipher_spec_switches_read_state_witness :
  let s := DtlsSession.set_currentReadState Scenario.noState Scenario.finishedSent in
  DtlsSession.onSocketMessage (C := ToyCrypto.crypto)
    (clearEncoding (changeCipherSpecRecord 0 2 enums.ChangeCipherSpecType_One)
     ++ applicationDatagram (C := ToyCrypto.crypto) [(1, 0, 0%nat, [104; 105])]
                            (afterChangeCipherSpec s)) s
  = JS.Ok (delivered [[104; 105]] (afterChangeCipherSpec s))
  /\ DtlsSession.onSocketMessage (C := ToyCrypto.crypto)
       (clearEncoding (changeCipherSpecRecord 0 2 2) ++ [1; 2; 3]) s
     = JS.Ok s.
Proof.
  intros s.
  destruct (@change_cipher_spec_switches_read_state ToyCrypto.crypto ToyCrypto_laws
              0 2 2 [(1, 0, 0%nat, [104; 105])] [1; 2; 3] s
              eq_refl ltac:(lia) ltac:(lia)) as (H1 & H2).
  split.
  - apply H1.
    + repeat split.
    + reflexivity.
    + repeat constructor; vm_compute; discriminate.
  - apply H2. discriminate.
Defined.

Lemma wrong_server_Finished_is_dropped_witness :
  DtlsSession.onSocketMessage (C := ToyCrypto.crypto)
    (incomingEncoding (C := ToyCrypto.crypto)
       (handshakeRecord 1 0 (wholeMessage enums.MessageType_Finished 3 (repeat 0 12)))
       0 Scenario.finishedSent)
    Scenario.finishedSent
  = JS.Ok Scenario.finishedSent.
Proof.
  apply (@wrong_server_Finished_is_dropped ToyCrypto.crypto ToyCrypto_laws
           1 0 3 (repeat 0 12) (DtlsHandshakeMessage.message Scenario.serverFinished)
           0 Scenario.finishedSent finishedSent_readReady).
  - lia.
  - lia.
  - lia.
  - reflexivity.
  - vm_compute. reflexivity.
  - vm_compute. discriminate.
Defined.

Lemma ServerHello_selects_cipher_suite_witness :
  let m := wholeMessage enums.MessageType_ServerHello 1
             (serverHelloLayout enums.DtlsVersion_DTLS_1_0 (repeat 1 32) [9; 9]
                                enums.CipherSuite_TLS_PSK_WITH_AES_128_CBC_SHA
                                enums.CompressionMethod_NULL) in
  DtlsSession.onSocketMessage (C := ToyCrypto.crypto)
    (clearEncoding (handshakeRecord 0 1 m)) Scenario.clientHelloSent
  = JS.Ok (DtlsSession.set_securityParameters
             (afterServerHelloParameters (repeat 1 32)
                enums.CipherSuite_TLS_PSK_WITH_AES_128_CBC_SHA enums.CompressionMethod_NULL
                Scenario.noParameters)
             (DtlsSession.set_transcript (repeat 0 63 ++ handshakeLayout m)
                                         Scenario.clientHelloSent)).
Proof.
  intros m.
  apply (@ServerHello_selects_cipher_suite ToyCrypto.crypto
           0 1 1 enums.DtlsVersion_DTLS_1_0
           enums.CipherSuite_TLS_PSK_WITH_AES_128_CBC_SHA enums.CompressionMethod_NULL
           (repeat 1 32) [9; 9] Scenario.clientHelloSent).
  - reflexivity.
  - lia.
  - lia.
  - lia.
  - vm_compute. split; [discriminate | reflexivity].
  - vm_compute. split; [discriminate | reflexivity].
  - reflexivity.
  - vm_compute. split; discriminate.
Defined.

(** ** DtlsSession: sending out of range *)

Section SendingBounds.

Context {C : Crypto}.

(** Once connected, [sendApplicationData] raises [RangeError] for a
    payload of more than 2^14 octets, and for every payload once the
    outgoing sequence number has passed 2^48 - 1 or the epoch 2^16 - 1:
    the session does not start a new epoch on its own. *)
Theorem sendApplicationData_out_of_range (data : Buffer) (s : DtlsSession.t) :
  DtlsSession.sessionState s = enums.SessionState_Connected ->
  2 ^ 14 < Buf.len data
  \/ 2 ^ 48 - 1 < DtlsSession.nextOutgoingSequenceNumber s
  \/ 2 ^ 16 - 1 < DtlsSession.nextOutgoingEpoch s ->
  DtlsSession.sendApplicationData data s = JS.Throw JS.RangeError.
Proof.
  intros Hst Hout. unfold DtlsSession.sendApplicationData.
  rewrite Hst.
  change (JS.strict_neq enums.SessionState_Connected enums.SessionState_Connected)
    with false. cbv iota.
  unfold DtlsApplicationDataMessage.create. cbn [JS.bind].
  unfold DtlsApplicationDataMessage.toBuffer. cbn [DtlsApplicationDataMessage.data].
  cbv zeta. rewrite copy_whole.
  unfold DtlsSession.encryptOutgoing, DtlsRecord.createFromPlaintext,
    DtlsRecord.MAX_PLAINTEXT_FRAGMENT_LENGTH.
  change (enums.isProtocolTypeValid enums.ProtocolType_DtlsApplicationDataProtocol)
    with true.
  change (enums.isDtlsVersionValid enums.DtlsVersion_DTLS_1_0) with true.
  cbn [negb].
  destruct (Z.ltb_spec (DtlsSession.nextOutgoingEpoch s) 0);
    [reflexivity|].
  destruct (Z.ltb_spec (2 ^ 16 - 1) (DtlsSession.nextOutgoingEpoch s));
    [reflexivity|].
  cbn [orb].
  destruct (Z.ltb_spec (DtlsSession.nextOutgoingSequenceNumber s) 0);
    [reflexivity|].
  destruct (Z.ltb_spec (2 ^ 48 - 1) (DtlsSession.nextOutgoingSequenceNumber s));
    [reflexivity|].
  cbn [orb].
  destruct (_ <? Buf.len data) eqn:E; [reflexivity|].
  apply Z.ltb_ge in E. change (2 ^ 14) with 16384 in Hout. lia.
Qed.

End SendingBounds.

Lemma sendApplicationData_out_of_range_witness :
  DtlsSession.sendApplicationData (C := ToyCrypto.crypto) [72; 105]
    (DtlsSession.set_outgoing 1 (2 ^ 48)
       (DtlsSession.set_sessionState enums.SessionState_Connected Scenario.finishedSent))
  = JS.Throw JS.RangeError.
Proof.
  apply (@sendApplicationData_out_of_range ToyCrypto.crypto).
  - reflexivity.
  - right. left. vm_compute. reflexivity.
Defined.
